(** * Gecko: activity lifecycle, contract hour ledger and invoice generation

    A shallow embedding of the back end's business code
    ([services/activityService.js], [services/invoiceService.js],
    [controllers/activities.js], [controllers/contracts.js],
    [controllers/invoices.js], [lib/validations.js], [lib/errors.js],
    [middleware/errorHandler.js]) and of the TypeScript routes that
    re-implement three of its endpoints.

    Numbers are JavaScript numbers, that is IEEE 754 binary64: they are
    embedded as Rocq's primitive floats, so sums, products and comparisons
    round and order as the program's do.  A [Date] is its time value, the
    number of milliseconds since the epoch.  The database is a record of
    tables, each table the list of its rows in the order the store returns
    them; every [await]ed call of the Prisma client is a step of a
    state-and-exception monad over it.  A write that changes rows changes
    them where they are in the list, though the store promises no order for
    a query without [orderBy]: what is stated of a table after such a write
    is stated of its rows and their number, not of their positions.  Requests are handled one at a time:
    the interleaving of concurrent requests is outside this development.
    The proofs do not assume that identifiers are unique within a table. *)

From Stdlib Require Import ZArith List String Ascii Bool Lia Floats Uint63.
From Stdlib Require Import Permutation Sorted.
Import ListNotations.

Set Implicit Arguments.
Open Scope string_scope.
Open Scope Z_scope.

(** ** JavaScript values *)

(** A field of a JSON body or of a Prisma [data] object: absent, [null], or
    a value. *)
Inductive Nullable (A : Type) : Type :=
| undefined
| null
| value (a : A).
Arguments undefined {A}.
Arguments null {A}.

(** What a nullable column receives on [create]: an absent key is [NULL]. *)
Definition to_column {A} (x : Nullable A) : option A :=
  match x with
  | value a => Some a
  | _ => None
  end.

(** What an [update] does with the key: an absent key leaves the column. *)
Definition to_patch {A} (x : Nullable A) : option (option A) :=
  match x with
  | undefined => None
  | null => Some None
  | value a => Some (Some a)
  end.

(** Truthiness, as [if (x)], [x && ...], [x || ...] and [x ? ... : ...] test
    it. *)
Definition truthy_string (s : string) : bool := negb (s =? "")%string.

Definition truthy_number (x : float) : bool :=
  negb ((x =? 0)%float || is_nan x).

Definition truthy (x : Nullable string) : bool :=
  match x with
  | value s => truthy_string s
  | _ => false
  end.

(** A [Date] is its time value in milliseconds; valid dates lie within
    8.64e15 of the epoch, where every integer is a binary64 number. *)
Definition Date : Type := Z.

Definition getTime (d : Date) : float :=
  if d <? 0 then (- of_uint63 (Uint63.of_Z (- d)))%float
  else of_uint63 (Uint63.of_Z d).

(** ** The schema (enumerations and tables of the migration) *)

Inductive UserRole : Set := ADMIN | WORKER.
Inductive ContractStatus : Set := ACTIVE | CLOSED.
Inductive ActivityStatus : Set :=
  UNASSIGNED | SCHEDULED | IN_PROGRESS | DONE | VERIFIED | INVOICED.
Inductive InvoiceType : Set := CLIENT_BILL | WORKER_PAYOUT.
Inductive InvoiceStatus : Set := DRAFT | SENT | PAID.

Definition ActivityStatus_eqb (a b : ActivityStatus) : bool :=
  match a, b with
  | UNASSIGNED, UNASSIGNED | SCHEDULED, SCHEDULED
  | IN_PROGRESS, IN_PROGRESS | DONE, DONE
  | VERIFIED, VERIFIED | INVOICED, INVOICED => true
  | _, _ => false
  end.

(** The name of a status on the wire, and the value the store reads back
    from a name; a name outside the enumeration has none. *)
Definition ActivityStatus_of_string (s : string) : option ActivityStatus :=
  if (s =? "UNASSIGNED")%string then Some UNASSIGNED
  else if (s =? "SCHEDULED")%string then Some SCHEDULED
  else if (s =? "IN_PROGRESS")%string then Some IN_PROGRESS
  else if (s =? "DONE")%string then Some DONE
  else if (s =? "VERIFIED")%string then Some VERIFIED
  else if (s =? "INVOICED")%string then Some INVOICED
  else None.

Definition ActivityStatus_to_string (s : ActivityStatus) : string :=
  match s with
  | UNASSIGNED => "UNASSIGNED"
  | SCHEDULED => "SCHEDULED"
  | IN_PROGRESS => "IN_PROGRESS"
  | DONE => "DONE"
  | VERIFIED => "VERIFIED"
  | INVOICED => "INVOICED"
  end.

(** The columns [createdAt], [updatedAt], [generatedAt] and [evidenceUrl],
    which no code below reads or writes, are left out of the rows. *)
Module User.
Record t : Type := mk {
  id : string;
  name : string;
  role : UserRole;
  email : string;
  hourlyRate : float;
  specialty : option string
}.
End User.

Module Client.
Record t : Type := mk {
  id : string;
  name : string;
  contactName : string;
  email : string;
  billingRate : option float
}.
End Client.

Module Contract.
Record t : Type := mk {
  id : string;
  clientId : string;
  orderNumber : string;
  totalHours : float;
  startDate : Date;
  endDate : Date;
  status : ContractStatus
}.
End Contract.

Module Activity.
Record t : Type := mk {
  id : string;
  title : string;
  contractId : option string;
  clientId : string;
  workerId : option string;
  status : ActivityStatus;
  scheduledStart : Date;
  scheduledEnd : Date;
  durationHours : float;
  location : string;
  description : option string
}.
End Activity.

Module Invoice.
Record t : Type := mk {
  id : string;
  type : InvoiceType;
  entityId : string;
  totalAmount : float;
  periodStart : Date;
  periodEnd : Date;
  status : InvoiceStatus;
  clientId : option string;
  workerId : option string
}.
End Invoice.

Record Db : Type := mkDb {
  users : list User.t;
  clients : list Client.t;
  contracts : list Contract.t;
  activities : list Activity.t;
  invoices : list Invoice.t
}.

(** ** Errors ([lib/errors.js], zod, the Prisma client, the runtime) *)

(** The text of an error; one message of the code interpolates a number. *)
Inductive Message : Type :=
| Text (s : string)
| Insufficient_hours_Remaining (remaining : float).

Inductive PrismaCode : Set :=
| P2002   (* unique constraint failed *)
| P2003   (* foreign key constraint failed *)
| P2025.  (* record to update not found *)

Inductive Error : Type :=
| ZodError (issues : list string)
| AppError (message : Message) (statusCode : Z)
| PrismaClientKnownRequestError (code : PrismaCode)
| PrismaClientValidationError
| TypeError                       (* a property read on [null] *)
| PlainError (message : string).  (* [throw new Error(message)] *)

Definition NotFoundError (resource : string) : Error :=
  AppError (Text (resource ++ " not found")) 404.

(** ** Asynchronous code over the store *)

Inductive Result (A : Type) : Type :=
| Ok (a : A)
| Throw (e : Error).
Arguments Throw {A} e.

(** An [async] function: it runs from a state of the store and leaves one,
    also when it throws; nothing is rolled back. *)
Definition Async (A : Type) : Type := Db -> Result A * Db.

Definition ret {A} (a : A) : Async A := fun db => (Ok a, db).

Definition throw {A} (e : Error) : Async A := fun db => (Throw e, db).

Definition bind {A B} (m : Async A) (k : A -> Async B) : Async B :=
  fun db =>
    match m db with
    | (Ok a, db') => k a db'
    | (Throw e, db') => (Throw e, db')
    end.

(** A synchronous call that may throw, such as [schema.parse]. *)
Definition lift {A} (r : Result A) : Async A := fun db => (r, db).

Declare Scope async_scope.
Delimit Scope async_scope with async.
Notation "x <- m ;; k" := (bind m (fun x => k))
  (at level 61, m at next level, right associativity) : async_scope.
Notation "m ;; k" := (bind m (fun _ => k))
  (at level 61, right associativity) : async_scope.
Open Scope async_scope.

(** ** The Prisma client *)

Definition has_user (db : Db) (i : string) : bool :=
  existsb (fun u => (User.id u =? i)%string) (users db).
Definition has_client (db : Db) (i : string) : bool :=
  existsb (fun c => (Client.id c =? i)%string) (clients db).
Definition has_contract (db : Db) (i : string) : bool :=
  existsb (fun c => (Contract.id c =? i)%string) (contracts db).

Definition references (has : string -> bool) (fk : option string) : bool :=
  match fk with
  | Some i => has i
  | None => true
  end.

(** The foreign keys of an activity row and of an invoice row. *)
Definition Activity_fk (db : Db) (a : Activity.t) : bool :=
  has_client db (Activity.clientId a)
  && references (has_contract db) (Activity.contractId a)
  && references (has_user db) (Activity.workerId a).

Definition Invoice_fk (db : Db) (i : Invoice.t) : bool :=
  references (has_client db) (Invoice.clientId i)
  && references (has_user db) (Invoice.workerId i).

Definition set_activities (db : Db) (l : list Activity.t) : Db :=
  mkDb (users db) (clients db) (contracts db) l (invoices db).

Definition set_invoices (db : Db) (l : list Invoice.t) : Db :=
  mkDb (users db) (clients db) (contracts db) (activities db) l.

Definition prisma_user_findUnique (i : string) : Async (option User.t) :=
  fun db => (Ok (find (fun u => (User.id u =? i)%string) (users db)), db).

Definition prisma_client_findUnique (i : string) : Async (option Client.t) :=
  fun db => (Ok (find (fun c => (Client.id c =? i)%string) (clients db)), db).

Definition prisma_activity_findUnique (i : string) : Async (option Activity.t) :=
  fun db => (Ok (find (fun a => (Activity.id a =? i)%string) (activities db)), db).

Definition prisma_activity_findMany (where_ : Activity.t -> bool)
  : Async (list Activity.t) :=
  fun db => (Ok (filter where_ (activities db)), db).

(** [prisma.contract.findUnique({ where: { id }, include: { activities:
    { where } } })]: the contract and those of its activities that match. *)
Definition linked_to (i : string) (a : Activity.t) : bool :=
  match Activity.contractId a with
  | Some c => (c =? i)%string
  | None => false
  end.

Definition prisma_contract_findUnique_include_activities
  (i : string) (where_ : Activity.t -> bool)
  : Async (option (Contract.t * list Activity.t)) :=
  fun db =>
    (Ok match find (fun c => (Contract.id c =? i)%string) (contracts db) with
        | Some c =>
            Some (c, filter (fun a => linked_to i a && where_ a) (activities db))
        | None => None
        end, db).

(** The [data] of [prisma.activity.update]: a key that is absent leaves its
    column; [status] travels as the name of the enumeration value. *)
Module ActivityUpdateInput.
Record t : Type := mk {
  title : option string;
  contractId : Nullable string;
  clientId : option string;
  workerId : Nullable string;
  status : Nullable string;
  scheduledStart : option Date;
  scheduledEnd : option Date;
  durationHours : option float;
  location : option string;
  description : Nullable string
}.
End ActivityUpdateInput.

Definition or_keep {A} (x : option A) (old : A) : A :=
  match x with
  | Some v => v
  | None => old
  end.

Definition or_keep_nullable {A} (x : Nullable A) (old : option A) : option A :=
  or_keep (to_patch x) old.

(** The client checks [data] against the schema before it queries: [status]
    is not nullable and takes the six names only. *)
Definition status_input (x : Nullable string) : Result (option ActivityStatus) :=
  match x with
  | undefined => Ok None
  | null => Throw PrismaClientValidationError
  | value s =>
      match ActivityStatus_of_string s with
      | Some st => Ok (Some st)
      | None => Throw PrismaClientValidationError
      end
  end.

Definition apply_update (d : ActivityUpdateInput.t) (st : option ActivityStatus)
  (a : Activity.t) : Activity.t :=
  Activity.mk (Activity.id a)
    (or_keep (ActivityUpdateInput.title d) (Activity.title a))
    (or_keep_nullable (ActivityUpdateInput.contractId d) (Activity.contractId a))
    (or_keep (ActivityUpdateInput.clientId d) (Activity.clientId a))
    (or_keep_nullable (ActivityUpdateInput.workerId d) (Activity.workerId a))
    (or_keep st (Activity.status a))
    (or_keep (ActivityUpdateInput.scheduledStart d) (Activity.scheduledStart a))
    (or_keep (ActivityUpdateInput.scheduledEnd d) (Activity.scheduledEnd a))
    (or_keep (ActivityUpdateInput.durationHours d) (Activity.durationHours a))
    (or_keep (ActivityUpdateInput.location d) (Activity.location a))
    (or_keep_nullable (ActivityUpdateInput.description d) (Activity.description a)).

(** The foreign keys an update writes. *)
Definition update_fk (db : Db) (d : ActivityUpdateInput.t) : bool :=
  references (has_client db) (ActivityUpdateInput.clientId d)
  && references (has_contract db) (to_column (ActivityUpdateInput.contractId d))
  && references (has_user db) (to_column (ActivityUpdateInput.workerId d)).

Definition has_id (i : string) (a : Activity.t) : bool :=
  (Activity.id a =? i)%string.

Definition prisma_activity_update (i : string) (d : ActivityUpdateInput.t)
  : Async Activity.t :=
  fun db =>
    match status_input (ActivityUpdateInput.status d) with
    | Throw e => (Throw e, db)
    | Ok st =>
        match find (has_id i) (activities db) with
        | None => (Throw (PrismaClientKnownRequestError P2025), db)
        | Some a =>
            if update_fk db d then
              (Ok (apply_update d st a),
               set_activities db
                 (map (fun r => if has_id i r then apply_update d st r else r)
                    (activities db)))
            else (Throw (PrismaClientKnownRequestError P2003), db)
        end
    end.

(** [prisma.activity.updateMany({ where, data: { status } })] *)
Definition set_status (st : ActivityStatus) (a : Activity.t) : Activity.t :=
  Activity.mk (Activity.id a) (Activity.title a) (Activity.contractId a)
    (Activity.clientId a) (Activity.workerId a) st
    (Activity.scheduledStart a) (Activity.scheduledEnd a)
    (Activity.durationHours a) (Activity.location a) (Activity.description a).

Definition prisma_activity_updateMany (where_ : Activity.t -> bool)
  (st : ActivityStatus) : Async unit :=
  fun db =>
    (Ok tt,
     set_activities db
       (map (fun r => if where_ r then set_status st r else r) (activities db))).

(** [create]: the row carries the identifier the column default [uuid()]
    draws for it. *)
Definition prisma_activity_create (row : Activity.t) : Async Activity.t :=
  fun db =>
    if Activity_fk db row then
      (Ok row, set_activities db (activities db ++ [row]))
    else (Throw (PrismaClientKnownRequestError P2003), db).

Definition prisma_invoice_create (row : Invoice.t) : Async Invoice.t :=
  fun db =>
    if Invoice_fk db row then
      (Ok row, set_invoices db (invoices db ++ [row]))
    else (Throw (PrismaClientKnownRequestError P2003), db).

(** What the client of the store writes: a [DateTime] goes out as a date of
    ISO 8601 with a year of four digits, from 0000-01-01T00:00:00.000Z to
    9999-12-31T23:59:59.999Z, and a [Float] as a finite number; it refuses a
    row outside these limits before it queries.  The statements on the rows
    the two generators create are made inside them. *)
Definition storable_DateTime (d : Date) : Prop :=
  -62167219200000 <= d <= 253402300799999.

(** ** [lib/validations.js] *)

Definition is_hex (c : ascii) : bool :=
  let n := nat_of_ascii c in
  ((48 <=? n) && (n <=? 57) || (65 <=? n) && (n <=? 70)
   || (97 <=? n) && (n <=? 102))%nat.

Fixpoint uuid_from (pos : nat) (s : string) : bool :=
  match s with
  | EmptyString => Nat.eqb pos 36
  | String c s' =>
      (if (Nat.eqb pos 8 || Nat.eqb pos 13 || Nat.eqb pos 18 || Nat.eqb pos 23)
       then Ascii.eqb c "-"%char else is_hex c)
      && uuid_from (S pos) s'
  end.

(** [z.string().uuid()]: five groups of 8, 4, 4, 4 and 12 hexadecimal digits
    between hyphens. *)
Definition uuid (s : string) : bool := uuid_from 0 s.

Definition optional_nullable_uuid (x : Nullable string) : bool :=
  match x with
  | value s => uuid s
  | _ => true
  end.

Definition issue (ok : bool) (message : string) : list string :=
  if ok then [] else [message].

(** A request body that JSON-parses to the fields the schema names; a body
    with a required field missing or of another type fails [parse] before
    any of the code below runs. *)
Module ActivityBody.
Record t : Type := mk {
  title : string;
  contractId : Nullable string;
  clientId : string;
  workerId : Nullable string;
  scheduledStart : Date;
  scheduledEnd : Date;
  location : string;
  description : Nullable string
}.
End ActivityBody.

Module InvoiceBody.
Record t : Type := mk {
  type : InvoiceType;
  entityId : string;
  periodStart : Date;
  periodEnd : Date
}.
End InvoiceBody.

(** [schema.parse]: the issues of the object first; the refinement runs on
    an object without issues. *)
Definition validateActivity (data : ActivityBody.t) : Result ActivityBody.t :=
  match
    (issue (1 <=? Z.of_nat (String.length (ActivityBody.title data)))
       "Title is required"
     ++ issue (optional_nullable_uuid (ActivityBody.contractId data))
          "Invalid uuid"
     ++ issue (uuid (ActivityBody.clientId data)) "Invalid client ID"
     ++ issue (optional_nullable_uuid (ActivityBody.workerId data))
          "Invalid uuid"
     ++ issue (1 <=? Z.of_nat (String.length (ActivityBody.location data)))
          "Location is required")%list
  with
  | [] =>
      if ActivityBody.scheduledEnd data >? ActivityBody.scheduledStart data
      then Ok data
      else Throw (ZodError ["End date must be after start date"])
  | issues => Throw (ZodError issues)
  end.

Definition validateInvoice (data : InvoiceBody.t) : Result InvoiceBody.t :=
  match issue (uuid (InvoiceBody.entityId data)) "Invalid uuid" with
  | [] =>
      if InvoiceBody.periodEnd data >? InvoiceBody.periodStart data
      then Ok data
      else Throw (ZodError ["Period end date must be after period start date"])
  | issues => Throw (ZodError issues)
  end.

(** ** [services/activityService.js] *)

Definition calculateDuration (start end_ : Date) : float :=
  ((getTime end_ - getTime start) / (1000 * 60 * 60))%float.

Definition VERIFIED_or_INVOICED (a : Activity.t) : bool :=
  ActivityStatus_eqb (Activity.status a) VERIFIED
  || ActivityStatus_eqb (Activity.status a) INVOICED.

(** The activities that count against a contract. *)
Definition counted (db : Db) (contractId : string) : list Activity.t :=
  filter (fun a => linked_to contractId a && VERIFIED_or_INVOICED a)
    (activities db).

(** [list.reduce((sum, a) => sum + a.durationHours, 0)] *)
Definition sum_durationHours (l : list Activity.t) : float :=
  fold_left (fun sum a => (sum + Activity.durationHours a)%float) l 0%float.

Definition validateContractHours (contractId : string) (hours : float)
  : Async unit :=
  contract <- prisma_contract_findUnique_include_activities contractId
                VERIFIED_or_INVOICED ;;
  match contract with
  | None => throw (AppError (Text "Contract not found") 404)
  | Some (contract, contract_activities) =>
      let usedHours := sum_durationHours contract_activities in
      let remaining := (Contract.totalHours contract - usedHours)%float in
      if (remaining <? hours)%float   (* [hours > remaining] *)
      then throw (AppError (Insufficient_hours_Remaining remaining) 400)
      else ret tt
  end.

Module Availability.
Record t : Type := mk {
  available : bool;
  conflictingActivities : list Activity.t
}.
End Availability.

Definition SCHEDULED_or_IN_PROGRESS (a : Activity.t) : bool :=
  ActivityStatus_eqb (Activity.status a) SCHEDULED
  || ActivityStatus_eqb (Activity.status a) IN_PROGRESS.

Definition workerId_is (w : string) (a : Activity.t) : bool :=
  match Activity.workerId a with
  | Some x => (x =? w)%string
  | None => false
  end.

(** The [where] of [checkWorkerAvailability]; [excludeActivityId] is [None]
    for [null], the default of the parameter. *)
Definition conflicts_with (workerId : string) (scheduledStart scheduledEnd : Date)
  (excludeActivityId : option string) (a : Activity.t) : bool :=
  workerId_is workerId a
  && match excludeActivityId with
     | Some e => if truthy_string e then negb (has_id e a) else true
     | None => true
     end
  && SCHEDULED_or_IN_PROGRESS a
  && ((Activity.scheduledStart a <=? scheduledEnd)
      && (Activity.scheduledEnd a >=? scheduledStart)).

Definition checkWorkerAvailability (workerId : string)
  (scheduledStart scheduledEnd : Date) (excludeActivityId : option string)
  : Async Availability.t :=
  conflicting <- prisma_activity_findMany
                   (conflicts_with workerId scheduledStart scheduledEnd
                      excludeActivityId) ;;
  ret (Availability.mk (Nat.eqb (List.length conflicting) 0) conflicting).

Definition deductContractHours (contractId : string) (hours : float)
  : Async unit :=
  ret tt.

(** ** [services/invoiceService.js] *)

(** Reading a property of what [findUnique] returned: of [null] it throws. *)
Definition property {A B} (o : option A) (f : A -> B) : Async B :=
  match o with
  | Some x => ret (f x)
  | None => throw TypeError
  end.

Definition in_period (periodStart periodEnd : Date) (a : Activity.t) : bool :=
  (Activity.scheduledStart a >=? periodStart)
  && (Activity.scheduledEnd a <=? periodEnd).

Definition billable (clientId : string) (periodStart periodEnd : Date)
  (a : Activity.t) : bool :=
  (Activity.clientId a =? clientId)%string
  && ActivityStatus_eqb (Activity.status a) VERIFIED
  && in_period periodStart periodEnd a.

Definition payable (workerId : string) (periodStart periodEnd : Date)
  (a : Activity.t) : bool :=
  workerId_is workerId a
  && ActivityStatus_eqb (Activity.status a) VERIFIED
  && in_period periodStart periodEnd a.

(** [client.billingRate || 0] *)
Definition or_0 (x : option float) : float :=
  match x with
  | Some r => if truthy_number r then r else 0%float
  | None => 0%float
  end.

(** [{ id: { in: ids } }] *)
Definition id_in (ids : list string) (a : Activity.t) : bool :=
  existsb (fun i => (Activity.id a =? i)%string) ids.

Module ClientInvoice.
Record t : Type := mk {
  invoice : Invoice.t;
  activities : list Activity.t
}.
End ClientInvoice.

Module WorkerPayout.
Record t : Type := mk {
  invoice : Invoice.t;
  activities : list Activity.t;
  totalHours : float
}.
End WorkerPayout.

(** [new_id] is the identifier the store draws for the invoice row. *)
Definition generateClientInvoice (new_id : string) (clientId : string)
  (periodStart periodEnd : Date) : Async ClientInvoice.t :=
  activities <- prisma_activity_findMany
                  (billable clientId periodStart periodEnd) ;;
  client <- prisma_client_findUnique clientId ;;
  rate <- property client Client.billingRate ;;
  let billingRate := or_0 rate in
  let totalAmount :=
    fold_left
      (fun sum activity => (sum + Activity.durationHours activity * billingRate)%float)
      activities 0%float in
  invoice <- prisma_invoice_create
               (Invoice.mk new_id CLIENT_BILL clientId totalAmount
                  periodStart periodEnd DRAFT (Some clientId) None) ;;
  prisma_activity_updateMany (id_in (map Activity.id activities)) INVOICED ;;
  ret (ClientInvoice.mk invoice activities).

Definition generateWorkerPayout (new_id : string) (workerId : string)
  (periodStart periodEnd : Date) : Async WorkerPayout.t :=
  activities <- prisma_activity_findMany
                  (payable workerId periodStart periodEnd) ;;
  worker <- prisma_user_findUnique workerId ;;
  hourlyRate <- property worker User.hourlyRate ;;
  let totalHours := sum_durationHours activities in
  let totalAmount := (totalHours * hourlyRate)%float in
  invoice <- prisma_invoice_create
               (Invoice.mk new_id WORKER_PAYOUT workerId totalAmount
                  periodStart periodEnd DRAFT None (Some workerId)) ;;
  ret (WorkerPayout.mk invoice activities totalHours).

(** ** Responses and [middleware/errorHandler.js] *)

Inductive JsonValue : Type :=
| JString (s : string)
| JNumber (x : float).

(** What [res.json] sends.  Of an error object the [error] key is kept. *)
Inductive Body : Type :=
| json_activity (a : Activity.t)
| json_invoice (i : Invoice.t)
| json_object (fields : list (string * JsonValue))
| json_error (error : Message)
| json_conflict (error : string) (conflictingActivities : list Activity.t)
| no_body.

(** [object[key]] on what was sent; [None] for [undefined]. *)
Definition get (key : string) (b : Body) : option JsonValue :=
  match b with
  | json_object fields =>
      match find (fun kv => (fst kv =? key)%string) fields with
      | Some kv => Some (snd kv)
      | None => None
      end
  | _ => None
  end.

Record Response : Type := mkResponse {
  statusCode : Z;
  body : Body
}.

Definition errorHandler (err : Error) : Response :=
  match err with
  | ZodError _ => mkResponse 400 (json_error (Text "Validation failed"))
  | PrismaClientKnownRequestError P2002 =>
      mkResponse 409 (json_error (Text "Duplicate entry"))
  | PrismaClientKnownRequestError P2025 =>
      mkResponse 404 (json_error (Text "Not found"))
  | AppError message status => mkResponse status (json_error message)
  | _ => mkResponse 500 (json_error (Text "Internal server error"))
  end.

(** [try { ... } catch (error) { next(error) }] under [app.use(errorHandler)] *)
Definition handled (m : Async Response) (db : Db) : Response * Db :=
  match m db with
  | (Ok r, db') => (r, db')
  | (Throw e, db') => (errorHandler e, db')
  end.

(** ** [controllers/activities.js] *)

(** [if (contractId) { await validateContractHours(contractId, hours) }] *)
Definition check_contract (contractId : Nullable string) (durationHours : float)
  : Async unit :=
  match contractId with
  | value c =>
      if truthy_string c then validateContractHours c durationHours else ret tt
  | _ => ret tt
  end.

Module ActivitiesController.

(** [new_id] is the identifier the store draws for the new row. *)
Definition create (new_id : string) (req_body : ActivityBody.t)
  : Db -> Response * Db :=
  handled (
    data <- lift (validateActivity req_body) ;;
    let durationHours :=
      calculateDuration (ActivityBody.scheduledStart data)
        (ActivityBody.scheduledEnd data) in
    check_contract (ActivityBody.contractId data) durationHours ;;
    activity <- prisma_activity_create
                  (Activity.mk new_id
                     (ActivityBody.title data)
                     (to_column (ActivityBody.contractId data))
                     (ActivityBody.clientId data)
                     (to_column (ActivityBody.workerId data))
                     UNASSIGNED
                     (ActivityBody.scheduledStart data)
                     (ActivityBody.scheduledEnd data)
                     durationHours
                     (ActivityBody.location data)
                     (to_column (ActivityBody.description data))) ;;
    ret (mkResponse 201 (json_activity activity))).

Definition update (id : string) (req_body : ActivityBody.t)
  : Db -> Response * Db :=
  handled (
    data <- lift (validateActivity req_body) ;;
    let durationHours :=
      calculateDuration (ActivityBody.scheduledStart data)
        (ActivityBody.scheduledEnd data) in
    check_contract (ActivityBody.contractId data) durationHours ;;
    activity <- prisma_activity_update id
                  (ActivityUpdateInput.mk
                     (Some (ActivityBody.title data))
                     (ActivityBody.contractId data)
                     (Some (ActivityBody.clientId data))
                     (ActivityBody.workerId data)
                     undefined
                     (Some (ActivityBody.scheduledStart data))
                     (Some (ActivityBody.scheduledEnd data))
                     (Some durationHours)
                     (Some (ActivityBody.location data))
                     (ActivityBody.description data)) ;;
    ret (mkResponse 200 (json_activity activity))).

(** [data: { workerId, status: workerId ? 'SCHEDULED' : 'UNASSIGNED' }] *)
Definition assign_data (workerId : Nullable string) : ActivityUpdateInput.t :=
  ActivityUpdateInput.mk None undefined None workerId
    (value (if truthy workerId then "SCHEDULED" else "UNASSIGNED"))
    None None None None undefined.

Definition assignWorker (id : string) (workerId : Nullable string)
  : Db -> Response * Db :=
  handled (
    found <- prisma_activity_findUnique id ;;
    match found with
    | None => throw (NotFoundError "Activity")
    | Some activity =>
        availability <-
          match workerId with
          | value w =>
              if truthy_string w
              then checkWorkerAvailability w
                     (Activity.scheduledStart activity)
                     (Activity.scheduledEnd activity) (Some id)
              else ret (Availability.mk true [])
          | _ => ret (Availability.mk true [])
          end ;;
        if negb (Availability.available availability)
        then ret (mkResponse 409
                    (json_conflict "Worker has conflicting activity"
                       (Availability.conflictingActivities availability)))
        else
          updatedActivity <- prisma_activity_update id (assign_data workerId) ;;
          ret (mkResponse 200 (json_activity updatedActivity))
    end).

(** [data: { status }] *)
Definition status_data (status : Nullable string) : ActivityUpdateInput.t :=
  ActivityUpdateInput.mk None undefined None undefined status
    None None None None undefined.

Definition is_VERIFIED (status : Nullable string) : bool :=
  match status with
  | value s => (s =? "VERIFIED")%string
  | _ => false
  end.

Definition updateStatus (id : string) (status : Nullable string)
  : Db -> Response * Db :=
  handled (
    activity <- prisma_activity_update id (status_data status) ;;
    match Activity.contractId activity with
    | Some c =>
        if is_VERIFIED status && truthy_string c
        then deductContractHours c (Activity.durationHours activity)
        else ret tt
    | None => ret tt
    end ;;
    ret (mkResponse 200 (json_activity activity))).

End ActivitiesController.

(** ** [controllers/contracts.js] *)

Module ContractsController.

Definition getHoursRemaining (id : string) : Db -> Response * Db :=
  handled (
    found <- prisma_contract_findUnique_include_activities id
               VERIFIED_or_INVOICED ;;
    match found with
    | None => throw (NotFoundError "Contract")
    | Some (contract, contract_activities) =>
        let usedHours := sum_durationHours contract_activities in
        let remaining := (Contract.totalHours contract - usedHours)%float in
        ret (mkResponse 200
               (json_object
                  [("contractId", JString (Contract.id contract));
                   ("totalHours", JNumber (Contract.totalHours contract));
                   ("usedHours", JNumber usedHours);
                   ("remaining", JNumber remaining)]))
    end).

End ContractsController.

(** ** [controllers/invoices.js] *)

Module InvoicesController.

Definition invalid_type : Response :=
  mkResponse 400 (json_error (Text "Invalid invoice type for this endpoint")).

Definition generateClientInvoice (new_id : string) (req_body : InvoiceBody.t)
  : Db -> Response * Db :=
  handled (
    data <- lift (validateInvoice req_body) ;;
    match InvoiceBody.type data with
    | CLIENT_BILL =>
        result <- generateClientInvoice new_id (InvoiceBody.entityId data)
                    (InvoiceBody.periodStart data) (InvoiceBody.periodEnd data) ;;
        ret (mkResponse 201 (json_invoice (ClientInvoice.invoice result)))
    | _ => ret invalid_type
    end).

Definition generateWorkerPayout (new_id : string) (req_body : InvoiceBody.t)
  : Db -> Response * Db :=
  handled (
    data <- lift (validateInvoice req_body) ;;
    match InvoiceBody.type data with
    | WORKER_PAYOUT =>
        result <- generateWorkerPayout new_id (InvoiceBody.entityId data)
                    (InvoiceBody.periodStart data) (InvoiceBody.periodEnd data) ;;
        ret (mkResponse 201 (json_invoice (WorkerPayout.invoice result)))
    | _ => ret invalid_type
    end).

End InvoicesController.

(** ** The TypeScript routes

    [src/app.ts] installs no error handler of its own: [next(error)] ends in
    Express's, which answers 500 for an error without a status. *)

Definition next (err : Error) : Response := mkResponse 500 no_body.

Definition error_json (status : Z) (error : string) : Response :=
  mkResponse status (json_error (Text error)).

Module ActivitiesRouter.

(** [PATCH /api/activities/:id/status] *)
Definition patch_status (id : string) (status : Nullable string)
  : Db -> Response * Db :=
  fun db =>
    if negb (truthy_string id) then (error_json 400 "Activity ID is required", db)
    else
      match prisma_activity_update id
              (ActivitiesController.status_data status) db with
      | (Ok activity, db') => (mkResponse 200 (json_activity activity), db')
      | (Throw (PrismaClientKnownRequestError P2025), db') =>
          (error_json 404 "Activity not found", db')
      | (Throw e, db') => (next e, db')
      end.

End ActivitiesRouter.

Module ContractsRouter.

(** [GET /api/contracts/:id/hours-remaining] *)
Definition hours_remaining (id : string) : Db -> Response * Db :=
  fun db =>
    if negb (truthy_string id) then (error_json 400 "Contract ID is required", db)
    else
      match prisma_contract_findUnique_include_activities id
              VERIFIED_or_INVOICED db with
      | (Ok None, db') => (error_json 404 "Contract not found", db')
      | (Ok (Some (contract, contract_activities)), db') =>
          let usedHours := sum_durationHours contract_activities in
          let remaining := (Contract.totalHours contract - usedHours)%float in
          (mkResponse 200
             (json_object
                [("contractId", JString (Contract.id contract));
                 ("totalHours", JNumber (Contract.totalHours contract));
                 ("usedHours", JNumber usedHours);
                 ("remainingHours", JNumber remaining)]), db')
      | (Throw e, db') => (next e, db')
      end.

End ContractsRouter.

Module InvoicesRouter.

Definition generateClientInvoice (new_id : string) (clientId : string)
  (periodStart periodEnd : Date) : Async ClientInvoice.t :=
  activities <- prisma_activity_findMany
                  (billable clientId periodStart periodEnd) ;;
  client <- prisma_client_findUnique clientId ;;
  match client with
  | None => throw (PlainError "Client not found")
  | Some client =>
      let billingRate := or_0 (Client.billingRate client) in
      let totalAmount :=
        fold_left
          (fun sum activity =>
             (sum + Activity.durationHours activity * billingRate)%float)
          activities 0%float in
      invoice <- prisma_invoice_create
                   (Invoice.mk new_id CLIENT_BILL clientId totalAmount
                      periodStart periodEnd DRAFT (Some clientId) None) ;;
      prisma_activity_updateMany (id_in (map Activity.id activities)) INVOICED ;;
      ret (ClientInvoice.mk invoice activities)
  end.

(** The body of [POST /api/invoices/client]; a date that is present is a
    valid one. *)
Record Body : Type := mkBody {
  entityId : Nullable string;
  periodStart : option Date;
  periodEnd : option Date
}.

Definition post_client (new_id : string) (req_body : Body)
  : Db -> Response * Db :=
  fun db =>
    match entityId req_body, periodStart req_body, periodEnd req_body with
    | value entityId, Some startDate, Some endDate =>
        if negb (truthy_string entityId)
        then (error_json 400 "Missing required fields", db)
        else if endDate <=? startDate
        then (error_json 400 "Period end date must be after period start date", db)
        else
          match generateClientInvoice new_id entityId startDate endDate db with
          | (Ok result, db') =>
              (mkResponse 201 (json_invoice (ClientInvoice.invoice result)), db')
          | (Throw (PlainError message), db') =>
              if (message =? "Client not found")%string
              then (error_json 404 "Client not found", db')
              else (next (PlainError message), db')
          | (Throw e, db') => (next e, db')
          end
    | _, _, _ => (error_json 400 "Missing required fields", db)
    end.

End InvoicesRouter.

(** ** The rest of the controllers

    An answer whose payload is neither one activity nor one invoice. *)
Inductive Sent (A : Type) : Type :=
| sent (status : Z) (payload : A)
| failed (r : Response).
Arguments failed {A} r.

Definition handled_as {A} (m : Async (Z * A)) (db : Db) : Sent A * Db :=
  match m db with
  | (Ok (status, payload), db') => (sent status payload, db')
  | (Throw e, db') => (failed (errorHandler e), db')
  end.

(** [prisma.activity.delete({ where: { id } })]; no table refers to an
    activity. *)
Definition prisma_activity_delete (i : string) : Async Activity.t :=
  fun db =>
    match find (has_id i) (activities db) with
    | None => (Throw (PrismaClientKnownRequestError P2025), db)
    | Some a =>
        (Ok a,
         set_activities db (filter (fun r => negb (has_id i r)) (activities db)))
    end.

(** [orderBy: { scheduledStart: 'asc' }]; rows of equal start stay in the
    order of the table, the store fixing none among them. *)
Fixpoint insert_by_scheduledStart (a : Activity.t) (l : list Activity.t)
  : list Activity.t :=
  match l with
  | [] => [a]
  | b :: l' =>
      if Activity.scheduledStart a <=? Activity.scheduledStart b
      then a :: l
      else b :: insert_by_scheduledStart a l'
  end.

Definition orderBy_scheduledStart_asc (l : list Activity.t) : list Activity.t :=
  fold_right insert_by_scheduledStart [] l.

(** The query string of [GET /api/activities]: each parameter is absent or a
    string; a date that is present parses. *)
Module ActivityQuery.
Record t : Type := mk {
  status : option string;
  workerId : option string;
  clientId : option string;
  contractId : option string;
  startDate : option Date;
  endDate : option Date
}.
End ActivityQuery.

(** [...(x && { field: x })] *)
Definition when_given (x : option string) (p : string -> bool) : bool :=
  match x with
  | Some s => if truthy_string s then p s else true
  | None => true
  end.

Definition list_where (q : ActivityQuery.t) (a : Activity.t) : bool :=
  when_given (ActivityQuery.status q)
    (fun s => (ActivityStatus_to_string (Activity.status a) =? s)%string)
  && when_given (ActivityQuery.workerId q) (fun w => workerId_is w a)
  && when_given (ActivityQuery.clientId q)
       (fun c => (Activity.clientId a =? c)%string)
  && when_given (ActivityQuery.contractId q) (fun c => linked_to c a)
  && match ActivityQuery.startDate q, ActivityQuery.endDate q with
     | Some startDate, Some endDate =>
         (Activity.scheduledStart a >=? startDate)
         && (Activity.scheduledStart a <=? endDate)
     | _, _ => true
     end.

(** The client refuses a [status] filter that names no enumeration value. *)
Definition status_filter (x : option string) : Result unit :=
  match x with
  | Some s =>
      if truthy_string s
      then match ActivityStatus_of_string s with
           | Some _ => Ok tt
           | None => Throw PrismaClientValidationError
           end
      else Ok tt
  | None => Ok tt
  end.

Module ActivitiesQueries.

Definition list (req_query : ActivityQuery.t)
  : Db -> Sent (List.list Activity.t) * Db :=
  handled_as (
    lift (status_filter (ActivityQuery.status req_query)) ;;
    found <- prisma_activity_findMany (list_where req_query) ;;
    ret (200, orderBy_scheduledStart_asc found)).

Definition getById (id : string) : Db -> Response * Db :=
  handled (
    found <- prisma_activity_findUnique id ;;
    match found with
    | None => throw (NotFoundError "Activity")
    | Some activity => ret (mkResponse 200 (json_activity activity))
    end).

Definition deleteActivity (id : string) : Db -> Response * Db :=
  handled (
    prisma_activity_delete id ;;
    ret (mkResponse 204 no_body)).

End ActivitiesQueries.

(** ** The rest of [controllers/invoices.js] *)

Definition InvoiceStatus_of_string (s : string) : option InvoiceStatus :=
  if (s =? "DRAFT")%string then Some DRAFT
  else if (s =? "SENT")%string then Some SENT
  else if (s =? "PAID")%string then Some PAID
  else None.

Definition InvoiceStatus_to_string (s : InvoiceStatus) : string :=
  match s with
  | DRAFT => "DRAFT"
  | SENT => "SENT"
  | PAID => "PAID"
  end.

Definition with_status (st : InvoiceStatus) (i : Invoice.t) : Invoice.t :=
  Invoice.mk (Invoice.id i) (Invoice.type i) (Invoice.entityId i)
    (Invoice.totalAmount i) (Invoice.periodStart i) (Invoice.periodEnd i) st
    (Invoice.clientId i) (Invoice.workerId i).

Definition invoice_has_id (i : string) (r : Invoice.t) : bool :=
  (Invoice.id r =? i)%string.

(** [prisma.invoice.update({ where: { id }, data: { status } })] *)
Definition prisma_invoice_update_status (i : string) (status : Nullable string)
  : Async Invoice.t :=
  fun db =>
    match
      match status with
      | undefined => Ok None
      | null => Throw PrismaClientValidationError
      | value s =>
          match InvoiceStatus_of_string s with
          | Some st => Ok (Some st)
          | None => Throw PrismaClientValidationError
          end
      end
    with
    | Throw e => (Throw e, db)
    | Ok st =>
        match find (invoice_has_id i) (invoices db) with
        | None => (Throw (PrismaClientKnownRequestError P2025), db)
        | Some r =>
            let changed x := match st with Some s => with_status s x | None => x end in
            (Ok (changed r),
             set_invoices db
               (map (fun x => if invoice_has_id i x then changed x else x)
                  (invoices db)))
        end
    end.

Module InvoicesQueries.

Definition getById (id : string) : Db -> Response * Db :=
  handled (
    fun db =>
      match find (invoice_has_id id) (invoices db) with
      | None => (Throw (NotFoundError "Invoice"), db)
      | Some invoice => (Ok (mkResponse 200 (json_invoice invoice)), db)
      end).

Definition updateStatus (id : string) (status : Nullable string)
  : Db -> Response * Db :=
  handled (
    invoice <- prisma_invoice_update_status id status ;;
    ret (mkResponse 200 (json_invoice invoice))).

End InvoicesQueries.

(** ** The rest of [controllers/contracts.js], and the deletions of
    [controllers/workers.js] and [controllers/clients.js]

    The constraints are those of the migration: [(clientId, orderNumber)] is
    unique among contracts; deleting a contract or a worker sets the
    references of activities and invoices to [NULL]; deleting a client is
    restricted while a contract or an activity refers to it. *)

Module ContractBody.
Record t : Type := mk {
  clientId : string;
  orderNumber : string;
  totalHours : float;
  startDate : Date;
  endDate : Date
}.
End ContractBody.

Definition validateContract (data : ContractBody.t) : Result ContractBody.t :=
  match
    (issue (uuid (ContractBody.clientId data)) "Invalid uuid"
     ++ issue (1 <=? Z.of_nat (String.length (ContractBody.orderNumber data)))
          "String must contain at least 1 character(s)"
     ++ (if is_nan (ContractBody.totalHours data)
         then ["Expected number, received nan"]
         else issue (0 <? ContractBody.totalHours data)%float
                "Number must be greater than 0"))%list
  with
  | [] =>
      if ContractBody.endDate data >? ContractBody.startDate data
      then Ok data
      else Throw (ZodError ["End date must be after start date"])
  | issues => Throw (ZodError issues)
  end.

Definition set_contracts (db : Db) (l : list Contract.t) : Db :=
  mkDb (users db) (clients db) l (activities db) (invoices db).

Definition contract_has_id (i : string) (k : Contract.t) : bool :=
  (Contract.id k =? i)%string.

(** The unique index of the table. *)
Definition same_order (clientId orderNumber : string) (k : Contract.t) : bool :=
  (Contract.clientId k =? clientId)%string
  && (Contract.orderNumber k =? orderNumber)%string.

Definition prisma_contract_create (row : Contract.t) : Async Contract.t :=
  fun db =>
    if existsb (same_order (Contract.clientId row) (Contract.orderNumber row))
         (contracts db)
    then (Throw (PrismaClientKnownRequestError P2002), db)
    else if has_client db (Contract.clientId row)
    then (Ok row, set_contracts db (contracts db ++ [row]))
    else (Throw (PrismaClientKnownRequestError P2003), db).

Definition with_body (data : ContractBody.t) (k : Contract.t) : Contract.t :=
  Contract.mk (Contract.id k) (ContractBody.clientId data)
    (ContractBody.orderNumber data) (ContractBody.totalHours data)
    (ContractBody.startDate data) (ContractBody.endDate data)
    (Contract.status k).

Definition prisma_contract_update (i : string) (data : ContractBody.t)
  : Async Contract.t :=
  fun db =>
    match find (contract_has_id i) (contracts db) with
    | None => (Throw (PrismaClientKnownRequestError P2025), db)
    | Some k =>
        if existsb
             (fun x => negb (contract_has_id i x)
                       && same_order (ContractBody.clientId data)
                            (ContractBody.orderNumber data) x)
             (contracts db)
        then (Throw (PrismaClientKnownRequestError P2002), db)
        else if has_client db (ContractBody.clientId data)
        then (Ok (with_body data k),
              set_contracts db
                (map (fun x => if contract_has_id i x then with_body data x else x)
                   (contracts db)))
        else (Throw (PrismaClientKnownRequestError P2003), db)
    end.

(** [ON DELETE SET NULL] of [activities.contractId] *)
Definition unlink_contract (i : string) (a : Activity.t) : Activity.t :=
  if linked_to i a
  then Activity.mk (Activity.id a) (Activity.title a) None
         (Activity.clientId a) (Activity.workerId a) (Activity.status a)
         (Activity.scheduledStart a) (Activity.scheduledEnd a)
         (Activity.durationHours a) (Activity.location a)
         (Activity.description a)
  else a.

Definition prisma_contract_delete (i : string) : Async Contract.t :=
  fun db =>
    match find (contract_has_id i) (contracts db) with
    | None => (Throw (PrismaClientKnownRequestError P2025), db)
    | Some k =>
        (Ok k,
         mkDb (users db) (clients db)
           (filter (fun x => negb (contract_has_id i x)) (contracts db))
           (map (unlink_contract i) (activities db))
           (invoices db))
    end.

Module ContractsCRUD.

(** [new_id] is the identifier the store draws; [status] has the default of
    its column. *)
Definition create (new_id : string) (req_body : ContractBody.t)
  : Db -> Sent Contract.t * Db :=
  handled_as (
    data <- lift (validateContract req_body) ;;
    contract <- prisma_contract_create
                  (Contract.mk new_id (ContractBody.clientId data)
                     (ContractBody.orderNumber data)
                     (ContractBody.totalHours data)
                     (ContractBody.startDate data)
                     (ContractBody.endDate data) ACTIVE) ;;
    ret (201, contract)).

Definition update (id : string) (req_body : ContractBody.t)
  : Db -> Sent Contract.t * Db :=
  handled_as (
    data <- lift (validateContract req_body) ;;
    contract <- prisma_contract_update id data ;;
    ret (200, contract)).

Definition deleteContract (id : string) : Db -> Response * Db :=
  handled (
    prisma_contract_delete id ;;
    ret (mkResponse 204 no_body)).

End ContractsCRUD.

(** [ON DELETE SET NULL] of [activities.workerId] and [invoices.workerId] *)
Definition unassign_worker (i : string) (a : Activity.t) : Activity.t :=
  if workerId_is i a
  then Activity.mk (Activity.id a) (Activity.title a) (Activity.contractId a)
         (Activity.clientId a) None (Activity.status a)
         (Activity.scheduledStart a) (Activity.scheduledEnd a)
         (Activity.durationHours a) (Activity.location a)
         (Activity.description a)
  else a.

Definition forget_worker (i : string) (r : Invoice.t) : Invoice.t :=
  match Invoice.workerId r with
  | Some w =>
      if (w =? i)%string
      then Invoice.mk (Invoice.id r) (Invoice.type r) (Invoice.entityId r)
             (Invoice.totalAmount r) (Invoice.periodStart r)
             (Invoice.periodEnd r) (Invoice.status r) (Invoice.clientId r) None
      else r
  | None => r
  end.

Definition prisma_user_delete (i : string) : Async User.t :=
  fun db =>
    match find (fun u => (User.id u =? i)%string) (users db) with
    | None => (Throw (PrismaClientKnownRequestError P2025), db)
    | Some u =>
        (Ok u,
         mkDb (filter (fun x => negb (User.id x =? i)%string) (users db))
           (clients db) (contracts db)
           (map (unassign_worker i) (activities db))
           (map (forget_worker i) (invoices db)))
    end.

(** [controllers/workers.js] *)
Definition deleteWorker (id : string) : Db -> Response * Db :=
  handled (
    prisma_user_delete id ;;
    ret (mkResponse 204 no_body)).

Definition forget_client (i : string) (r : Invoice.t) : Invoice.t :=
  match Invoice.clientId r with
  | Some c =>
      if (c =? i)%string
      then Invoice.mk (Invoice.id r) (Invoice.type r) (Invoice.entityId r)
             (Invoice.totalAmount r) (Invoice.periodStart r)
             (Invoice.periodEnd r) (Invoice.status r) None (Invoice.workerId r)
      else r
  | None => r
  end.

(** [ON DELETE RESTRICT] of [contracts.clientId] and [activities.clientId] *)
Definition client_in_use (db : Db) (i : string) : bool :=
  existsb (fun k => (Contract.clientId k =? i)%string) (contracts db)
  || existsb (fun a => (Activity.clientId a =? i)%string) (activities db).

Definition prisma_client_delete (i : string) : Async Client.t :=
  fun db =>
    match find (fun c => (Client.id c =? i)%string) (clients db) with
    | None => (Throw (PrismaClientKnownRequestError P2025), db)
    | Some c =>
        if client_in_use db i
        then (Throw (PrismaClientKnownRequestError P2003), db)
        else
          (Ok c,
           mkDb (users db)
             (filter (fun x => negb (Client.id x =? i)%string) (clients db))
             (contracts db) (activities db)
             (map (forget_client i) (invoices db)))
    end.

(** [controllers/clients.js] *)
Definition deleteClient (id : string) : Db -> Response * Db :=
  handled (
    prisma_client_delete id ;;
    ret (mkResponse 204 no_body)).

(** ** Well-formed stores

    The primary key of the activities, and the derived duration of every
    stored activity. *)
Definition unique_ids (db : Db) : Prop :=
  NoDup (map Activity.id (activities db)).

Definition duration_derived (a : Activity.t) : Prop :=
  Activity.scheduledStart a < Activity.scheduledEnd a
  /\ Activity.durationHours a
     = calculateDuration (Activity.scheduledStart a) (Activity.scheduledEnd a).

Definition durations_derived (db : Db) : Prop :=
  Forall duration_derived (activities db).

(** The order of a listing. *)
Definition starts_no_later (a b : Activity.t) : Prop :=
  Activity.scheduledStart a <= Activity.scheduledStart b.

(** The unique index of the contracts, as a property of the table. *)
Definition orders_unique (db : Db) : Prop :=
  NoDup (map (fun k => (Contract.clientId k, Contract.orderNumber k))
           (contracts db)).

(** The store after the rows of one identifier were rewritten. *)
Definition rewritten (i : string) (f : Activity.t -> Activity.t) (db : Db) : Db :=
  set_activities db
    (map (fun r => if has_id i r then f r else r) (activities db)).

(** The row [create] stores for a body, and the [data] [update] writes. *)
Definition created_row (new_id : string) (b : ActivityBody.t) : Activity.t :=
  Activity.mk new_id (ActivityBody.title b)
    (to_column (ActivityBody.contractId b)) (ActivityBody.clientId b)
    (to_column (ActivityBody.workerId b)) UNASSIGNED
    (ActivityBody.scheduledStart b) (ActivityBody.scheduledEnd b)
    (calculateDuration (ActivityBody.scheduledStart b)
       (ActivityBody.scheduledEnd b))
    (ActivityBody.location b) (to_column (ActivityBody.description b)).

Definition update_data (b : ActivityBody.t) : ActivityUpdateInput.t :=
  ActivityUpdateInput.mk (Some (ActivityBody.title b))
    (ActivityBody.contractId b) (Some (ActivityBody.clientId b))
    (ActivityBody.workerId b) undefined
    (Some (ActivityBody.scheduledStart b)) (Some (ActivityBody.scheduledEnd b))
    (Some (calculateDuration (ActivityBody.scheduledStart b)
             (ActivityBody.scheduledEnd b)))
    (Some (ActivityBody.location b)) (ActivityBody.description b).

(** ** A small store for the examples

    One client billed at 50 an hour, one worker paid 20 an hour, one
    contract of ten hours, and two four-hour activities of the client: the
    first verified, the second still scheduled with the worker. *)

Definition hour : Z := 3600000.

Definition id_C : string := "c0000000-0000-4000-8000-000000000001".
Definition id_W : string := "d0000000-0000-4000-8000-000000000002".
Definition id_K : string := "e0000000-0000-4000-8000-000000000003".
Definition id_A : string := "a0000000-0000-4000-8000-000000000004".
Definition id_B : string := "b0000000-0000-4000-8000-000000000005".
Definition id_N : string := "f0000000-0000-4000-8000-000000000006".
Definition id_X : string := "99999999-0000-4000-8000-000000000009".

Definition client_C : Client.t :=
  Client.mk id_C "Acme" "Ada" "ada@acme.test" (Some 50%float).

Definition worker_W : User.t :=
  User.mk id_W "Wes" WORKER "wes@gecko.test" 20%float None.

Definition contract_K : Contract.t :=
  Contract.mk id_K id_C "PO-1" 10%float 0 (1000 * hour) ACTIVE.

Definition activity_A : Activity.t :=
  Activity.mk id_A "Audit" (Some id_K) id_C (Some id_W) VERIFIED
    (10 * hour) (14 * hour) 4%float "Plant 1" None.

Definition activity_B : Activity.t :=
  Activity.mk id_B "Survey" (Some id_K) id_C (Some id_W) SCHEDULED
    (20 * hour) (24 * hour) 4%float "Plant 2" None.

Definition db0 : Db :=
  mkDb [worker_W] [client_C] [contract_K] [activity_A; activity_B] [].

(** The same store once the second activity is verified too. *)
Definition db_verified : Db :=
  mkDb [worker_W] [client_C] [contract_K]
    [activity_A; set_status VERIFIED activity_B] [].

(** A fresh activity, not assigned to anyone. *)
Definition activity_U : Activity.t :=
  Activity.mk id_N "Visit" None id_C None UNASSIGNED
    (30 * hour) (32 * hour) 2%float "Plant 3" None.

Definition db_unassigned : Db :=
  mkDb [worker_W] [client_C] [contract_K] [activity_U] [].

(** The invoice of the first fifteen hours of [db0], and the store after it. *)
Definition invoice_X : Invoice.t :=
  Invoice.mk id_X CLIENT_BILL id_C 200%float 0 (15 * hour) DRAFT
    (Some id_C) None.

Definition db0_billed : Db :=
  mkDb [worker_W] [client_C] [contract_K]
    [set_status INVOICED activity_A; activity_B] [invoice_X].

Definition body_visit (workerId : Nullable string) (start end_ : Date)
  : ActivityBody.t :=
  ActivityBody.mk "Visit" (value id_K) id_C workerId start end_ "Plant 3" null.

(** The body that re-submits the verified activity of [db0] with new bounds. *)
Definition body_audit (start end_ : Date) : ActivityBody.t :=
  ActivityBody.mk "Audit" (value id_K) id_C (value id_W) start end_
    "Plant 1" null.

(** The same body with [contractId: null]. *)
Definition body_unlinked (start end_ : Date) : ActivityBody.t :=
  ActivityBody.mk "Audit" null id_C (value id_W) start end_ "Plant 1" null.

(** A store whose contract of ten hours holds one verified activity of six. *)
Definition activity_L : Activity.t :=
  Activity.mk id_A "Audit" (Some id_K) id_C (Some id_W) VERIFIED
    (10 * hour) (16 * hour) 6%float "Plant 1" None.

Definition db_six : Db :=
  mkDb [worker_W] [client_C] [contract_K] [activity_L] [].

(** The start of the spec's end-to-end scenario: no activity yet, and the
    body that creates the four-hour audit under the contract. *)
Definition db_start : Db :=
  mkDb [worker_W] [client_C] [contract_K] [] [].

Definition body_new_audit : ActivityBody.t :=
  ActivityBody.mk "Audit" (value id_K) id_C undefined (10 * hour) (14 * hour)
    "Plant 1" null.



(** A second order of the same client, and a first one under a number that
    is taken. *)
Definition body_order (orderNumber : string) (totalHours : float)
  : ContractBody.t :=
  ContractBody.mk id_C orderNumber totalHours 0 (1000 * hour).

(** * Properties *)

(** ** Basic facts about the embedding *)

Lemma ActivityStatus_eqb_eq (a b : ActivityStatus) :
  ActivityStatus_eqb a b = true <-> a = b.
Proof.
  split.
  - destruct a, b; simpl; intro H; try reflexivity; discriminate H.
  - intros ->. destruct b; reflexivity.
Qed.

Lemma ActivityStatus_of_to_string (st : ActivityStatus) :
  ActivityStatus_of_string (ActivityStatus_to_string st) = Some st.
Proof. destruct st; reflexivity. Qed.

Lemma find_existsb {A} (p : A -> bool) (l : list A) (x : A) :
  find p l = Some x -> existsb p l = true.
Proof.
  intro H. apply find_some in H. apply existsb_exists. now exists x.
Qed.

Lemma existsb_find {A} (p : A -> bool) (l : list A) :
  existsb p l = false -> find p l = None.
Proof.
  intro H. destruct (find p l) as [x|] eqn:E; [|reflexivity].
  apply find_existsb in E. congruence.
Qed.

Lemma id_in_spec (ids : list string) (a : Activity.t) :
  id_in ids a = true <-> In (Activity.id a) ids.
Proof.
  unfold id_in. rewrite existsb_exists. split.
  - intros [i [Hi E]]. apply String.eqb_eq in E. now rewrite E.
  - intro H. exists (Activity.id a). split; [exact H|apply String.eqb_refl].
Qed.

Lemma workerId_is_spec (w : string) (a : Activity.t) :
  workerId_is w a = true <-> Activity.workerId a = Some w.
Proof.
  unfold workerId_is. destruct (Activity.workerId a) as [x|].
  - rewrite String.eqb_eq. split; [now intros ->|now intros [= ->]].
  - split; discriminate.
Qed.

Lemma in_period_spec (periodStart periodEnd : Date) (a : Activity.t) :
  in_period periodStart periodEnd a = true <->
  periodStart <= Activity.scheduledStart a /\ Activity.scheduledEnd a <= periodEnd.
Proof. unfold in_period. rewrite andb_true_iff, Z.geb_le, Z.leb_le. tauto. Qed.

Lemma billable_spec (c : string) (periodStart periodEnd : Date) (a : Activity.t) :
  billable c periodStart periodEnd a = true <->
  Activity.clientId a = c /\ Activity.status a = VERIFIED
  /\ periodStart <= Activity.scheduledStart a /\ Activity.scheduledEnd a <= periodEnd.
Proof.
  unfold billable.
  rewrite !andb_true_iff, String.eqb_eq, ActivityStatus_eqb_eq, in_period_spec.
  tauto.
Qed.

Lemma payable_spec (w : string) (periodStart periodEnd : Date) (a : Activity.t) :
  payable w periodStart periodEnd a = true <->
  Activity.workerId a = Some w /\ Activity.status a = VERIFIED
  /\ periodStart <= Activity.scheduledStart a /\ Activity.scheduledEnd a <= periodEnd.
Proof.
  unfold payable.
  rewrite !andb_true_iff, workerId_is_spec, ActivityStatus_eqb_eq, in_period_spec.
  tauto.
Qed.

Lemma uuid_truthy (s : string) : uuid s = true -> truthy_string s = true.
Proof. destruct s; [discriminate|reflexivity]. Qed.

(** What a successful client-invoice run is, step by step. *)
Lemma generateClientInvoice_run (db : Db) (new_id clientId : string)
  (periodStart periodEnd : Date) (client : Client.t) :
  find (fun c => (Client.id c =? clientId)%string) (clients db) = Some client ->
  let selected := filter (billable clientId periodStart periodEnd) (activities db) in
  let invoice :=
    Invoice.mk new_id CLIENT_BILL clientId
      (fold_left
         (fun sum a =>
            (sum + Activity.durationHours a * or_0 (Client.billingRate client))%float)
         selected 0%float)
      periodStart periodEnd DRAFT (Some clientId) None in
  generateClientInvoice new_id clientId periodStart periodEnd db
  = (Ok (ClientInvoice.mk invoice selected),
     mkDb (users db) (clients db) (contracts db)
       (map (fun r => if id_in (map Activity.id selected) r
                      then set_status INVOICED r else r) (activities db))
       (invoices db ++ [invoice])).
Proof.
  intros Hc selected invoice.
  unfold generateClientInvoice, bind, prisma_activity_findMany,
    prisma_client_findUnique, property, ret, prisma_invoice_create,
    prisma_activity_updateMany.
  rewrite Hc. unfold Invoice_fk, references, has_client. cbn [Invoice.clientId Invoice.workerId].
  rewrite (find_existsb _ _ Hc). reflexivity.
Qed.

Lemma generateClientInvoice_inv (db db' : Db) (new_id clientId : string)
  (periodStart periodEnd : Date) (r : ClientInvoice.t) :
  generateClientInvoice new_id clientId periodStart periodEnd db = (Ok r, db') ->
  exists client,
    find (fun c => (Client.id c =? clientId)%string) (clients db) = Some client.
Proof.
  unfold generateClientInvoice, bind, prisma_activity_findMany,
    prisma_client_findUnique, property, ret, throw.
  destruct (find _ (clients db)) as [c|]; [now exists c|discriminate].
Qed.

(** ** Client invoices *)



(** The spec's example: one verified four-hour activity at a rate of 50 gives
    an invoice of 200 and leaves the activity [INVOICED]. *)
Example generateClientInvoice_200 :
  generateClientInvoice id_X id_C 0 (15 * hour) db0
  = (Ok (ClientInvoice.mk invoice_X [activity_A]), db0_billed)
  /\ Invoice.totalAmount invoice_X = 200%float.
Proof. split; vm_compute; reflexivity. Qed.

(** C1, as amended.  After a successful [generateClientInvoice], a second run
    for the same client succeeds whatever its period and selects none of the
    activities the first run billed; when its period is the same as, or lies
    within, the first one it selects no activity at all and its invoice has
    [totalAmount] 0. *)
Theorem C1_at_most_once
  (db db1 : Db) (id1 id2 clientId : string)
  (periodStart periodEnd periodStart' periodEnd' : Date)
  (first : ClientInvoice.t)
  (Hfirst : generateClientInvoice id1 clientId periodStart periodEnd db
            = (Ok first, db1)) :
  exists second db2,
    generateClientInvoice id2 clientId periodStart' periodEnd' db1
    = (Ok second, db2)
    /\ (forall a, In a (ClientInvoice.activities second) ->
                  ~ In (Activity.id a)
                      (map Activity.id (ClientInvoice.activities first)))
    /\ (periodStart <= periodStart' -> periodEnd' <= periodEnd ->
        ClientInvoice.activities second = []
        /\ Invoice.totalAmount (ClientInvoice.invoice second) = 0%float).
Proof.
  destruct (generateClientInvoice_inv _ _ _ _ _ Hfirst) as [client Hclient].
  pose proof (@generateClientInvoice_run db id1 clientId periodStart
                periodEnd client Hclient) as Hrun.
  cbv zeta in Hrun. rewrite Hrun in Hfirst. clear Hrun.
  injection Hfirst as Hr Hdb. subst first db1.
  set (selected := filter (billable clientId periodStart periodEnd) (activities db)).
  eexists. eexists. split.
  { apply generateClientInvoice_run. exact Hclient. }
  cbn [ClientInvoice.activities ClientInvoice.invoice Invoice.totalAmount activities].
  assert (Hnot : forall a,
             In a (filter (billable clientId periodStart' periodEnd')
                     (map (fun r => if id_in (map Activity.id selected) r
                                    then set_status INVOICED r else r)
                        (activities db))) ->
             In a (activities db)
             /\ billable clientId periodStart' periodEnd' a = true
             /\ ~ In (Activity.id a) (map Activity.id selected)).
  { intros a Ha. apply filter_In in Ha. destruct Ha as [Hin Hb].
    apply in_map_iff in Hin. destruct Hin as [r [Hr Hin]].
    destruct (id_in (map Activity.id selected) r) eqn:E.
    - subst a. apply billable_spec in Hb. destruct Hb as (_ & Hst & _).
      discriminate Hst.
    - subst a. split; [exact Hin|]. split; [exact Hb|].
      intro H. apply id_in_spec in H. congruence. }
  split.
  - intros a Ha. now apply Hnot in Ha.
  - intros Hs He.
    assert (Hnil : filter (billable clientId periodStart' periodEnd')
                     (map (fun r => if id_in (map Activity.id selected) r
                                    then set_status INVOICED r else r)
                        (activities db)) = []).
    { match goal with
      | |- ?l = [] => destruct l as [|a l'] eqn:E; [reflexivity|exfalso]
      end.
      destruct (Hnot a) as (Hin & Hb & Hid); [now left|].
      apply Hid. apply in_map. apply filter_In. split; [exact Hin|].
      apply billable_spec in Hb. destruct Hb as (Hc & Hst & H1 & H2).
      apply billable_spec. repeat split; try assumption; lia. }
    rewrite Hnil. split; reflexivity.
Qed.

Lemma C1_at_most_once_witness :
  generateClientInvoice id_X id_C 0 (15 * hour) db0
  = (Ok (ClientInvoice.mk invoice_X [activity_A]), db0_billed)
  /\ exists second db2,
       generateClientInvoice id_N id_C 0 (15 * hour) db0_billed
       = (Ok second, db2)
       /\ ClientInvoice.activities second = []
       /\ Invoice.totalAmount (ClientInvoice.invoice second) = 0%float.
Proof.
  assert (H : generateClientInvoice id_X id_C 0 (15 * hour) db0
              = (Ok (ClientInvoice.mk invoice_X [activity_A]), db0_billed)).
  { vm_compute. reflexivity. }
  split; [exact H|].
  destruct (@C1_at_most_once db0 db0_billed id_X id_N id_C 0 (15 * hour)
              0 (15 * hour) (ClientInvoice.mk invoice_X [activity_A]) H)
    as (second & db2 & Hrun & _ & Hsame).
  exists second, db2. split; [exact Hrun|]. apply Hsame; reflexivity.
Defined.

(** The claim as it was worded fails for a second period that merely
    overlaps the first: with both activities verified, billing hours 0 to 15
    and then hours 0 to 30 gives a second invoice of 200, for the activity
    the first period did not contain. *)
Lemma C1_overlapping_period_counterexample :
  exists first db1 second db2,
    generateClientInvoice id_X id_C 0 (15 * hour) db_verified = (Ok first, db1)
    /\ generateClientInvoice id_N id_C 0 (30 * hour) db1 = (Ok second, db2)
    /\ Invoice.totalAmount (ClientInvoice.invoice second) = 200%float
    /\ Invoice.totalAmount (ClientInvoice.invoice second) <> 0%float.
Proof.
  do 4 eexists. split; [vm_compute; reflexivity|].
  split; [vm_compute; reflexivity|].
  split; [reflexivity|]. cbn. intro H. discriminate H.
Qed.

(** ** Worker payouts *)



(** A payout of the verified four hours at 20 an hour is 80, twice over. *)
Example generateWorkerPayout_twice :
  exists first db1 second db2,
    generateWorkerPayout id_X id_W 0 (15 * hour) db0 = (Ok first, db1)
    /\ generateWorkerPayout id_N id_W 0 (15 * hour) db1 = (Ok second, db2)
    /\ Invoice.totalAmount (WorkerPayout.invoice first) = 80%float
    /\ Invoice.totalAmount (WorkerPayout.invoice second) = 80%float
    /\ activities db2 = activities db0.
Proof.
  do 4 eexists. split; [vm_compute; reflexivity|].
  split; [vm_compute; reflexivity|]. repeat split.
Qed.

(** ** Failures of the invoice flows *)


(** A target that does not exist: the service reads a property of the [null]
    that [findUnique] returned, before it writes anything.  The store is
    untouched, but the error is a [TypeError], which the handler answers with
    500 "Internal server error", not with 404. *)
Lemma invoice_missing_target (db : Db) (new_id entityId : string)
  (periodStart periodEnd : Date) :
  (has_client db entityId = false ->
   generateClientInvoice new_id entityId periodStart periodEnd db
   = (Throw TypeError, db))
  /\ (has_user db entityId = false ->
      generateWorkerPayout new_id entityId periodStart periodEnd db
      = (Throw TypeError, db)).
Proof.
  split; intro H.
  - unfold generateClientInvoice, bind, prisma_activity_findMany,
      prisma_client_findUnique.
    unfold has_client in H. now rewrite (existsb_find _ _ H).
  - unfold generateWorkerPayout, bind, prisma_activity_findMany,
      prisma_user_findUnique.
    unfold has_user in H. now rewrite (existsb_find _ _ H).
Qed.

(** C7, at an input where the code departs from it: a well-formed request
    for a client invoice, and one for a worker payout, whose [entityId] names
    no row.  No invoice is created and no activity changes, as claimed, but
    the answer is 500 "Internal server error" where the claim has NotFound;
    the TypeScript route answers the same request with 404 "Client not
    found". *)
Theorem C7_missing_target_answers_500 :
  uuid id_N = true
  /\ has_client db0 id_N = false /\ has_user db0 id_N = false
  /\ InvoicesController.generateClientInvoice id_X
       (InvoiceBody.mk CLIENT_BILL id_N 0 (15 * hour)) db0
     = (mkResponse 500 (json_error (Text "Internal server error")), db0)
  /\ InvoicesController.generateWorkerPayout id_X
       (InvoiceBody.mk WORKER_PAYOUT id_N 0 (15 * hour)) db0
     = (mkResponse 500 (json_error (Text "Internal server error")), db0)
  /\ errorHandler (NotFoundError "Client")
     = mkResponse 404 (json_error (Text "Client not found"))
  /\ InvoicesRouter.post_client id_X
       (InvoicesRouter.mkBody (value id_N) (Some 0) (Some (15 * hour))) db0
     = (mkResponse 404 (json_error (Text "Client not found")), db0).
Proof. repeat split; vm_compute; reflexivity. Qed.

(** The same at any store: a valid body whose [entityId] names no client is
    answered with 500 by the controller, and with 404 by the route. *)
Lemma generateClientInvoice_missing_client
  (db : Db) (new_id entityId : string) (periodStart periodEnd : Date) :
  uuid entityId = true ->
  periodStart < periodEnd ->
  has_client db entityId = false ->
  InvoicesController.generateClientInvoice new_id
    (InvoiceBody.mk CLIENT_BILL entityId periodStart periodEnd) db
  = (mkResponse 500 (json_error (Text "Internal server error")), db)
  /\ InvoicesRouter.post_client new_id
       (InvoicesRouter.mkBody (value entityId) (Some periodStart) (Some periodEnd)) db
     = (mkResponse 404 (json_error (Text "Client not found")), db).
Proof.
  intros Hu Hp Hc. split.
  - assert (Hv : validateInvoice
                   (InvoiceBody.mk CLIENT_BILL entityId periodStart periodEnd)
                 = Ok (InvoiceBody.mk CLIENT_BILL entityId periodStart periodEnd)).
    { unfold validateInvoice.
      cbn [InvoiceBody.entityId InvoiceBody.periodStart InvoiceBody.periodEnd].
      rewrite Hu. cbn [issue].
      destruct (Z.gtb_spec periodEnd periodStart); [reflexivity|lia]. }
    destruct (invoice_missing_target db new_id entityId periodStart periodEnd)
      as [Hnull _].
    unfold InvoicesController.generateClientInvoice, handled, bind, lift.
    rewrite Hv.
    cbn [InvoiceBody.entityId InvoiceBody.periodStart InvoiceBody.periodEnd
         InvoiceBody.type].
    now rewrite (Hnull Hc).
  - unfold InvoicesRouter.post_client.
    cbn [InvoicesRouter.entityId InvoicesRouter.periodStart InvoicesRouter.periodEnd].
    rewrite (uuid_truthy _ Hu). cbn [negb].
    destruct (Z.leb_spec periodEnd periodStart); [lia|].
    unfold InvoicesRouter.generateClientInvoice, bind, prisma_activity_findMany,
      prisma_client_findUnique.
    unfold has_client in Hc. now rewrite (existsb_find _ _ Hc).
Qed.

(** ** Status changes *)

Lemma has_id_spec (i : string) (a : Activity.t) :
  has_id i a = true <-> Activity.id a = i.
Proof. unfold has_id. apply String.eqb_eq. Qed.

(** Updating the rows of one identifier, when the update keeps the identifier:
    the row found under it afterwards is the updated one. *)
Lemma find_updated (i : string) (f : Activity.t -> Activity.t)
  (l : list Activity.t) (a : Activity.t) :
  (forall r, Activity.id (f r) = Activity.id r) ->
  find (has_id i) l = Some a ->
  find (has_id i) (map (fun r => if has_id i r then f r else r) l) = Some (f a).
Proof.
  intros Hf. induction l as [|x l IH]; simpl; [discriminate|].
  destruct (has_id i x) eqn:E.
  - intros [= ->]. unfold has_id in *. now rewrite Hf, E.
  - rewrite E. exact IH.
Qed.

Lemma update_fk_status (db : Db) (s : Nullable string) :
  update_fk db (ActivitiesController.status_data s) = true.
Proof. reflexivity. Qed.

Lemma prisma_activity_update_status (db : Db) (i : string) (a : Activity.t)
  (st : ActivityStatus) :
  find (has_id i) (activities db) = Some a ->
  prisma_activity_update i
    (ActivitiesController.status_data (value (ActivityStatus_to_string st))) db
  = (Ok (set_status st a),
     set_activities db
       (map (fun r => if has_id i r then set_status st r else r) (activities db))).
Proof.
  intro H. unfold prisma_activity_update.
  cbn [ActivitiesController.status_data ActivityUpdateInput.status status_input].
  rewrite ActivityStatus_of_to_string, H, update_fk_status.
  reflexivity.
Qed.

(** C3, as amended.  Nothing orders the statuses: for every stored activity,
    whatever its current status, and every one of the six statuses requested,
    [updateStatus] (the controller, and the TypeScript route alike) answers
    200 and stores the requested status; so an [UNASSIGNED] activity does go
    to [INVOICED] in one direct call. *)
Theorem C3_updateStatus_accepts_every_status
  (db : Db) (id : string) (a : Activity.t) (st : ActivityStatus)
  (Hid : truthy_string id = true)
  (Hfound : find (has_id id) (activities db) = Some a) :
  let db' :=
    set_activities db
      (map (fun r => if has_id id r then set_status st r else r) (activities db)) in
  ActivitiesController.updateStatus id (value (ActivityStatus_to_string st)) db
  = (mkResponse 200 (json_activity (set_status st a)), db')
  /\ ActivitiesRouter.patch_status id (value (ActivityStatus_to_string st)) db
     = (mkResponse 200 (json_activity (set_status st a)), db')
  /\ find (has_id id) (activities db') = Some (set_status st a)
  /\ Activity.status (set_status st a) = st.
Proof.
  intro db'. split; [|split; [|split]].
  - unfold ActivitiesController.updateStatus, handled, bind.
    rewrite (@prisma_activity_update_status db id a st Hfound).
    cbn [set_status Activity.contractId].
    destruct (Activity.contractId a) as [c|]; [|reflexivity].
    destruct (_ && _); reflexivity.
  - unfold ActivitiesRouter.patch_status. rewrite Hid. cbn [negb].
    now rewrite (@prisma_activity_update_status db id a st Hfound).
  - unfold db', set_activities. cbn [activities].
    now apply find_updated.
  - reflexivity.
Qed.

Lemma C3_updateStatus_accepts_every_status_witness :
  truthy_string id_N = true
  /\ find (has_id id_N) (activities db_unassigned) = Some activity_U
  /\ ActivitiesController.updateStatus id_N (value "DONE") db_unassigned
     = (mkResponse 200 (json_activity (set_status DONE activity_U)),
        set_activities db_unassigned [set_status DONE activity_U]).
Proof.
  split; [reflexivity|]. split; [reflexivity|].
  exact (proj1 (@C3_updateStatus_accepts_every_status db_unassigned id_N
                  activity_U DONE eq_refl eq_refl)).
Defined.

(** The claim as it was worded fails: a fresh [UNASSIGNED] activity is moved
    to [INVOICED] by one direct call, in the controller and in the route. *)
Lemma C3_UNASSIGNED_to_INVOICED_counterexample :
  Activity.status activity_U = UNASSIGNED
  /\ ActivitiesController.updateStatus id_N (value "INVOICED") db_unassigned
     = (mkResponse 200 (json_activity (set_status INVOICED activity_U)),
        set_activities db_unassigned [set_status INVOICED activity_U])
  /\ ActivitiesRouter.patch_status id_N (value "INVOICED") db_unassigned
     = (mkResponse 200 (json_activity (set_status INVOICED activity_U)),
        set_activities db_unassigned [set_status INVOICED activity_U])
  /\ ActivitiesController.updateStatus id_A (value "SCHEDULED") db0
     = (mkResponse 200 (json_activity (set_status SCHEDULED activity_A)),
        set_activities db0 [set_status SCHEDULED activity_A; activity_B]).
Proof. repeat split; vm_compute; reflexivity. Qed.

(** What the store does refuse is a name outside the enumeration. *)
Example updateStatus_unknown_name :
  ActivitiesController.updateStatus id_N (value "PAID") db_unassigned
  = (mkResponse 500 (json_error (Text "Internal server error")), db_unassigned).
Proof. vm_compute. reflexivity. Qed.

(** ** Availability *)

Lemma SCHEDULED_or_IN_PROGRESS_spec (a : Activity.t) :
  SCHEDULED_or_IN_PROGRESS a = true <->
  Activity.status a = SCHEDULED \/ Activity.status a = IN_PROGRESS.
Proof.
  unfold SCHEDULED_or_IN_PROGRESS.
  now rewrite orb_true_iff, !ActivityStatus_eqb_eq.
Qed.

Lemma truthy_string_spec (s : string) : truthy_string s = true <-> s <> "".
Proof.
  destruct s; simpl; split; intro H; try discriminate; try reflexivity.
  now elim H.
Qed.

(** C5. [checkWorkerAvailability] reads the store and leaves it alone.  Its
    conflicting set holds exactly the activities of the worker, other than
    the excluded one when an identifier is given, whose status is
    [SCHEDULED] or [IN_PROGRESS] and whose interval meets the requested one
    in the inclusive sense: [scheduledStart <= end] and [scheduledEnd >=
    start].  [available] is true exactly when that set is empty. *)
Theorem C5_checkWorkerAvailability
  (db : Db) (workerId : string) (scheduledStart scheduledEnd : Date)
  (excludeActivityId : option string)
  (Hexclude : forall e, excludeActivityId = Some e -> e <> "") :
  exists result,
    checkWorkerAvailability workerId scheduledStart scheduledEnd
      excludeActivityId db = (Ok result, db)
    /\ (forall a, In a (Availability.conflictingActivities result) <->
                  In a (activities db)
                  /\ Activity.workerId a = Some workerId
                  /\ excludeActivityId <> Some (Activity.id a)
                  /\ (Activity.status a = SCHEDULED
                      \/ Activity.status a = IN_PROGRESS)
                  /\ Activity.scheduledStart a <= scheduledEnd
                  /\ Activity.scheduledEnd a >= scheduledStart)
    /\ (Availability.available result = true <->
        Availability.conflictingActivities result = []).
Proof.
  eexists. split; [reflexivity|].
  cbn [Availability.conflictingActivities Availability.available].
  split.
  - intro a. rewrite filter_In. unfold conflicts_with.
    rewrite !andb_true_iff, workerId_is_spec, SCHEDULED_or_IN_PROGRESS_spec,
      Z.leb_le, Z.geb_le.
    assert (Hex : match excludeActivityId with
                  | Some e => if truthy_string e then negb (has_id e a) else true
                  | None => true
                  end = true <-> excludeActivityId <> Some (Activity.id a)).
    { destruct excludeActivityId as [e|]; [|split; congruence].
      assert (He : truthy_string e = true)
        by (apply truthy_string_spec; now apply Hexclude).
      rewrite He, negb_true_iff. unfold has_id. split.
      - intros H [= ->]. now rewrite String.eqb_refl in H.
      - intro H. apply String.eqb_neq. congruence. }
    rewrite Hex. split; intro H; repeat split; try tauto; lia.
  - destruct (filter _ _) as [|a l]; simpl; split; congruence.
Qed.

Lemma C5_checkWorkerAvailability_witness :
  (forall e, Some id_N = Some e -> e <> "")
  /\ exists result,
       checkWorkerAvailability id_W (22 * hour) (26 * hour) (Some id_N) db0
       = (Ok result, db0)
       /\ (Availability.available result = true <->
           Availability.conflictingActivities result = []).
Proof.
  assert (H : forall e, Some id_N = Some e -> e <> "").
  { intros e [= <-]. discriminate. }
  split; [exact H|].
  destruct (@C5_checkWorkerAvailability db0 id_W (22 * hour) (26 * hour)
              (Some id_N) H) as (result & Hrun & _ & Havailable).
  exists result. split; [exact Hrun|exact Havailable].
Defined.

(** The spec's example, on the worker's scheduled activity of hours 20 to 24:
    an overlapping request conflicts, an earlier one does not, one that
    starts at hour 24 conflicts at the shared endpoint, and the activity does
    not conflict with itself when it is excluded. *)
Example checkWorkerAvailability_examples :
  checkWorkerAvailability id_W (22 * hour) (26 * hour) None db0
  = (Ok (Availability.mk false [activity_B]), db0)
  /\ checkWorkerAvailability id_W (16 * hour) (18 * hour) None db0
     = (Ok (Availability.mk true []), db0)
  /\ checkWorkerAvailability id_W (24 * hour) (28 * hour) None db0
     = (Ok (Availability.mk false [activity_B]), db0)
  /\ checkWorkerAvailability id_W (22 * hour) (26 * hour) (Some id_B) db0
     = (Ok (Availability.mk true []), db0).
Proof. repeat split; vm_compute; reflexivity. Qed.

(** ** The contract hour ledger *)

Lemma VERIFIED_or_INVOICED_spec (a : Activity.t) :
  VERIFIED_or_INVOICED a = true <->
  Activity.status a = VERIFIED \/ Activity.status a = INVOICED.
Proof.
  unfold VERIFIED_or_INVOICED.
  now rewrite orb_true_iff, !ActivityStatus_eqb_eq.
Qed.

Lemma linked_to_spec (c : string) (a : Activity.t) :
  linked_to c a = true <-> Activity.contractId a = Some c.
Proof.
  unfold linked_to. destruct (Activity.contractId a) as [x|].
  - rewrite String.eqb_eq. split; [now intros ->|now intros [= ->]].
  - split; discriminate.
Qed.

(** Only the activities linked to the contract that are verified or invoiced
    count; scheduled, in-progress and done ones do not. *)
Lemma counted_spec (db : Db) (c : string) (a : Activity.t) :
  In a (counted db c) <->
  In a (activities db) /\ Activity.contractId a = Some c
  /\ (Activity.status a = VERIFIED \/ Activity.status a = INVOICED).
Proof.
  unfold counted.
  rewrite filter_In, andb_true_iff, linked_to_spec, VERIFIED_or_INVOICED_spec.
  tauto.
Qed.

Section Ledger.

Variables (db : Db) (c : string) (contract : Contract.t).
Hypothesis Hcontract :
  find (fun k => (Contract.id k =? c)%string) (contracts db) = Some contract.

Let usedHours : float := sum_durationHours (counted db c).
Let remaining : float := (Contract.totalHours contract - usedHours)%float.

Lemma contract_with_counted :
  prisma_contract_findUnique_include_activities c VERIFIED_or_INVOICED db
  = (Ok (Some (contract, counted db c)), db).
Proof.
  unfold prisma_contract_findUnique_include_activities. now rewrite Hcontract.
Qed.

(** The ledger: [usedHours] is the sum over the counted activities and what
    remains is [totalHours - usedHours]; the controller sends it under the key
    [remaining], the TypeScript route under [remainingHours]. *)
Lemma hours_remaining_ledger :
  truthy_string c = true ->
  ContractsController.getHoursRemaining c db
  = (mkResponse 200
       (json_object
          [("contractId", JString (Contract.id contract));
           ("totalHours", JNumber (Contract.totalHours contract));
           ("usedHours", JNumber usedHours);
           ("remaining", JNumber remaining)]), db)
  /\ ContractsRouter.hours_remaining c db
     = (mkResponse 200
          (json_object
             [("contractId", JString (Contract.id contract));
              ("totalHours", JNumber (Contract.totalHours contract));
              ("usedHours", JNumber usedHours);
              ("remainingHours", JNumber remaining)]), db).
Proof.
  intros Hc. split.
  - unfold ContractsController.getHoursRemaining, handled, bind.
    now rewrite contract_with_counted.
  - unfold ContractsRouter.hours_remaining. rewrite Hc. cbn [negb].
    now rewrite contract_with_counted.
Qed.

(** A commitment is refused, with 400 "Insufficient hours", exactly when it
    asks for more than [totalHours - usedHours]. *)
Lemma validateContractHours_spec (hours : float) :
  validateContractHours c hours db
  = if (remaining <? hours)%float
    then (Throw (AppError (Insufficient_hours_Remaining remaining) 400), db)
    else (Ok tt, db).
Proof.
  unfold validateContractHours, bind.
  rewrite contract_with_counted. fold usedHours. fold remaining.
  now destruct (remaining <? hours)%float.
Qed.

End Ledger.

(** C4, at an input where the code departs from it: the contract of ten
    hours with one verified four-hour activity.  The numbers are the claimed
    ones (total 10, used 4, 6 remaining, and a commitment of 7 hours is
    refused while one of 6 passes), but the object the controller sends has
    no [remainingHours]: the number is under the key [remaining].  The
    TypeScript route sends it as [remainingHours]. *)
Theorem C4_getHoursRemaining_key :
  let sent := body (fst (ContractsController.getHoursRemaining id_K db0)) in
  let sent_by_route := body (fst (ContractsRouter.hours_remaining id_K db0)) in
  get "contractId" sent = Some (JString id_K)
  /\ get "totalHours" sent = Some (JNumber 10)
  /\ get "usedHours" sent = Some (JNumber 4)
  /\ get "remainingHours" sent = None
  /\ get "remaining" sent = Some (JNumber 6)
  /\ get "remainingHours" sent_by_route = Some (JNumber 6)
  /\ validateContractHours id_K 7 db0
     = (Throw (AppError (Insufficient_hours_Remaining 6) 400), db0)
  /\ validateContractHours id_K 6 db0 = (Ok tt, db0).
Proof. repeat split; vm_compute; reflexivity. Qed.

(** The spec's example: no verified or invoiced activity leaves all ten
    hours; scheduled work does not count. *)
Example hours_remaining_of_unverified :
  ContractsRouter.hours_remaining id_K
    (set_activities db0 [set_status DONE activity_A; activity_B])
  = (mkResponse 200
       (json_object
          [("contractId", JString id_K); ("totalHours", JNumber 10);
           ("usedHours", JNumber 0); ("remainingHours", JNumber 10)]),
     set_activities db0 [set_status DONE activity_A; activity_B]).
Proof. vm_compute. reflexivity. Qed.

(** ** Creating and updating activities *)

Lemma validateActivity_Ok (b b' : ActivityBody.t) :
  validateActivity b = Ok b' ->
  b' = b
  /\ optional_nullable_uuid (ActivityBody.contractId b) = true
  /\ uuid (ActivityBody.clientId b) = true
  /\ ActivityBody.scheduledStart b < ActivityBody.scheduledEnd b.
Proof.
  unfold validateActivity.
  destruct (1 <=? Z.of_nat (String.length (ActivityBody.title b)));
    [|discriminate].
  destruct (optional_nullable_uuid (ActivityBody.contractId b)); [|discriminate].
  destruct (uuid (ActivityBody.clientId b)); [|discriminate].
  destruct (optional_nullable_uuid (ActivityBody.workerId b)); [|discriminate].
  destruct (1 <=? Z.of_nat (String.length (ActivityBody.location b)));
    [|discriminate].
  cbn [issue app].
  destruct (Z.gtb_spec (ActivityBody.scheduledEnd b) (ActivityBody.scheduledStart b));
    [|discriminate].
  intros [= <-]. repeat split. assumption.
Qed.

Lemma validateActivity_rejects (b : ActivityBody.t) :
  ActivityBody.scheduledEnd b <= ActivityBody.scheduledStart b ->
  exists issues, validateActivity b = Throw (ZodError issues).
Proof.
  intro H. destruct (validateActivity b) as [b'|e] eqn:E.
  - apply validateActivity_Ok in E. lia.
  - unfold validateActivity in E.
    destruct (_ ++ _)%list; [|injection E as <-; now eexists].
    destruct (_ >? _); [discriminate|]. injection E as <-. now eexists.
Qed.

(** The [data] the controller's [update] passes to the store. *)
Lemma update_unfold (db : Db) (id : string) (b : ActivityBody.t) :
  validateActivity b = Ok b ->
  ActivitiesController.update id b db
  = handled (
      check_contract (ActivityBody.contractId b)
        (calculateDuration (ActivityBody.scheduledStart b)
           (ActivityBody.scheduledEnd b)) ;;
      activity <- prisma_activity_update id
                    (ActivityUpdateInput.mk
                       (Some (ActivityBody.title b))
                       (ActivityBody.contractId b)
                       (Some (ActivityBody.clientId b))
                       (ActivityBody.workerId b)
                       undefined
                       (Some (ActivityBody.scheduledStart b))
                       (Some (ActivityBody.scheduledEnd b))
                       (Some (calculateDuration (ActivityBody.scheduledStart b)
                                (ActivityBody.scheduledEnd b)))
                       (Some (ActivityBody.location b))
                       (ActivityBody.description b)) ;;
      ret (mkResponse 200 (json_activity activity))) db.
Proof.
  intro H. unfold ActivitiesController.update, handled, bind, lift.
  now rewrite H.
Qed.

(** An update that reaches the store answers 200, 404 or 500. *)
Lemma prisma_activity_update_answers (db : Db) (id : string)
  (d : ActivityUpdateInput.t) (m : Message) :
  handled (activity <- prisma_activity_update id d ;;
           ret (mkResponse 200 (json_activity activity))) db
  <> (mkResponse 400 (json_error m), db).
Proof.
  unfold handled, bind, prisma_activity_update, ret.
  destruct (status_input (ActivityUpdateInput.status d)) as [st|e] eqn:E.
  - destruct (find _ _); [destruct (update_fk _ _)|]; discriminate.
  - assert (He : e = PrismaClientValidationError).
    { unfold status_input in E.
      destruct (ActivityUpdateInput.status d) as [| |s]; try congruence.
      destruct (ActivityStatus_of_string s); congruence. }
    subst e. discriminate.
Qed.

Lemma handled_bind_Throw {A} (m : Async A) (k : A -> Async Response)
  (db db' : Db) (e : Error) :
  m db = (Throw e, db') -> handled (bind m k) db = (errorHandler e, db').
Proof. intro H. unfold handled, bind. now rewrite H. Qed.

Lemma handled_bind_Ok {A} (m : Async A) (k : A -> Async Response)
  (db db' : Db) (a : A) :
  m db = (Ok a, db') -> handled (bind m k) db = handled (k a) db'.
Proof. intro H. unfold handled, bind. now rewrite H. Qed.

(** C10. When an activity linked to a contract is already [VERIFIED] or
    [INVOICED], its own [durationHours] is one of the terms of the
    [usedHours] that [update] checks the new duration against, the sum over
    all verified or invoiced activities of the contract: nothing excludes
    the edited activity.  The check is run for the contract that the body
    names: an update whose body names the activity's contract is refused
    with 400 "Insufficient hours" exactly when the requested duration
    exceeds [totalHours - usedHours], so submitting the unchanged duration
    [d] again is refused whenever [d > totalHours - usedHours]; an update
    whose body has [contractId] [null] is not checked: with dates the store
    can hold, it takes the activity off the contract and stores the
    requested duration, whatever remains. *)
Theorem C10_update_counts_own_hours
  (db : Db) (id c : string) (a : Activity.t) (contract : Contract.t)
  (Hstored : In a (activities db))
  (Hid : Activity.id a = id)
  (Hlinked : Activity.contractId a = Some c)
  (Hstatus : Activity.status a = VERIFIED \/ Activity.status a = INVOICED)
  (Hcontract : find (fun k => (Contract.id k =? c)%string) (contracts db)
               = Some contract) :
  let requested (req_body : ActivityBody.t) :=
    ((getTime (ActivityBody.scheduledEnd req_body)
      - getTime (ActivityBody.scheduledStart req_body)) / 3600000)%float in
  let usedHours :=
    fold_left (fun sum x => (sum + Activity.durationHours x)%float)
      (counted db c) 0%float in
  let remaining := (Contract.totalHours contract - usedHours)%float in
  (forall x, In x (counted db c) <->
             In x (activities db) /\ Activity.contractId x = Some c
             /\ (Activity.status x = VERIFIED \/ Activity.status x = INVOICED))
  /\ (exists before after, counted db c = (before ++ a :: after)%list)
  /\ (forall req_body,
        validateActivity req_body = Ok req_body ->
        ActivityBody.contractId req_body = value c ->
        (ActivitiesController.update id req_body db
         = (mkResponse 400 (json_error (Insufficient_hours_Remaining remaining)),
            db)
         <-> (remaining <? requested req_body)%float = true)
        /\ (requested req_body = Activity.durationHours a ->
            (remaining <? Activity.durationHours a)%float = true ->
            ActivitiesController.update id req_body db
            = (mkResponse 400
                 (json_error (Insufficient_hours_Remaining remaining)), db)))
  /\ (forall req_body,
        validateActivity req_body = Ok req_body ->
        ActivityBody.contractId req_body = null ->
        has_client db (ActivityBody.clientId req_body) = true ->
        references (has_user db) (to_column (ActivityBody.workerId req_body))
        = true ->
        storable_DateTime (ActivityBody.scheduledStart req_body)
        /\ storable_DateTime (ActivityBody.scheduledEnd req_body) ->
        exists a' db',
          ActivitiesController.update id req_body db
          = (mkResponse 200 (json_activity a'), db')
          /\ find (has_id id) (activities db') = Some a'
          /\ Activity.contractId a' = None
          /\ Activity.durationHours a' = requested req_body
          /\ forall r, In r (activities db') -> Activity.id r = id ->
                       Activity.contractId r = None
                       /\ Activity.durationHours r = requested req_body).
Proof.
  intros requested usedHours remaining.
  assert (Hiff : forall req_body,
             validateActivity req_body = Ok req_body ->
             ActivityBody.contractId req_body = value c ->
             ActivitiesController.update id req_body db
             = (mkResponse 400
                  (json_error (Insufficient_hours_Remaining remaining)), db)
             <-> (remaining <? requested req_body)%float = true).
  { intros req_body Hvalid Hbody.
    rewrite (update_unfold db id Hvalid). rewrite Hbody.
    change (calculateDuration (ActivityBody.scheduledStart req_body)
              (ActivityBody.scheduledEnd req_body))
      with (requested req_body).
    assert (Htruthy : truthy_string c = true).
    { apply uuid_truthy. apply validateActivity_Ok in Hvalid.
      rewrite Hbody in Hvalid. tauto. }
    assert (Hcheck : check_contract (value c) (requested req_body) db
                     = if (remaining <? requested req_body)%float
                       then (Throw (AppError
                                      (Insufficient_hours_Remaining remaining) 400),
                             db)
                       else (Ok tt, db)).
    { unfold check_contract. rewrite Htruthy.
      exact (@validateContractHours_spec db c contract Hcontract
               (requested req_body)). }
    destruct (remaining <? requested req_body)%float.
    - rewrite (@handled_bind_Throw _ _ _ _ _ _ Hcheck). split; reflexivity.
    - rewrite (@handled_bind_Ok _ _ _ _ _ _ Hcheck). split; [|discriminate].
      intro H. now apply prisma_activity_update_answers in H. }
  split; [|split; [|split]].
  - intro x. apply counted_spec.
  - apply in_split. apply counted_spec. tauto.
  - intros req_body Hvalid Hbody. split; [now apply Hiff|].
    intros Hsame Hover. apply Hiff; try assumption. now rewrite Hsame.
  - intros req_body Hvalid Hbody Hclient Hworker _.
    rewrite (update_unfold db id Hvalid). rewrite Hbody.
    change (calculateDuration (ActivityBody.scheduledStart req_body)
              (ActivityBody.scheduledEnd req_body))
      with (requested req_body).
    assert (Hfound : exists a0, find (has_id id) (activities db) = Some a0).
    { destruct (find (has_id id) (activities db)) as [a0|] eqn:E;
        [now exists a0|].
      exfalso. pose proof (find_none _ _ E a Hstored) as Hno.
      apply has_id_spec in Hid. congruence. }
    destruct Hfound as [a0 Hfound].
    unfold handled, bind, check_contract, ret, prisma_activity_update.
    cbn [ActivityUpdateInput.status status_input]. rewrite Hfound.
    unfold update_fk.
    cbn [ActivityUpdateInput.clientId ActivityUpdateInput.contractId
         ActivityUpdateInput.workerId to_column references].
    rewrite Hclient, Hworker. cbn [andb].
    do 2 eexists. split; [reflexivity|].
    cbn [set_activities activities].
    split; [|split; [reflexivity|split; [reflexivity|]]].
    + apply find_updated; [|exact Hfound]. intro r. reflexivity.
    + intros r Hr Hrid. apply in_map_iff in Hr. destruct Hr as (x & <- & _).
      destruct (has_id id x) eqn:E; [split; reflexivity|].
      exfalso. apply has_id_spec in Hrid. congruence.
Qed.

(** In the example store six of the ten hours remain, the audit's own four
    being counted: re-submitted under its contract with seven hours the
    audit is refused, with six it is stored. *)
Lemma C10_update_counts_own_hours_witness :
  In activity_A (activities db0)
  /\ Activity.contractId activity_A = Some id_K
  /\ Activity.status activity_A = VERIFIED
  /\ validateActivity (body_audit (10 * hour) (17 * hour))
     = Ok (body_audit (10 * hour) (17 * hour))
  /\ ActivitiesController.update id_A (body_audit (10 * hour) (17 * hour)) db0
     = (mkResponse 400 (json_error (Insufficient_hours_Remaining 6)), db0)
  /\ ActivitiesController.update id_A (body_audit (10 * hour) (16 * hour)) db0
     <> (mkResponse 400 (json_error (Insufficient_hours_Remaining 6)), db0)
  /\ exists a' db',
       ActivitiesController.update id_A (body_unlinked (10 * hour) (18 * hour))
         db0
       = (mkResponse 200 (json_activity a'), db')
       /\ Activity.contractId a' = None
       /\ Activity.durationHours a' = 8%float.
Proof.
  split; [now left|]. split; [reflexivity|]. split; [reflexivity|].
  split; [reflexivity|].
  pose proof (@C10_update_counts_own_hours db0 id_A id_K activity_A contract_K
                (or_introl eq_refl) eq_refl eq_refl (or_introl eq_refl)
                eq_refl) as H.
  cbv zeta in H. destruct H as (_ & _ & Hnamed & Hnull).
  split; [|split].
  - destruct (Hnamed (body_audit (10 * hour) (17 * hour)) eq_refl eq_refl)
      as [Hrefused _].
    apply Hrefused. vm_compute. reflexivity.
  - destruct (Hnamed (body_audit (10 * hour) (16 * hour)) eq_refl eq_refl)
      as [Hrefused _].
    intro Habs. apply Hrefused in Habs. vm_compute in Habs. discriminate Habs.
  - assert (Hdates : storable_DateTime (10 * hour)
                     /\ storable_DateTime (18 * hour))
      by (unfold storable_DateTime; cbn; lia).
    destruct (Hnull (body_unlinked (10 * hour) (18 * hour)) eq_refl eq_refl
                eq_refl eq_refl Hdates)
      as (a' & db' & Hrun & _ & Hnone & Hd & _).
    exists a', db'. split; [exact Hrun|]. split; [exact Hnone|].
    rewrite Hd. vm_compute. reflexivity.
Defined.

(** The claim as it was worded fails: the verified audit of the example
    store, four of the contract's ten hours, is updated to eight hours by a
    body whose [contractId] is [null]; eight exceeds the six that remain
    with the audit's own hours counted, and the update is not refused. *)
Lemma C10_unchecked_update_counterexample :
  In activity_A (activities db0)
  /\ Activity.contractId activity_A = Some id_K
  /\ Activity.status activity_A = VERIFIED
  /\ find (fun k => (Contract.id k =? id_K)%string) (contracts db0)
     = Some contract_K
  /\ validateActivity (body_unlinked (10 * hour) (18 * hour))
     = Ok (body_unlinked (10 * hour) (18 * hour))
  /\ (Contract.totalHours contract_K
      - fold_left (fun sum x => (sum + Activity.durationHours x)%float)
          [activity_A] 0)%float = 6%float
  /\ ((getTime (18 * hour)%Z - getTime (10 * hour)%Z) / 3600000)%float = 8%float
  /\ (6 <? 8)%float = true
  /\ exists a' db',
       ActivitiesController.update id_A (body_unlinked (10 * hour) (18 * hour))
         db0
       = (mkResponse 200 (json_activity a'), db')
       /\ find (has_id id_A) (activities db') = Some a'
       /\ Activity.status a' = VERIFIED
       /\ Activity.durationHours a' = 8%float.
Proof.
  split; [now left|]. do 7 (split; [vm_compute; reflexivity|]).
  do 2 eexists. split; [vm_compute; reflexivity|]. repeat split.
Qed.

(** A body that leaves [contractId] out is not checked either, and there the
    store keeps the link: the audit is stored with eight hours under the
    contract of which six remained. *)
Example update_without_contractId :
  exists a' db',
    ActivitiesController.update id_A
      (ActivityBody.mk "Audit" undefined id_C (value id_W) (10 * hour)
         (18 * hour) "Plant 1" null) db0
    = (mkResponse 200 (json_activity a'), db')
    /\ find (has_id id_A) (activities db') = Some a'
    /\ Activity.contractId a' = Some id_K
    /\ Activity.status a' = VERIFIED
    /\ Activity.durationHours a' = 8%float.
Proof. do 2 eexists. split; [vm_compute; reflexivity|]. repeat split. Qed.

(** The unchanged six hours of the only verified activity of a ten-hour
    contract are refused: with its own hours counted, four remain. *)
Example update_unchanged_duration_refused :
  calculateDuration (10 * hour) (16 * hour) = Activity.durationHours activity_L
  /\ ActivitiesController.update id_A (body_audit (10 * hour) (16 * hour)) db_six
     = (mkResponse 400 (json_error (Insufficient_hours_Remaining 4)), db_six).
Proof. split; vm_compute; reflexivity. Qed.

(** ** The derived duration *)

(** The duration is the difference of the two time values, a number of
    milliseconds, divided by the 3600000 milliseconds of an hour. *)
Lemma calculateDuration_hours (start end_ : Date) :
  calculateDuration start end_
  = ((getTime end_ - getTime start) / 3600000)%float.
Proof. reflexivity. Qed.

(** In the terms of IEEE 754: the binary64 quotient of the binary64
    difference, each rounded to nearest once. *)
Lemma calculateDuration_rounding (start end_ : Date) :
  Prim2SF (calculateDuration start end_)
  = SF64div (SF64sub (Prim2SF (getTime end_)) (Prim2SF (getTime start)))
      (Prim2SF 3600000).
Proof.
  now rewrite calculateDuration_hours, FloatAxioms.div_spec, FloatAxioms.sub_spec.
Qed.

(** Four hours, an hour and a half, three hours across the epoch, and one
    minute, whose sixtieth of an hour is the nearest binary64 number. *)
Example calculateDuration_examples :
  calculateDuration (10 * hour) (14 * hour) = 4%float
  /\ calculateDuration (10 * hour) (10 * hour + 5400000) = 1.5%float
  /\ calculateDuration (-2 * hour) hour = 3%float
  /\ calculateDuration 0 60000 = 0x1.1111111111111p-6%float.
Proof. repeat split; vm_compute; reflexivity. Qed.

Lemma errorHandler_json_error (e : Error) :
  exists status m, errorHandler e = mkResponse status (json_error m).
Proof.
  destruct e as [issues|m status|code| | |m]; try (now do 2 eexists).
  destruct code; now do 2 eexists.
Qed.

(** An answer of the error handler is not an answer that carries an
    activity. *)
Ltac not_an_error H :=
  match type of H with
  | (errorHandler ?e, _) = _ =>
      let s := fresh "s" in
      let m := fresh "m" in
      let E := fresh "E" in
      destruct (errorHandler_json_error e) as (s & m & E);
      rewrite E in H; discriminate H
  end.

Lemma check_contract_reads (contractId : Nullable string) (hours : float) (db : Db) :
  check_contract contractId hours db = (Ok tt, db)
  \/ exists e, check_contract contractId hours db = (Throw e, db).
Proof.
  unfold check_contract.
  destruct contractId as [| |c]; try (now left).
  destruct (truthy_string c); [|now left].
  unfold validateContractHours, bind, prisma_contract_findUnique_include_activities.
  destruct (find _ (contracts db)) as [k|]; [|right; now eexists].
  destruct (_ <? _)%float; [right; now eexists|now left].
Qed.

(** C9. [create] and [update] either answer with an error and leave the
    store as it was, or store the activity with the bounds of the body, the
    end after the start, and a [durationHours] that is the difference of the
    two time values, in milliseconds, divided by the 3600000 milliseconds of
    an hour, whichever of the two bounds the request changed; both refuse a
    body whose end is not after its start with the 400 "Validation failed"
    of a validation error. *)
Theorem C9_derived_duration
  (db : Db) (new_id id : string) (req_body : ActivityBody.t) :
  let scheduledStart := ActivityBody.scheduledStart req_body in
  let scheduledEnd := ActivityBody.scheduledEnd req_body in
  let hours := ((getTime scheduledEnd - getTime scheduledStart) / 3600000)%float in
  ((exists a,
      ActivitiesController.create new_id req_body db
      = (mkResponse 201 (json_activity a),
         set_activities db (activities db ++ [a]))
      /\ Activity.id a = new_id
      /\ Activity.scheduledStart a = scheduledStart
      /\ Activity.scheduledEnd a = scheduledEnd
      /\ scheduledStart < scheduledEnd
      /\ Activity.durationHours a = hours)
   \/ exists status m,
        ActivitiesController.create new_id req_body db
        = (mkResponse status (json_error m), db))
  /\ ((exists a db',
         ActivitiesController.update id req_body db
         = (mkResponse 200 (json_activity a), db')
         /\ find (has_id id) (activities db') = Some a
         /\ scheduledStart < scheduledEnd
         /\ forall r, In r (activities db') -> Activity.id r = id ->
                      Activity.scheduledStart r = scheduledStart
                      /\ Activity.scheduledEnd r = scheduledEnd
                      /\ Activity.durationHours r = hours)
      \/ exists status m,
           ActivitiesController.update id req_body db
           = (mkResponse status (json_error m), db))
  /\ (scheduledEnd <= scheduledStart ->
      ActivitiesController.create new_id req_body db
      = (mkResponse 400 (json_error (Text "Validation failed")), db)
      /\ ActivitiesController.update id req_body db
         = (mkResponse 400 (json_error (Text "Validation failed")), db)).
Proof.
  intros scheduledStart scheduledEnd hours.
  assert (Herr : forall e, exists status m,
               (errorHandler e, db) = (mkResponse status (json_error m), db)).
  { intro e. destruct (errorHandler_json_error e) as (status & m & ->).
    now do 2 eexists. }
  split; [|split].
  - unfold ActivitiesController.create, handled, bind, lift.
    destruct (validateActivity req_body) as [b|e] eqn:Hv; [|right; apply Herr].
    destruct (validateActivity_Ok _ Hv) as (-> & _ & _ & Hlt).
    destruct (check_contract_reads (ActivityBody.contractId req_body)
                (calculateDuration (ActivityBody.scheduledStart req_body)
                   (ActivityBody.scheduledEnd req_body)) db)
      as [Hc|[e Hc]]; rewrite Hc; [|right; apply Herr].
    unfold prisma_activity_create.
    destruct (Activity_fk db _); [|right; apply Herr].
    left. eexists. split; [reflexivity|].
    cbn [Activity.id Activity.scheduledStart Activity.scheduledEnd
         Activity.durationHours].
    repeat split. exact Hlt.
  - unfold ActivitiesController.update, handled, bind, lift.
    destruct (validateActivity req_body) as [b|e] eqn:Hv; [|right; apply Herr].
    destruct (validateActivity_Ok _ Hv) as (-> & _ & _ & Hlt).
    destruct (check_contract_reads (ActivityBody.contractId req_body)
                (calculateDuration (ActivityBody.scheduledStart req_body)
                   (ActivityBody.scheduledEnd req_body)) db)
      as [Hc|[e Hc]]; rewrite Hc; [|right; apply Herr].
    unfold prisma_activity_update.
    cbn [ActivityUpdateInput.status status_input].
    destruct (find (has_id id) (activities db)) as [a|] eqn:Hf;
      [|right; apply Herr].
    destruct (update_fk db _); [|right; apply Herr].
    left. eexists. eexists. split; [reflexivity|].
    cbn [set_activities activities].
    split; [|split; [exact Hlt|]].
    + apply find_updated; [|exact Hf]. intro r. reflexivity.
    + intros r Hr Hrid. apply in_map_iff in Hr. destruct Hr as (x & <- & _).
      destruct (has_id id x) eqn:E.
      * cbn. repeat split.
      * exfalso. apply has_id_spec in Hrid. congruence.
  - intro H. destruct (validateActivity_rejects _ H) as [issues Hv].
    unfold ActivitiesController.create, ActivitiesController.update,
      handled, bind, lift.
    rewrite Hv. split; reflexivity.
Qed.

(** Both branches occur: a two-hour visit is created with a duration of 2,
    the verified audit is re-scheduled to three hours with a duration of 3,
    and a body whose end is its start is refused. *)
Example derived_duration_examples :
  (exists a,
     ActivitiesController.create id_X
       (body_visit null (30 * hour) (32 * hour)) db0
     = (mkResponse 201 (json_activity a),
        set_activities db0 (activities db0 ++ [a]))
     /\ Activity.durationHours a = 2%float)
  /\ (exists a db',
        ActivitiesController.update id_A
          (body_audit (11 * hour) (14 * hour)) db0
        = (mkResponse 200 (json_activity a), db')
        /\ Activity.scheduledStart a = 11 * hour
        /\ Activity.durationHours a = 3%float)
  /\ ActivitiesController.create id_X
       (body_visit null (30 * hour) (30 * hour)) db0
     = (mkResponse 400 (json_error (Text "Validation failed")), db0).
Proof.
  split; [|split].
  - eexists. split; vm_compute; reflexivity.
  - do 2 eexists. split; [vm_compute; reflexivity|]. split; reflexivity.
  - vm_compute. reflexivity.
Qed.

(** A visit of hours 30 to 32 is created with a duration of 2, one of an
    hour and a half with 1.5; the audit moved to hours 11 to 14 is stored
    with 3; a visit that ends when it starts is refused. *)
Lemma C9_derived_duration_witness :
  (exists a,
     ActivitiesController.create id_X
       (body_visit null (30 * hour) (32 * hour)) db0
     = (mkResponse 201 (json_activity a),
        set_activities db0 (activities db0 ++ [a]))
     /\ Activity.scheduledStart a = 30 * hour
     /\ Activity.scheduledEnd a = 32 * hour
     /\ Activity.durationHours a = 2%float)
  /\ (exists a,
        ActivitiesController.create id_X
          (body_visit null (30 * hour) (31 * hour + 1800000)) db0
        = (mkResponse 201 (json_activity a),
           set_activities db0 (activities db0 ++ [a]))
        /\ Activity.durationHours a = 1.5%float)
  /\ (exists a db',
        ActivitiesController.update id_A
          (body_audit (11 * hour) (14 * hour)) db0
        = (mkResponse 200 (json_activity a), db')
        /\ find (has_id id_A) (activities db') = Some a
        /\ Activity.scheduledStart a = 11 * hour
        /\ Activity.durationHours a = 3%float)
  /\ 30 * hour <= 30 * hour
  /\ ActivitiesController.create id_X
       (body_visit null (30 * hour) (30 * hour)) db0
     = (mkResponse 400 (json_error (Text "Validation failed")), db0).
Proof.
  split; [|split; [|split; [|split; [reflexivity|]]]].
  - pose proof (@C9_derived_duration db0 id_X id_A
                  (body_visit null (30 * hour) (32 * hour))) as H.
    cbv zeta in H. destruct H as ([(a & Hrun & _ & Hs & He & _ & Hd)|Herr] & _).
    + exists a. split; [exact Hrun|]. split; [exact Hs|]. split; [exact He|].
      rewrite Hd. vm_compute. reflexivity.
    + exfalso. destruct Herr as (status & m & Herr).
      vm_compute in Herr. discriminate Herr.
  - pose proof (@C9_derived_duration db0 id_X id_A
                  (body_visit null (30 * hour) (31 * hour + 1800000))) as H.
    cbv zeta in H. destruct H as ([(a & Hrun & _ & _ & _ & _ & Hd)|Herr] & _).
    + exists a. split; [exact Hrun|]. rewrite Hd. vm_compute. reflexivity.
    + exfalso. destruct Herr as (status & m & Herr).
      vm_compute in Herr. discriminate Herr.
  - pose proof (@C9_derived_duration db0 id_X id_A
                  (body_audit (11 * hour) (14 * hour))) as H.
    cbv zeta in H.
    destruct H as (_ & [(a & db' & Hrun & Hfound & _ & Hrows)|Herr] & _).
    + exists a, db'. split; [exact Hrun|]. split; [exact Hfound|].
      apply find_some in Hfound. destruct Hfound as [Hin Hid].
      apply has_id_spec in Hid.
      destruct (Hrows a Hin Hid) as (Hs & _ & Hd).
      split; [exact Hs|]. rewrite Hd. vm_compute. reflexivity.
    + exfalso. destruct Herr as (status & m & Herr).
      vm_compute in Herr. discriminate Herr.
  - pose proof (@C9_derived_duration db0 id_X id_A
                  (body_visit null (30 * hour) (30 * hour))) as H.
    cbv zeta in H. destruct H as (_ & _ & Hreject).
    apply Hreject. cbn. reflexivity.
Defined.

(** ** Assignment *)

Lemma assign_data_status (w : Nullable string) :
  status_input (ActivityUpdateInput.status (ActivitiesController.assign_data w))
  = Ok (Some (if truthy w then SCHEDULED else UNASSIGNED)).
Proof.
  unfold ActivitiesController.assign_data. cbn [ActivityUpdateInput.status].
  destruct (truthy w); reflexivity.
Qed.

Lemma assign_data_fk (db : Db) (w : Nullable string) :
  update_fk db (ActivitiesController.assign_data w)
  = references (has_user db) (to_column w).
Proof. reflexivity. Qed.

(** The store's side of [assign], once the availability check has passed. *)
Lemma prisma_activity_update_assign (db : Db) (i : string) (a : Activity.t)
  (w : Nullable string) :
  find (has_id i) (activities db) = Some a ->
  references (has_user db) (to_column w) = true ->
  let st := if truthy w then SCHEDULED else UNASSIGNED in
  let assign r := apply_update (ActivitiesController.assign_data w) (Some st) r in
  prisma_activity_update i (ActivitiesController.assign_data w) db
  = (Ok (assign a),
     set_activities db
       (map (fun r => if has_id i r then assign r else r) (activities db))).
Proof.
  intros Hf Hfk st assign. unfold prisma_activity_update.
  now rewrite assign_data_status, Hf, assign_data_fk, Hfk.
Qed.

(** C8, as amended.  [assign] keeps worker and status together: with a
    worker whose calendar has no conflict it stores that [workerId] with
    status [SCHEDULED], and with [workerId] null it stores no worker with
    status [UNASSIGNED].  The other operations do not: [create] stores
    status [UNASSIGNED] together with whatever [workerId] the body carries,
    [update] writes the [workerId] of the body and leaves the status, and
    [updateStatus] stores any status and leaves [workerId] as it is. *)
Theorem C8_assignment
  (db : Db) (id : string) (a : Activity.t)
  (Hfound : find (has_id id) (activities db) = Some a) :
  (forall w,
      truthy_string w = true -> has_user db w = true ->
      filter (conflicts_with w (Activity.scheduledStart a)
                (Activity.scheduledEnd a) (Some id)) (activities db) = [] ->
      exists a' db',
        ActivitiesController.assignWorker id (value w) db
        = (mkResponse 200 (json_activity a'), db')
        /\ find (has_id id) (activities db') = Some a'
        /\ Activity.workerId a' = Some w
        /\ Activity.status a' = SCHEDULED)
  /\ (exists a' db',
        ActivitiesController.assignWorker id null db
        = (mkResponse 200 (json_activity a'), db')
        /\ find (has_id id) (activities db') = Some a'
        /\ Activity.workerId a' = None
        /\ Activity.status a' = UNASSIGNED)
  /\ (forall new_id req_body a' db',
        ActivitiesController.create new_id req_body db
        = (mkResponse 201 (json_activity a'), db') ->
        Activity.status a' = UNASSIGNED
        /\ Activity.workerId a' = to_column (ActivityBody.workerId req_body))
  /\ (forall req_body a' db',
        ActivitiesController.update id req_body db
        = (mkResponse 200 (json_activity a'), db') ->
        Activity.status a' = Activity.status a
        /\ Activity.workerId a'
           = or_keep_nullable (ActivityBody.workerId req_body)
               (Activity.workerId a))
  /\ (forall st,
        exists a' db',
          ActivitiesController.updateStatus id
            (value (ActivityStatus_to_string st)) db
          = (mkResponse 200 (json_activity a'), db')
          /\ Activity.status a' = st
          /\ Activity.workerId a' = Activity.workerId a).
Proof.
  assert (Hfind : prisma_activity_findUnique id db = (Ok (Some a), db)).
  { unfold prisma_activity_findUnique. fold (has_id id). now rewrite Hfound. }
  split; [|split; [|split; [|split]]].
  - intros w Hw Hu Hfree.
    assert (Hcheck : checkWorkerAvailability w (Activity.scheduledStart a)
                       (Activity.scheduledEnd a) (Some id) db
                     = (Ok (Availability.mk true []), db)).
    { unfold checkWorkerAvailability, bind, prisma_activity_findMany, ret.
      now rewrite Hfree. }
    pose proof (@prisma_activity_update_assign db id a (value w) Hfound Hu)
      as Hupdate.
    cbv zeta in Hupdate. cbn [truthy] in Hupdate. rewrite Hw in Hupdate.
    unfold ActivitiesController.assignWorker.
    rewrite (@handled_bind_Ok _ _ _ _ _ _ Hfind). rewrite Hw.
    rewrite (@handled_bind_Ok _ _ _ _ _ _ Hcheck).
    cbn [Availability.available negb].
    rewrite (@handled_bind_Ok _ _ _ _ _ _ Hupdate).
    eexists. eexists. split; [reflexivity|].
    cbn [set_activities activities]. split; [|split; reflexivity].
    apply find_updated; [|exact Hfound]. intro r. reflexivity.
  - pose proof (@prisma_activity_update_assign db id a null Hfound eq_refl)
      as Hupdate.
    cbv zeta in Hupdate. cbn [truthy] in Hupdate.
    unfold ActivitiesController.assignWorker.
    rewrite (@handled_bind_Ok _ _ _ _ _ _ Hfind).
    assert (Hret : ret (Availability.mk true []) db
                   = (Ok (Availability.mk true []), db)) by reflexivity.
    rewrite (@handled_bind_Ok _ _ _ _ _ _ Hret).
    cbn [Availability.available negb].
    rewrite (@handled_bind_Ok _ _ _ _ _ _ Hupdate).
    eexists. eexists. split; [reflexivity|].
    cbn [set_activities activities]. split; [|split; reflexivity].
    apply find_updated; [|exact Hfound]. intro r. reflexivity.
  - intros new_id req_body a' db'.
    unfold ActivitiesController.create, handled, bind, lift.
    destruct (validateActivity req_body) as [b|e] eqn:Hv;
      [|intro H; not_an_error H].
    destruct (validateActivity_Ok _ Hv) as (-> & _).
    destruct (check_contract_reads (ActivityBody.contractId req_body)
                (calculateDuration (ActivityBody.scheduledStart req_body)
                   (ActivityBody.scheduledEnd req_body)) db)
      as [Hc|[e Hc]]; rewrite Hc; [|intro H; not_an_error H].
    unfold prisma_activity_create.
    destruct (Activity_fk db _); [|intro H; not_an_error H].
    intros [= <- _]. split; reflexivity.
  - intros req_body a' db'.
    unfold ActivitiesController.update, handled, bind, lift.
    destruct (validateActivity req_body) as [b|e] eqn:Hv;
      [|intro H; not_an_error H].
    destruct (validateActivity_Ok _ Hv) as (-> & _).
    destruct (check_contract_reads (ActivityBody.contractId req_body)
                (calculateDuration (ActivityBody.scheduledStart req_body)
                   (ActivityBody.scheduledEnd req_body)) db)
      as [Hc|[e Hc]]; rewrite Hc; [|intro H; not_an_error H].
    unfold prisma_activity_update.
    cbn [ActivityUpdateInput.status status_input]. rewrite Hfound.
    destruct (update_fk db _); [|intro H; not_an_error H].
    intros [= <- _]. split; reflexivity.
  - intro st. unfold ActivitiesController.updateStatus, handled, bind.
    rewrite (@prisma_activity_update_status db id a st Hfound).
    cbn [set_status Activity.contractId].
    destruct (Activity.contractId a) as [c|].
    + destruct (_ && _); do 2 eexists; (split; [reflexivity|split; reflexivity]).
    + do 2 eexists. split; [reflexivity|split; reflexivity].
Qed.

Lemma C8_assignment_witness :
  find (has_id id_N) (activities db_unassigned) = Some activity_U
  /\ (exists a' db',
        ActivitiesController.assignWorker id_N (value id_W) db_unassigned
        = (mkResponse 200 (json_activity a'), db')
        /\ find (has_id id_N) (activities db') = Some a'
        /\ Activity.workerId a' = Some id_W
        /\ Activity.status a' = SCHEDULED)
  /\ (exists a' db',
        ActivitiesController.assignWorker id_N null db_unassigned
        = (mkResponse 200 (json_activity a'), db')
        /\ find (has_id id_N) (activities db') = Some a'
        /\ Activity.workerId a' = None
        /\ Activity.status a' = UNASSIGNED).
Proof.
  split; [reflexivity|].
  destruct (@C8_assignment db_unassigned id_N activity_U eq_refl)
    as (Hassign & Hclear & _).
  split; [|exact Hclear].
  apply Hassign; reflexivity.
Defined.

(** The invariant of the claim as it was worded fails: [create] stores a
    body that names a worker as an [UNASSIGNED] activity of that worker, and
    [updateStatus] sends a worker's verified activity back to [UNASSIGNED]
    with the worker still on it. *)
Lemma C8_UNASSIGNED_with_worker_counterexample :
  (exists a,
     ActivitiesController.create id_X
       (body_visit (value id_W) (30 * hour) (32 * hour)) db0
     = (mkResponse 201 (json_activity a),
        set_activities db0 (activities db0 ++ [a]))
     /\ Activity.status a = UNASSIGNED
     /\ Activity.workerId a = Some id_W)
  /\ (exists a db',
        ActivitiesController.updateStatus id_A (value "UNASSIGNED") db0
        = (mkResponse 200 (json_activity a), db')
        /\ find (has_id id_A) (activities db') = Some a
        /\ Activity.status a = UNASSIGNED
        /\ Activity.workerId a = Some id_W).
Proof.
  split.
  - eexists. split; [vm_compute; reflexivity|]. split; reflexivity.
  - do 2 eexists. split; [vm_compute; reflexivity|]. repeat split.
Qed.

(** A worker who is busy is not assigned: the answer is 409 with the
    conflicting activities, and the store is left as it was. *)
Example assignWorker_conflict :
  ActivitiesController.assignWorker id_N (value id_W)
    (set_activities db_unassigned
       [activity_U; set_status SCHEDULED
                      (Activity.mk id_B "Survey" None id_C (Some id_W) DONE
                         (31 * hour) (33 * hour) 2%float "Plant 2" None)])
  = (mkResponse 409
       (json_conflict "Worker has conflicting activity"
          [Activity.mk id_B "Survey" None id_C (Some id_W) SCHEDULED
             (31 * hour) (33 * hour) 2%float "Plant 2" None]),
     set_activities db_unassigned
       [activity_U; set_status SCHEDULED
                      (Activity.mk id_B "Survey" None id_C (Some id_W) DONE
                         (31 * hour) (33 * hour) 2%float "Plant 2" None)]).
Proof. vm_compute. reflexivity. Qed.

(** ** The scenarios of the spec *)

(** Capacity: with six of the ten hours remaining, a new activity of seven
    hours is refused and one of six is created. *)
Example create_against_capacity :
  ActivitiesController.create id_X (body_visit null (30 * hour) (37 * hour)) db0
  = (mkResponse 400 (json_error (Insufficient_hours_Remaining 6)), db0)
  /\ statusCode
       (fst (ActivitiesController.create id_X
               (body_visit null (30 * hour) (36 * hour)) db0)) = 201.
Proof. split; vm_compute; reflexivity. Qed.

(** End to end: create the audit, assign the worker, verify it, read the
    ledger, bill the client. *)
Example end_to_end :
  let '(created, db1) :=
    ActivitiesController.create id_A body_new_audit db_start in
  let '(assigned, db2) :=
    ActivitiesController.assignWorker id_A (value id_W) db1 in
  let '(verified, db3) :=
    ActivitiesController.updateStatus id_A (value "VERIFIED") db2 in
  let '(ledger, db4) := ContractsRouter.hours_remaining id_K db3 in
  let '(billed, db5) :=
    InvoicesController.generateClientInvoice id_X
      (InvoiceBody.mk CLIENT_BILL id_C 0 (15 * hour)) db4 in
  statusCode created = 201
  /\ assigned = mkResponse 200 (json_activity (set_status SCHEDULED activity_A))
  /\ verified = mkResponse 200 (json_activity activity_A)
  /\ get "totalHours" (body ledger) = Some (JNumber 10)
  /\ get "usedHours" (body ledger) = Some (JNumber 4)
  /\ get "remainingHours" (body ledger) = Some (JNumber 6)
  /\ billed = mkResponse 201 (json_invoice invoice_X)
  /\ Invoice.totalAmount invoice_X = 200%float
  /\ activities db5 = [set_status INVOICED activity_A].
Proof. vm_compute. repeat split. Qed.

(** * Further properties *)

(** ** Where the store can end up *)

Lemma prisma_activity_update_outcome (i : string) (d : ActivityUpdateInput.t)
  (db db' : Db) (res : Result Activity.t) :
  prisma_activity_update i d db = (res, db') ->
  (db' = db /\ exists e, res = Throw e)
  \/ exists st a,
       find (has_id i) (activities db) = Some a
       /\ res = Ok (apply_update d st a)
       /\ db' = rewritten i (apply_update d st) db.
Proof.
  unfold prisma_activity_update.
  destruct (status_input _) as [st|e]; [|intros [= <- <-]; left; eauto].
  destruct (find _ _) as [a|] eqn:E; [|intros [= <- <-]; left; eauto].
  destruct (update_fk _ _); intros [= <- <-]; [|left; eauto].
  right. now exists st, a.
Qed.

Lemma handled_ret (r : Response) (db : Db) : handled (ret r) db = (r, db).
Proof. reflexivity. Qed.

(** The last step of the three controllers that write one activity. *)
Lemma handled_update_outcome (i : string) (d : ActivityUpdateInput.t)
  (k : Activity.t -> Async Response) (db : Db) :
  (forall a d', snd (k a d') = d' /\ exists r, fst (k a d') = Ok r) ->
  snd (handled (bind (prisma_activity_update i d) k) db) = db
  \/ exists st,
       snd (handled (bind (prisma_activity_update i d) k) db)
       = rewritten i (apply_update d st) db.
Proof.
  intro Hk.
  destruct (prisma_activity_update i d db) as [res db'] eqn:E.
  destruct (prisma_activity_update_outcome _ _ _ E)
    as [[-> [e ->]]|(st & a & _ & -> & ->)].
  - left. now rewrite (@handled_bind_Throw _ _ _ _ _ _ E).
  - right. exists st. rewrite (@handled_bind_Ok _ _ _ _ _ _ E).
    destruct (Hk (apply_update d st a) (rewritten i (apply_update d st) db))
      as [Hs [r Hr]].
    unfold handled. destruct (k _ _) as [[r'|e] d']; simpl in *; congruence.
Qed.

Lemma updateStatus_outcome (id : string) (status : Nullable string) (db : Db) :
  snd (ActivitiesController.updateStatus id status db) = db
  \/ exists st,
       snd (ActivitiesController.updateStatus id status db)
       = rewritten id (apply_update (ActivitiesController.status_data status) st) db.
Proof.
  unfold ActivitiesController.updateStatus.
  apply handled_update_outcome. intros a d'.
  unfold bind, deductContractHours, ret.
  destruct (Activity.contractId a); [destruct (_ && _)|]; simpl; eauto.
Qed.

Lemma availability_step (id : string) (workerId : Nullable string)
  (activity : Activity.t) (db : Db) :
  exists availability,
    match workerId with
    | value w =>
        if truthy_string w
        then checkWorkerAvailability w (Activity.scheduledStart activity)
               (Activity.scheduledEnd activity) (Some id)
        else ret (Availability.mk true [])
    | _ => ret (Availability.mk true [])
    end db = (Ok availability, db).
Proof.
  destruct workerId as [| |w]; try (now eexists).
  destruct (truthy_string w); now eexists.
Qed.

Lemma assignWorker_outcome (id : string) (workerId : Nullable string) (db : Db) :
  snd (ActivitiesController.assignWorker id workerId db) = db
  \/ exists st,
       snd (ActivitiesController.assignWorker id workerId db)
       = rewritten id
           (apply_update (ActivitiesController.assign_data workerId) st) db.
Proof.
  unfold ActivitiesController.assignWorker.
  assert (Hfind : prisma_activity_findUnique id db
                  = (Ok (find (has_id id) (activities db)), db)) by reflexivity.
  rewrite (@handled_bind_Ok _ _ _ _ _ _ Hfind).
  destruct (find (has_id id) (activities db)) as [activity|]; [|now left].
  destruct (availability_step id workerId activity db) as [av Hav].
  rewrite (@handled_bind_Ok _ _ _ _ _ _ Hav).
  destruct (negb (Availability.available av)); [now left|].
  apply handled_update_outcome. intros a d'. simpl; eauto.
Qed.

Lemma create_outcome (new_id : string) (b : ActivityBody.t) (db : Db) :
  (snd (ActivitiesController.create new_id b db) = db
   /\ exists status m,
        fst (ActivitiesController.create new_id b db)
        = mkResponse status (json_error m))
  \/ (validateActivity b = Ok b
      /\ check_contract (ActivityBody.contractId b)
           (calculateDuration (ActivityBody.scheduledStart b)
              (ActivityBody.scheduledEnd b)) db = (Ok tt, db)
      /\ Activity_fk db (created_row new_id b) = true
      /\ ActivitiesController.create new_id b db
         = (mkResponse 201 (json_activity (created_row new_id b)),
            set_activities db (activities db ++ [created_row new_id b]))).
Proof.
  assert (Herr : forall e,
             snd (errorHandler e, db) = db
             /\ exists status m,
                  fst (errorHandler e, db) = mkResponse status (json_error m)).
  { intro e. split; [reflexivity|]. apply errorHandler_json_error. }
  unfold ActivitiesController.create, handled, bind, lift.
  destruct (validateActivity b) as [b'|e] eqn:Hv; [|left; apply Herr].
  destruct (validateActivity_Ok _ Hv) as (-> & _).
  destruct (check_contract_reads (ActivityBody.contractId b)
              (calculateDuration (ActivityBody.scheduledStart b)
                 (ActivityBody.scheduledEnd b)) db)
    as [Hc|[e Hc]]; rewrite Hc; [|left; apply Herr].
  unfold prisma_activity_create. fold (created_row new_id b).
  destruct (Activity_fk db (created_row new_id b)) eqn:Hfk; [|left; apply Herr].
  right. repeat split; reflexivity.
Qed.

Lemma update_outcome (id : string) (b : ActivityBody.t) (db : Db) :
  snd (ActivitiesController.update id b db) = db
  \/ (validateActivity b = Ok b
      /\ exists st,
           snd (ActivitiesController.update id b db)
           = rewritten id (apply_update (update_data b) st) db).
Proof.
  destruct (validateActivity b) as [b'|e] eqn:Hv.
  - destruct (validateActivity_Ok _ Hv) as (-> & _).
    rewrite (update_unfold db id Hv). fold (update_data b).
    destruct (check_contract_reads (ActivityBody.contractId b)
                (calculateDuration (ActivityBody.scheduledStart b)
                   (ActivityBody.scheduledEnd b)) db) as [Hc|[e Hc]].
    + rewrite (@handled_bind_Ok _ _ _ _ _ _ Hc).
      destruct (handled_update_outcome id (update_data b)
                  (fun activity => ret (mkResponse 200 (json_activity activity)))
                  db) as [H|H].
      * intros a d'. simpl; eauto.
      * now left.
      * right. split; [reflexivity|exact H].
    + left. now rewrite (@handled_bind_Throw _ _ _ _ _ _ Hc).
  - left. unfold ActivitiesController.update, handled, bind, lift.
    now rewrite Hv.
Qed.

(** ** Activities that are not there, created, read and deleted *)

Lemma find_none_filter {A} (p : A -> bool) (l : list A) :
  find p l = None -> filter (fun x => negb (p x)) l = l.
Proof.
  induction l as [|x l IH]; simpl; [reflexivity|].
  destruct (p x); [discriminate|]. intro H. simpl. now rewrite IH.
Qed.

Lemma find_app_last {A} (p : A -> bool) (l : list A) (a : A) :
  find p l = None -> p a = true -> find p (l ++ [a]) = Some a.
Proof.
  induction l as [|x l IH]; simpl; intros Hn Ha.
  - now rewrite Ha.
  - destruct (p x); [discriminate|]. now apply IH.
Qed.

Lemma find_filter_out {A} (p : A -> bool) (l : list A) :
  find p (filter (fun x => negb (p x)) l) = None.
Proof.
  induction l as [|x l IH]; simpl; [reflexivity|].
  destruct (p x) eqn:E; simpl; [exact IH|]. now rewrite E.
Qed.

(** X1. An identifier that names no stored activity: reading it and
    assigning a worker to it answer 404 "Activity not found"; changing its
    status, updating it with a body that passes validation and the capacity
    check, and deleting it answer 404 "Not found"; none of them touches the
    store. *)
Theorem missing_activity_answers_404
  (db : Db) (id : string)
  (Hnone : find (has_id id) (activities db) = None) :
  ActivitiesQueries.getById id db
  = (mkResponse 404 (json_error (Text "Activity not found")), db)
  /\ (forall workerId,
        ActivitiesController.assignWorker id workerId db
        = (mkResponse 404 (json_error (Text "Activity not found")), db))
  /\ (forall st,
        ActivitiesController.updateStatus id
          (value (ActivityStatus_to_string st)) db
        = (mkResponse 404 (json_error (Text "Not found")), db))
  /\ (forall b,
        validateActivity b = Ok b ->
        check_contract (ActivityBody.contractId b)
          (calculateDuration (ActivityBody.scheduledStart b)
             (ActivityBody.scheduledEnd b)) db = (Ok tt, db) ->
        ActivitiesController.update id b db
        = (mkResponse 404 (json_error (Text "Not found")), db))
  /\ ActivitiesQueries.deleteActivity id db
     = (mkResponse 404 (json_error (Text "Not found")), db).
Proof.
  assert (Hfind : prisma_activity_findUnique id db = (Ok None, db)).
  { unfold prisma_activity_findUnique. fold (has_id id). now rewrite Hnone. }
  split; [|split; [|split; [|split]]].
  - unfold ActivitiesQueries.getById.
    now rewrite (@handled_bind_Ok _ _ _ _ _ _ Hfind).
  - intro w. unfold ActivitiesController.assignWorker.
    now rewrite (@handled_bind_Ok _ _ _ _ _ _ Hfind).
  - intro st. unfold ActivitiesController.updateStatus.
    rewrite (@handled_bind_Throw _ _ _ db db (PrismaClientKnownRequestError P2025));
      [reflexivity|].
    unfold prisma_activity_update.
    cbn [ActivitiesController.status_data ActivityUpdateInput.status status_input].
    now rewrite ActivityStatus_of_to_string, Hnone.
  - intros b Hv Hc. rewrite (update_unfold db id Hv).
    rewrite (@handled_bind_Ok _ _ _ _ _ _ Hc).
    rewrite (@handled_bind_Throw _ _ _ db db (PrismaClientKnownRequestError P2025));
      [reflexivity|].
    unfold prisma_activity_update.
    cbn [ActivityUpdateInput.status status_input]. now rewrite Hnone.
  - unfold ActivitiesQueries.deleteActivity.
    rewrite (@handled_bind_Throw _ _ _ db db (PrismaClientKnownRequestError P2025));
      [reflexivity|].
    unfold prisma_activity_delete. now rewrite Hnone.
Qed.

Lemma missing_activity_answers_404_witness :
  find (has_id id_N) (activities db0) = None
  /\ ActivitiesQueries.getById id_N db0
     = (mkResponse 404 (json_error (Text "Activity not found")), db0)
  /\ ActivitiesQueries.deleteActivity id_N db0
     = (mkResponse 404 (json_error (Text "Not found")), db0).
Proof.
  split; [reflexivity|].
  destruct (@missing_activity_answers_404 db0 id_N eq_refl)
    as (Hget & _ & _ & _ & Hdelete).
  split; [exact Hget|exact Hdelete].
Defined.



(** X3. Create, read, delete: when no stored activity has the identifier
    drawn for it, an activity that [create] answered with 201 is what
    [getById] then returns under that identifier, and deleting it gives back
    the store [create] started from. *)
Theorem create_getById_delete_round_trip
  (db db' : Db) (new_id : string) (b : ActivityBody.t) (a : Activity.t)
  (Hfresh : find (has_id new_id) (activities db) = None)
  (Hcreated : ActivitiesController.create new_id b db
              = (mkResponse 201 (json_activity a), db')) :
  Activity.id a = new_id
  /\ ActivitiesQueries.getById new_id db'
     = (mkResponse 200 (json_activity a), db')
  /\ ActivitiesQueries.deleteActivity new_id db'
     = (mkResponse 204 no_body, db).
Proof.
  destruct (create_outcome new_id b db)
    as [[_ (status & m & Herr)]|(_ & _ & _ & Hok)].
  { rewrite Hcreated in Herr. discriminate Herr. }
  rewrite Hok in Hcreated. injection Hcreated as <- <-.
  assert (Hself : has_id new_id (created_row new_id b) = true)
    by apply String.eqb_refl.
  assert (Hfind : find (has_id new_id)
                    (activities db ++ [created_row new_id b])
                  = Some (created_row new_id b))
    by now apply find_app_last.
  split; [reflexivity|split].
  - unfold ActivitiesQueries.getById, handled, bind, prisma_activity_findUnique.
    cbn [set_activities activities]. fold (has_id new_id). now rewrite Hfind.
  - unfold ActivitiesQueries.deleteActivity, handled, bind,
      prisma_activity_delete.
    cbn [set_activities activities]. rewrite Hfind.
    rewrite filter_app, (find_none_filter _ _ Hfresh).
    cbn [filter]. rewrite Hself. cbn [negb]. rewrite app_nil_r.
    unfold ret. f_equal. now destruct db.
Qed.

Lemma create_getById_delete_round_trip_witness :
  find (has_id id_X) (activities db0) = None
  /\ ActivitiesQueries.deleteActivity id_X
       (snd (ActivitiesController.create id_X
               (body_visit null (30 * hour) (32 * hour)) db0))
     = (mkResponse 204 no_body, db0).
Proof.
  split; [reflexivity|].
  refine (proj2 (proj2 (@create_getById_delete_round_trip db0 _ id_X
                          (body_visit null (30 * hour) (32 * hour))
                          (created_row id_X
                             (body_visit null (30 * hour) (32 * hour)))
                          eq_refl _))).
  vm_compute. reflexivity.
Defined.

(** X4. [delete] is permitted whatever the status: it answers 204, removes
    the rows of that identifier and nothing else, leaves the other tables
    alone, and the identifier then reads as 404. *)
Theorem deleteActivity_removes_only_that_activity
  (db : Db) (id : string) (a : Activity.t)
  (Hfound : find (has_id id) (activities db) = Some a) :
  exists db',
    ActivitiesQueries.deleteActivity id db = (mkResponse 204 no_body, db')
    /\ (forall r, In r (activities db') <->
                  In r (activities db) /\ Activity.id r <> id)
    /\ users db' = users db /\ clients db' = clients db
    /\ contracts db' = contracts db /\ invoices db' = invoices db
    /\ ActivitiesQueries.getById id db'
       = (mkResponse 404 (json_error (Text "Activity not found")), db').
Proof.
  eexists. split.
  { unfold ActivitiesQueries.deleteActivity, handled, bind,
      prisma_activity_delete. rewrite Hfound. reflexivity. }
  cbn [set_activities activities users clients contracts invoices].
  split; [|repeat split].
  - intro r. rewrite filter_In, negb_true_iff. unfold has_id.
    rewrite String.eqb_neq. tauto.
  - unfold ActivitiesQueries.getById, handled, bind, prisma_activity_findUnique.
    cbn [set_activities activities]. fold (has_id id).
    now rewrite find_filter_out.
Qed.

Lemma deleteActivity_removes_only_that_activity_witness :
  find (has_id id_A) (activities db0) = Some activity_A
  /\ Activity.status activity_A = VERIFIED
  /\ exists db',
       ActivitiesQueries.deleteActivity id_A db0 = (mkResponse 204 no_body, db')
       /\ forall r, In r (activities db') <->
                    In r (activities db0) /\ Activity.id r <> id_A.
Proof.
  split; [reflexivity|]. split; [reflexivity|].
  destruct (@deleteActivity_removes_only_that_activity db0 id_A activity_A
              eq_refl) as (db' & Hrun & Hrows & _).
  exists db'. split; [exact Hrun|exact Hrows].
Defined.

(** ** What an operation on one activity leaves alone *)

Lemma apply_update_id (d : ActivityUpdateInput.t) (st : option ActivityStatus)
  (r : Activity.t) :
  Activity.id (apply_update d st r) = Activity.id r.
Proof. reflexivity. Qed.

Lemma rewritten_frame (i : string) (f : Activity.t -> Activity.t) (db : Db) :
  (forall r, Activity.id (f r) = Activity.id r) ->
  users (rewritten i f db) = users db
  /\ clients (rewritten i f db) = clients db
  /\ contracts (rewritten i f db) = contracts db
  /\ invoices (rewritten i f db) = invoices db
  /\ map Activity.id (activities (rewritten i f db))
     = map Activity.id (activities db)
  /\ forall r, In r (activities db) -> Activity.id r <> i ->
               In r (activities (rewritten i f db)).
Proof.
  intro Hf. unfold rewritten. cbn [set_activities users clients contracts
                                   invoices activities].
  repeat split.
  - rewrite map_map. apply map_ext. intro r.
    now destruct (has_id i r); [rewrite Hf|].
  - intros r Hr Hne. apply in_map_iff. exists r. split; [|exact Hr].
    destruct (has_id i r) eqn:E; [|reflexivity].
    apply has_id_spec in E. contradiction.
Qed.

(** X5. [update], [assign] and [setStatus] of one activity, whatever they
    answer, change no other table, neither add nor remove nor rename an
    activity, and leave every activity of another identifier exactly as it
    was. *)
Theorem other_activities_untouched
  (db : Db) (id : string) (b : ActivityBody.t) (workerId status : Nullable string) :
  let untouched db' :=
    users db' = users db /\ clients db' = clients db
    /\ contracts db' = contracts db /\ invoices db' = invoices db
    /\ map Activity.id (activities db') = map Activity.id (activities db)
    /\ forall r, In r (activities db) -> Activity.id r <> id ->
                 In r (activities db') in
  untouched (snd (ActivitiesController.update id b db))
  /\ untouched (snd (ActivitiesController.assignWorker id workerId db))
  /\ untouched (snd (ActivitiesController.updateStatus id status db)).
Proof.
  intro untouched.
  assert (Hsame : untouched db) by (unfold untouched; tauto).
  assert (Hre : forall d st, untouched (rewritten id (apply_update d st) db)).
  { intros d st. apply rewritten_frame. intro r. apply apply_update_id. }
  split; [|split].
  - destruct (update_outcome id b db) as [->|(_ & st & ->)]; auto.
  - destruct (assignWorker_outcome id workerId db) as [->|(st & ->)]; auto.
  - destruct (updateStatus_outcome id status db) as [->|(st & ->)]; auto.
Qed.

Lemma other_activities_untouched_witness :
  In activity_A (activities db0) /\ Activity.id activity_A <> id_B
  /\ In activity_A
       (activities (snd (ActivitiesController.updateStatus id_B (value "DONE")
                           db0))).
Proof.
  assert (Hin : In activity_A (activities db0)) by (left; reflexivity).
  assert (Hid : Activity.id activity_A <> id_B) by (intro H; discriminate H).
  split; [exact Hin|]. split; [exact Hid|].
  destruct (@other_activities_untouched db0 id_B
              (body_visit undefined (20 * hour) (24 * hour)) undefined
              (value "DONE")) as (_ & _ & _ & _ & _ & _ & _ & Hkept).
  exact (Hkept activity_A Hin Hid).
Defined.

(** ** The ledger under creation, verification and billing *)

Lemma check_contract_unknown (db : Db) (c : string) (hours : float) :
  uuid c = true -> has_contract db c = false ->
  check_contract (value c) hours db
  = (Throw (AppError (Text "Contract not found") 404), db).
Proof.
  intros Hu Hno. unfold check_contract. rewrite (uuid_truthy _ Hu).
  unfold validateContractHours, bind,
    prisma_contract_findUnique_include_activities.
  unfold has_contract in Hno. now rewrite (existsb_find _ _ Hno).
Qed.

(** X6. A body that passes validation and names a contract that does not
    exist: [create] and [update] answer 404 "Contract not found" and store
    nothing. *)
Theorem unknown_contract_answers_404
  (db : Db) (new_id id c : string) (b : ActivityBody.t)
  (Hvalid : validateActivity b = Ok b)
  (Hbody : ActivityBody.contractId b = value c)
  (Hunknown : has_contract db c = false) :
  ActivitiesController.create new_id b db
  = (mkResponse 404 (json_error (Text "Contract not found")), db)
  /\ ActivitiesController.update id b db
     = (mkResponse 404 (json_error (Text "Contract not found")), db).
Proof.
  assert (Hu : uuid c = true).
  { apply validateActivity_Ok in Hvalid. rewrite Hbody in Hvalid. tauto. }
  pose proof (@check_contract_unknown db c
                (calculateDuration (ActivityBody.scheduledStart b)
                   (ActivityBody.scheduledEnd b)) Hu Hunknown) as Hc.
  split.
  - unfold ActivitiesController.create, handled, bind, lift.
    now rewrite Hvalid, Hbody, Hc.
  - rewrite (update_unfold db id Hvalid), Hbody.
    now rewrite (@handled_bind_Throw _ _ _ _ _ _ Hc).
Qed.

Lemma unknown_contract_answers_404_witness :
  validateActivity
    (ActivityBody.mk "Visit" (value id_N) id_C null (30 * hour) (32 * hour)
       "Plant 3" null)
  = Ok (ActivityBody.mk "Visit" (value id_N) id_C null (30 * hour) (32 * hour)
          "Plant 3" null)
  /\ has_contract db0 id_N = false
  /\ ActivitiesController.create id_X
       (ActivityBody.mk "Visit" (value id_N) id_C null (30 * hour) (32 * hour)
          "Plant 3" null) db0
     = (mkResponse 404 (json_error (Text "Contract not found")), db0).
Proof.
  split; [reflexivity|]. split; [reflexivity|].
  exact (proj1 (@unknown_contract_answers_404 db0 id_X id_A id_N
                  (ActivityBody.mk "Visit" (value id_N) id_C null (30 * hour)
                     (32 * hour) "Plant 3" null)
                  eq_refl eq_refl eq_refl)).
Defined.

Lemma check_contract_same_ledger (x : Nullable string) (hours : float)
  (db db' : Db) :
  contracts db' = contracts db ->
  (forall c, counted db' c = counted db c) ->
  check_contract x hours db = (Ok tt, db) ->
  check_contract x hours db' = (Ok tt, db').
Proof.
  intros Hk Hcounted. unfold check_contract.
  destruct x as [| |c]; try reflexivity.
  destruct (truthy_string c); [|reflexivity].
  unfold validateContractHours, bind,
    prisma_contract_findUnique_include_activities.
  fold (counted db c). fold (counted db' c). rewrite Hk, Hcounted.
  destruct (find _ (contracts db)) as [k|]; [|discriminate].
  destruct (_ <? _)%float; [discriminate|reflexivity].
Qed.

(** X7. Creating an activity reserves nothing: after a [create] answered
    with 201 every contract counts the same activities as before, so the
    same body is accepted again, under any other identifier, however little
    of the contract remains. *)
Theorem create_reserves_nothing
  (db db' : Db) (new_id : string) (b : ActivityBody.t) (a : Activity.t)
  (Hcreated : ActivitiesController.create new_id b db
              = (mkResponse 201 (json_activity a), db')) :
  (forall c, counted db' c = counted db c)
  /\ forall again,
       ActivitiesController.create again b db'
       = (mkResponse 201 (json_activity (created_row again b)),
          set_activities db' (activities db' ++ [created_row again b])).
Proof.
  destruct (create_outcome new_id b db)
    as [[_ (status & m & Herr)]|(Hv & Hc & Hfk & Hok)].
  { rewrite Hcreated in Herr. discriminate Herr. }
  rewrite Hok in Hcreated. injection Hcreated as <- <-.
  assert (Hcounted : forall c,
             counted (set_activities db (activities db ++ [created_row new_id b])) c
             = counted db c).
  { intro c. unfold counted. cbn [set_activities activities].
    rewrite filter_app. cbn [filter].
    replace (VERIFIED_or_INVOICED (created_row new_id b)) with false
      by reflexivity.
    rewrite andb_false_r. apply app_nil_r. }
  split; [exact Hcounted|].
  intro again.
  pose proof (@check_contract_same_ledger (ActivityBody.contractId b)
                (calculateDuration (ActivityBody.scheduledStart b)
                   (ActivityBody.scheduledEnd b))
                db (set_activities db (activities db ++ [created_row new_id b]))
                eq_refl Hcounted Hc) as Hc'.
  unfold ActivitiesController.create, handled, bind, lift.
  rewrite Hv, Hc'. unfold prisma_activity_create.
  fold (created_row again b).
  replace (Activity_fk
             (set_activities db (activities db ++ [created_row new_id b]))
             (created_row again b))
    with (Activity_fk db (created_row new_id b)) by reflexivity.
  now rewrite Hfk.
Qed.

Lemma create_reserves_nothing_witness :
  ActivitiesController.create id_X (body_visit null (30 * hour) (36 * hour)) db0
  = (mkResponse 201
       (json_activity (created_row id_X (body_visit null (30 * hour) (36 * hour)))),
     set_activities db0
       (activities db0
        ++ [created_row id_X (body_visit null (30 * hour) (36 * hour))]))
  /\ statusCode
       (fst (ActivitiesController.create id_N
               (body_visit null (30 * hour) (36 * hour))
               (set_activities db0
                  (activities db0
                   ++ [created_row id_X
                         (body_visit null (30 * hour) (36 * hour))]))))
     = 201.
Proof.
  assert (H : ActivitiesController.create id_X
                (body_visit null (30 * hour) (36 * hour)) db0
              = (mkResponse 201
                   (json_activity
                      (created_row id_X (body_visit null (30 * hour) (36 * hour)))),
                 set_activities db0
                   (activities db0
                    ++ [created_row id_X
                          (body_visit null (30 * hour) (36 * hour))])))
    by (vm_compute; reflexivity).
  split; [exact H|].
  rewrite (proj2 (@create_reserves_nothing db0 _ id_X _ _ H) id_N).
  reflexivity.
Defined.

Lemma updateStatus_run (db : Db) (id : string) (a : Activity.t)
  (st : ActivityStatus) :
  find (has_id id) (activities db) = Some a ->
  ActivitiesController.updateStatus id (value (ActivityStatus_to_string st)) db
  = (mkResponse 200 (json_activity (set_status st a)),
     rewritten id (set_status st) db).
Proof.
  intro Hfound. unfold ActivitiesController.updateStatus, handled, bind.
  rewrite (@prisma_activity_update_status db id a st Hfound).
  cbn [set_status Activity.contractId].
  destruct (Activity.contractId a) as [c|]; [|reflexivity].
  destruct (_ && _); reflexivity.
Qed.

(** X8. The ledger follows the status: once [setStatus] has stored a status
    for an activity linked to a contract, that activity counts against the
    contract exactly when the status is [VERIFIED] or [INVOICED], and the
    activities of other identifiers count as they did before. *)
Theorem ledger_follows_status
  (db : Db) (id c : string) (a : Activity.t) (st : ActivityStatus)
  (Hfound : find (has_id id) (activities db) = Some a)
  (Hlinked : Activity.contractId a = Some c) :
  let db' :=
    snd (ActivitiesController.updateStatus id
           (value (ActivityStatus_to_string st)) db) in
  (st = VERIFIED \/ st = INVOICED -> In (set_status st a) (counted db' c))
  /\ (st <> VERIFIED -> st <> INVOICED ->
      forall x, In x (counted db' c) -> Activity.id x <> id)
  /\ (forall k x, Activity.id x <> id ->
                  (In x (counted db' k) <-> In x (counted db k))).
Proof.
  intro db'. unfold db'. rewrite (@updateStatus_run db id a st Hfound).
  cbn [snd]. unfold rewritten.
  assert (Hin : forall k x,
             In x (counted (set_activities db
                              (map (fun r => if has_id id r
                                             then set_status st r else r)
                                 (activities db))) k) <->
             exists r, In r (activities db)
                       /\ x = (if has_id id r then set_status st r else r)
                       /\ Activity.contractId x = Some k
                       /\ (Activity.status x = VERIFIED
                           \/ Activity.status x = INVOICED)).
  { intros k x. rewrite counted_spec. cbn [set_activities activities].
    rewrite in_map_iff. split.
    - intros ((r & <- & Hr) & Hk & Hs). now exists r.
    - intros (r & Hr & -> & Hk & Hs). split; [now exists r|tauto]. }
  split; [|split].
  - intro Hst. apply Hin. exists a. apply find_some in Hfound.
    destruct Hfound as [Ha Hida]. rewrite Hida.
    repeat split; try assumption.
  - intros Hv Hi x Hx Hid. apply Hin in Hx.
    destruct Hx as (r & _ & -> & _ & Hs).
    destruct (has_id id r) eqn:E.
    + cbn in Hs. tauto.
    + apply has_id_spec in Hid. congruence.
  - intros k x Hne. rewrite Hin, counted_spec. split.
    + intros (r & Hr & -> & Hk & Hs).
      destruct (has_id id r) eqn:E; [|tauto].
      apply has_id_spec in E. now elim Hne.
    + intros (Hx & Hk & Hs). exists x. repeat split; try assumption.
      destruct (has_id id x) eqn:E; [|reflexivity].
      apply has_id_spec in E. contradiction.
Qed.

Lemma ledger_follows_status_witness :
  find (has_id id_B) (activities db0) = Some activity_B
  /\ Activity.contractId activity_B = Some id_K
  /\ In (set_status VERIFIED activity_B)
       (counted (snd (ActivitiesController.updateStatus id_B
                        (value "VERIFIED") db0)) id_K).
Proof.
  split; [reflexivity|]. split; [reflexivity|].
  apply (proj1 (@ledger_follows_status db0 id_B id_K activity_B VERIFIED
                  eq_refl eq_refl)).
  now left.
Defined.

Lemma unique_ids_same_row (l : list Activity.t) (r s : Activity.t) :
  NoDup (map Activity.id l) -> In r l -> In s l ->
  Activity.id r = Activity.id s -> r = s.
Proof.
  induction l as [|x l IH]; simpl; [tauto|].
  intros Hnd Hr Hs Hid. inversion Hnd as [|? ? Hx Hl]; subst.
  destruct Hr as [<-|Hr], Hs as [<-|Hs].
  - reflexivity.
  - exfalso. apply Hx. rewrite Hid. now apply in_map.
  - exfalso. apply Hx. rewrite <- Hid. now apply in_map.
  - now apply IH.
Qed.

Lemma filter_map_commute {A} (p : A -> bool) (f : A -> A) (l : list A) :
  (forall x, In x l -> p (f x) = p x) ->
  filter p (map f l) = map f (filter p l).
Proof.
  induction l as [|x l IH]; simpl; intro H; [reflexivity|].
  rewrite (H x (or_introl eq_refl)).
  destruct (p x); simpl; rewrite IH; auto.
Qed.

(** X9. Billing leaves every contract's ledger as it was: in a store whose
    activities have distinct identifiers, after a successful
    [generateClientInvoice] no contract row has changed and the activities
    that count against any contract are those that counted before, by
    identifier and with the same [durationHours], each as often as before,
    in whatever order the store returns them; so the hours used are a sum of
    the same terms. *)
Theorem billing_preserves_ledger
  (db db' : Db) (new_id clientId : string) (periodStart periodEnd : Date)
  (result : ClientInvoice.t)
  (Hunique : unique_ids db)
  (Hrun : generateClientInvoice new_id clientId periodStart periodEnd db
          = (Ok result, db')) :
  contracts db' = contracts db
  /\ forall c,
       Permutation
         (map (fun x => (Activity.id x, Activity.durationHours x))
            (counted db' c))
         (map (fun x => (Activity.id x, Activity.durationHours x))
            (counted db c))
       /\ (forall x, In x (activities db) ->
                     Activity.contractId x = Some c ->
                     Activity.status x = VERIFIED \/ Activity.status x = INVOICED ->
             exists x', In x' (activities db')
                        /\ Activity.id x' = Activity.id x
                        /\ Activity.contractId x' = Some c
                        /\ Activity.durationHours x' = Activity.durationHours x
                        /\ (Activity.status x' = VERIFIED
                            \/ Activity.status x' = INVOICED))
       /\ (forall x', In x' (activities db') ->
                      Activity.contractId x' = Some c ->
                      Activity.status x' = VERIFIED \/ Activity.status x' = INVOICED ->
             exists x, In x (activities db)
                       /\ Activity.id x = Activity.id x'
                       /\ Activity.contractId x = Some c
                       /\ Activity.durationHours x = Activity.durationHours x'
                       /\ (Activity.status x = VERIFIED
                           \/ Activity.status x = INVOICED)).
Proof.
  destruct (generateClientInvoice_inv _ _ _ _ _ Hrun) as [client Hclient].
  pose proof (@generateClientInvoice_run db new_id clientId periodStart
                periodEnd client Hclient) as Hshape.
  cbv zeta in Hshape. rewrite Hshape in Hrun. clear Hshape.
  injection Hrun as _ <-.
  set (selected := filter (billable clientId periodStart periodEnd)
                     (activities db)).
  set (flip := fun r => if id_in (map Activity.id selected) r
                        then set_status INVOICED r else r).
  assert (Hflip : forall r, In r (activities db) ->
                    Activity.id (flip r) = Activity.id r
                    /\ Activity.durationHours (flip r) = Activity.durationHours r
                    /\ Activity.contractId (flip r) = Activity.contractId r
                    /\ VERIFIED_or_INVOICED (flip r) = VERIFIED_or_INVOICED r).
  { intros r Hr. unfold flip.
    destruct (id_in (map Activity.id selected) r) eqn:E; [|tauto].
    apply id_in_spec, in_map_iff in E. destruct E as (s & Hid & Hs).
    assert (s = r).
    { apply (@unique_ids_same_row (activities db)); try assumption.
      apply filter_In in Hs. tauto. }
    subst s. apply filter_In in Hs. destruct Hs as [_ Hb].
    apply billable_spec in Hb. destruct Hb as (_ & Hst & _).
    unfold VERIFIED_or_INVOICED. cbn. now rewrite Hst. }
  assert (Hcounted : forall c,
             counted (mkDb (users db) (clients db) (contracts db)
                        (map flip (activities db))
                        (invoices db ++ [Invoice.mk new_id CLIENT_BILL clientId
                           (fold_left
                              (fun sum a =>
                                 (sum + Activity.durationHours a
                                        * or_0 (Client.billingRate client))%float)
                              selected 0%float)
                           periodStart periodEnd DRAFT (Some clientId) None])) c
             = map flip (counted db c)).
  { intro c. unfold counted. cbn [activities].
    apply filter_map_commute. intros r Hr.
    destruct (Hflip r Hr) as (_ & _ & Hk & Hs).
    unfold linked_to. now rewrite Hk, Hs. }
  split; [reflexivity|]. intro c. split; [|split].
  - rewrite Hcounted, map_map.
    erewrite map_ext_in; [apply Permutation_refl|].
    intros r Hr. apply counted_spec in Hr.
    destruct (Hflip r (proj1 Hr)) as (Hi & Hd & _). cbn beta.
    now rewrite Hi, Hd.
  - intros x Hx Hk Hs.
    assert (Hc : In x (counted db c)) by (apply counted_spec; tauto).
    exists (flip x).
    assert (Hc' : In (flip x) (map flip (counted db c))) by now apply in_map.
    rewrite <- Hcounted in Hc'. apply counted_spec in Hc'.
    destruct (Hflip x Hx) as (Hi & Hd & _). tauto.
  - intros x' Hx' Hk Hs.
    assert (Hc' : In x' (map flip (counted db c)))
      by (rewrite <- Hcounted; apply counted_spec; tauto).
    apply in_map_iff in Hc'. destruct Hc' as (x & <- & Hc).
    apply counted_spec in Hc. exists x.
    destruct (Hflip x (proj1 Hc)) as (Hi & Hd & _).
    rewrite Hi, Hd. tauto.
Qed.

Lemma unique_ids_db0 : unique_ids db0.
Proof.
  unfold unique_ids. cbn.
  repeat constructor; cbn; intuition discriminate.
Qed.

Lemma billing_preserves_ledger_witness :
  unique_ids db0
  /\ generateClientInvoice id_X id_C 0 (15 * hour) db0
     = (Ok (ClientInvoice.mk invoice_X [activity_A]), db0_billed)
  /\ contracts db0_billed = contracts db0
  /\ Permutation
       (map (fun x => (Activity.id x, Activity.durationHours x))
          (counted db0_billed id_K))
       [(id_A, 4%float)].
Proof.
  assert (H : generateClientInvoice id_X id_C 0 (15 * hour) db0
              = (Ok (ClientInvoice.mk invoice_X [activity_A]), db0_billed))
    by (vm_compute; reflexivity).
  split; [exact unique_ids_db0|]. split; [exact H|].
  destruct (@billing_preserves_ledger db0 db0_billed id_X id_C 0 (15 * hour)
              (ClientInvoice.mk invoice_X [activity_A])
              unique_ids_db0 H) as [Hcontracts Hledger].
  split; [exact Hcontracts|].
  exact (proj1 (Hledger id_K)).
Defined.

(** ** More on the invoice flows *)

(** X10. A period without billable work still produces an invoice: when the
    client has no verified activity inside the period, [generateClientInvoice]
    creates a [DRAFT] of [totalAmount] 0 and leaves every activity as it
    was. *)
Theorem empty_period_invoice_of_0
  (db : Db) (new_id clientId : string) (periodStart periodEnd : Date)
  (client : Client.t)
  (Hclient : find (fun c => (Client.id c =? clientId)%string) (clients db)
             = Some client)
  (Hnone : forall a, In a (activities db) ->
                     billable clientId periodStart periodEnd a = false) :
  exists invoice,
    generateClientInvoice new_id clientId periodStart periodEnd db
    = (Ok (ClientInvoice.mk invoice []),
       set_invoices db (invoices db ++ [invoice]))
    /\ Invoice.totalAmount invoice = 0%float
    /\ Invoice.status invoice = DRAFT.
Proof.
  pose proof (@generateClientInvoice_run db new_id clientId periodStart
                periodEnd client Hclient) as Hshape.
  cbv zeta in Hshape.
  assert (Hempty : filter (billable clientId periodStart periodEnd)
                     (activities db) = []).
  { destruct (filter _ _) as [|a l] eqn:E; [reflexivity|exfalso].
    assert (Ha : In a (a :: l)) by now left.
    rewrite <- E in Ha. apply filter_In in Ha. destruct Ha as [Hin Hb].
    rewrite (Hnone a Hin) in Hb. discriminate Hb. }
  rewrite Hempty in Hshape. cbn [map fold_left] in Hshape.
  exists (Invoice.mk new_id CLIENT_BILL clientId 0%float periodStart periodEnd
            DRAFT (Some clientId) None).
  split; [|split; reflexivity].
  rewrite Hshape. f_equal. unfold set_invoices. f_equal.
  rewrite <- (map_id (activities db)) at 2. apply map_ext. reflexivity.
Qed.

Lemma empty_period_invoice_of_0_witness :
  find (fun c => (Client.id c =? id_C)%string) (clients db0) = Some client_C
  /\ exists invoice,
       generateClientInvoice id_X id_C (40 * hour) (50 * hour) db0
       = (Ok (ClientInvoice.mk invoice []),
          set_invoices db0 (invoices db0 ++ [invoice]))
       /\ Invoice.totalAmount invoice = 0%float.
Proof.
  split; [reflexivity|].
  destruct (@empty_period_invoice_of_0 db0 id_X id_C (40 * hour) (50 * hour)
              client_C eq_refl) as (invoice & Hrun & Hzero & _).
  { intros a [<-|[<-|[]]]; reflexivity. }
  exists invoice. split; [exact Hrun|exact Hzero].
Defined.



Lemma generateWorkerPayout_run (db : Db) (new_id workerId : string)
  (periodStart periodEnd : Date) (worker : User.t) :
  find (fun u => (User.id u =? workerId)%string) (users db) = Some worker ->
  let selected := filter (payable workerId periodStart periodEnd) (activities db) in
  let invoice :=
    Invoice.mk new_id WORKER_PAYOUT workerId
      (sum_durationHours selected * User.hourlyRate worker)%float
      periodStart periodEnd DRAFT None (Some workerId) in
  generateWorkerPayout new_id workerId periodStart periodEnd db
  = (Ok (WorkerPayout.mk invoice selected (sum_durationHours selected)),
     set_invoices db (invoices db ++ [invoice])).
Proof.
  intros Hworker selected invoice.
  unfold generateWorkerPayout, bind, prisma_activity_findMany,
    prisma_user_findUnique, property, ret, prisma_invoice_create.
  rewrite Hworker. unfold Invoice_fk, references, has_user.
  cbn [Invoice.clientId Invoice.workerId andb].
  now rewrite (find_existsb _ _ Hworker).
Qed.

(** X12. Billing the client takes the work out of later payouts: after a
    successful [generateClientInvoice], a [generateWorkerPayout] for any
    existing worker and any period succeeds but selects none of the
    activities that were billed; what it does select are rows the billing
    left untouched. *)
Theorem payout_after_billing_skips_billed
  (db db1 : Db) (id1 id2 clientId workerId : string)
  (periodStart periodEnd periodStart' periodEnd' : Date)
  (billed : ClientInvoice.t) (worker : User.t)
  (Hbilled : generateClientInvoice id1 clientId periodStart periodEnd db
             = (Ok billed, db1))
  (Hworker : find (fun u => (User.id u =? workerId)%string) (users db)
             = Some worker) :
  exists payout db2,
    generateWorkerPayout id2 workerId periodStart' periodEnd' db1
    = (Ok payout, db2)
    /\ forall a, In a (WorkerPayout.activities payout) ->
                 In a (activities db)
                 /\ ~ In (Activity.id a)
                      (map Activity.id (ClientInvoice.activities billed)).
Proof.
  destruct (generateClientInvoice_inv _ _ _ _ _ Hbilled) as [client Hclient].
  pose proof (@generateClientInvoice_run db id1 clientId periodStart
                periodEnd client Hclient) as Hshape.
  cbv zeta in Hshape. rewrite Hshape in Hbilled. clear Hshape.
  injection Hbilled as <- <-.
  eexists. eexists. split.
  { apply generateWorkerPayout_run. exact Hworker. }
  cbn [WorkerPayout.activities ClientInvoice.activities activities].
  intros a Ha. apply filter_In in Ha. destruct Ha as [Hin Hp].
  apply in_map_iff in Hin. destruct Hin as (r & Hr & Hin).
  destruct (id_in _ r) eqn:E.
  - subst a. apply payable_spec in Hp. destruct Hp as (_ & Hst & _).
    discriminate Hst.
  - subst a. split; [exact Hin|]. intro H. apply id_in_spec in H. congruence.
Qed.

Lemma payout_after_billing_skips_billed_witness :
  generateClientInvoice id_X id_C 0 (15 * hour) db0
  = (Ok (ClientInvoice.mk invoice_X [activity_A]), db0_billed)
  /\ find (fun u => (User.id u =? id_W)%string) (users db0) = Some worker_W
  /\ exists payout db2,
       generateWorkerPayout id_N id_W 0 (15 * hour) db0_billed
       = (Ok payout, db2)
       /\ forall a, In a (WorkerPayout.activities payout) ->
                    ~ In (Activity.id a) [id_A].
Proof.
  assert (H : generateClientInvoice id_X id_C 0 (15 * hour) db0
              = (Ok (ClientInvoice.mk invoice_X [activity_A]), db0_billed))
    by (vm_compute; reflexivity).
  split; [exact H|]. split; [reflexivity|].
  destruct (@payout_after_billing_skips_billed db0 db0_billed id_X id_N id_C
              id_W 0 (15 * hour) 0 (15 * hour)
              (ClientInvoice.mk invoice_X [activity_A]) worker_W H eq_refl)
    as (payout & db2 & Hrun & Hskip).
  exists payout, db2. split; [exact Hrun|].
  intros a Ha. exact (proj2 (Hskip a Ha)).
Defined.

(** X13. A payout takes nothing out of later billing: after a successful
    [generateWorkerPayout], [generateClientInvoice] for an existing client
    selects the same activities and computes the same total as it would
    have before the payout. *)
Theorem billing_after_payout_unchanged
  (db db1 : Db) (id1 id2 clientId workerId : string)
  (periodStart periodEnd periodStart' periodEnd' : Date)
  (paid : WorkerPayout.t) (client : Client.t)
  (Hpaid : generateWorkerPayout id1 workerId periodStart periodEnd db
           = (Ok paid, db1))
  (Hclient : find (fun c => (Client.id c =? clientId)%string) (clients db)
             = Some client) :
  exists before after db2 db3,
    generateClientInvoice id2 clientId periodStart' periodEnd' db
    = (Ok before, db2)
    /\ generateClientInvoice id2 clientId periodStart' periodEnd' db1
       = (Ok after, db3)
    /\ after = before
    /\ activities db3 = activities db2.
Proof.
  assert (Hdb1 : clients db1 = clients db /\ activities db1 = activities db).
  { unfold generateWorkerPayout, bind, prisma_activity_findMany,
      prisma_user_findUnique, property, ret, throw, prisma_invoice_create
      in Hpaid.
    destruct (find _ (users db)); [|discriminate].
    destruct (Invoice_fk _ _); [|discriminate].
    injection Hpaid as _ <-. split; reflexivity. }
  destruct Hdb1 as [Hc Ha].
  assert (Hclient1 : find (fun c => (Client.id c =? clientId)%string)
                       (clients db1) = Some client) by now rewrite Hc.
  pose proof (@generateClientInvoice_run db id2 clientId periodStart'
                periodEnd' client Hclient) as H0.
  pose proof (@generateClientInvoice_run db1 id2 clientId periodStart'
                periodEnd' client Hclient1) as H1.
  cbv zeta in H0, H1. rewrite Ha in H1.
  do 4 eexists. split; [exact H0|]. split; [exact H1|]. split; reflexivity.
Qed.

Lemma billing_after_payout_unchanged_witness :
  find (fun c => (Client.id c =? id_C)%string) (clients db0) = Some client_C
  /\ exists paid db1 after db3,
       generateWorkerPayout id_N id_W 0 (15 * hour) db0 = (Ok paid, db1)
       /\ generateClientInvoice id_X id_C 0 (15 * hour) db1 = (Ok after, db3)
       /\ after = ClientInvoice.mk invoice_X [activity_A].
Proof.
  split; [reflexivity|].
  assert (H : exists paid db1,
             generateWorkerPayout id_N id_W 0 (15 * hour) db0 = (Ok paid, db1))
    by (do 2 eexists; vm_compute; reflexivity).
  destruct H as (paid & db1 & Hpaid).
  destruct (@billing_after_payout_unchanged db0 db1 id_N id_X id_C id_W
              0 (15 * hour) 0 (15 * hour) paid client_C Hpaid eq_refl)
    as (before & after & db2 & db3 & H0 & H1 & Heq & _).
  exists paid, db1, after, db3. split; [exact Hpaid|]. split; [exact H1|].
  rewrite Heq.
  assert (Hx : generateClientInvoice id_X id_C 0 (15 * hour) db0
               = (Ok (ClientInvoice.mk invoice_X [activity_A]), db0_billed))
    by (vm_compute; reflexivity).
  rewrite Hx in H0. now injection H0 as <- _.
Defined.

Lemma InvoiceStatus_of_to_string (st : InvoiceStatus) :
  InvoiceStatus_of_string (InvoiceStatus_to_string st) = Some st.
Proof. destruct st; reflexivity. Qed.

(** X14. The status of an invoice can be set to any of the three values from
    any of them, [PAID] back to [DRAFT] included; the update answers 200,
    rewrites the status and nothing else of the invoice (its total and
    period are not recomputed), and touches no activity and no invoice of
    another identifier.  A status outside the enumeration answers 500
    without a change. *)
Theorem invoice_updateStatus_writes_status_only
  (db : Db) (id : string) (r : Invoice.t) (st : InvoiceStatus)
  (Hfound : find (invoice_has_id id) (invoices db) = Some r) :
  exists r' db',
    InvoicesQueries.updateStatus id (value (InvoiceStatus_to_string st)) db
    = (mkResponse 200 (json_invoice r'), db')
    /\ Invoice.status r' = st
    /\ Invoice.id r' = Invoice.id r
    /\ Invoice.type r' = Invoice.type r
    /\ Invoice.entityId r' = Invoice.entityId r
    /\ Invoice.totalAmount r' = Invoice.totalAmount r
    /\ Invoice.periodStart r' = Invoice.periodStart r
    /\ Invoice.periodEnd r' = Invoice.periodEnd r
    /\ find (invoice_has_id id) (invoices db') = Some r'
    /\ activities db' = activities db
    /\ (forall x, In x (invoices db) -> Invoice.id x <> id ->
                  In x (invoices db'))
    /\ (forall s, InvoiceStatus_of_string s = None ->
          InvoicesQueries.updateStatus id (value s) db
          = (mkResponse 500 (json_error (Text "Internal server error")), db)).
Proof.
  exists (with_status st r). eexists. split.
  { unfold InvoicesQueries.updateStatus, handled, bind,
      prisma_invoice_update_status.
    rewrite InvoiceStatus_of_to_string, Hfound. reflexivity. }
  cbn [set_invoices invoices activities with_status Invoice.status Invoice.id
       Invoice.type Invoice.entityId Invoice.totalAmount Invoice.periodStart
       Invoice.periodEnd].
  repeat split.
  - clear - Hfound. induction (invoices db) as [|x l IH]; [discriminate|].
    simpl in *. destruct (invoice_has_id id x) eqn:E.
    + injection Hfound as ->. unfold invoice_has_id in *. cbn. now rewrite E.
    + rewrite E. now apply IH.
  - intros x Hx Hne. apply in_map_iff. exists x. split; [|exact Hx].
    destruct (invoice_has_id id x) eqn:E; [|reflexivity].
    apply String.eqb_eq in E. contradiction.
  - intros s Hs. unfold InvoicesQueries.updateStatus, handled, bind,
      prisma_invoice_update_status. now rewrite Hs.
Qed.

Lemma invoice_updateStatus_writes_status_only_witness :
  find (invoice_has_id id_X) (invoices db0_billed) = Some invoice_X
  /\ exists r' db',
       InvoicesQueries.updateStatus id_X (value "PAID") db0_billed
       = (mkResponse 200 (json_invoice r'), db')
       /\ Invoice.status r' = PAID
       /\ Invoice.totalAmount r' = 200%float.
Proof.
  split; [reflexivity|].
  destruct (@invoice_updateStatus_writes_status_only db0_billed id_X invoice_X
              PAID eq_refl)
    as (r' & db' & Hrun & Hst & _ & _ & _ & Htotal & _).
  exists r', db'. split; [exact Hrun|]. split; [exact Hst|exact Htotal].
Defined.

(** X25. An invoice that is not there: for an identifier that names no
    invoice, reading it answers 404 "Invoice not found" and setting its
    status, to any of the three values, answers 404 "Not found", the first
    being the controller's own error and the second the store's; neither
    changes the store. *)
Theorem invoice_missing_answers_404 (db : Db) (id : string) (status : InvoiceStatus) :
  find (invoice_has_id id) (invoices db) = None ->
  InvoicesQueries.getById id db
  = (mkResponse 404 (json_error (Text "Invoice not found")), db)
  /\ InvoicesQueries.updateStatus id (value (InvoiceStatus_to_string status)) db
     = (mkResponse 404 (json_error (Text "Not found")), db).
Proof.
  intro H. split.
  - unfold InvoicesQueries.getById, handled. now rewrite H.
  - unfold InvoicesQueries.updateStatus, handled, bind,
      prisma_invoice_update_status.
    now rewrite InvoiceStatus_of_to_string, H.
Qed.

Lemma invoice_missing_answers_404_witness :
  InvoicesQueries.getById id_X db0
  = (mkResponse 404 (json_error (Text "Invoice not found")), db0)
  /\ InvoicesQueries.updateStatus id_X (value "PAID") db0
     = (mkResponse 404 (json_error (Text "Not found")), db0).
Proof. exact (@invoice_missing_answers_404 db0 id_X PAID eq_refl). Defined.

(** X15. Each generation endpoint accepts its own type only: a body that
    passes validation but carries the other type is answered with 400
    "Invalid invoice type for this endpoint", whether or not its entity
    exists, and nothing is created. *)
Theorem invoice_type_of_the_other_endpoint
  (db : Db) (new_id entityId : string) (periodStart periodEnd : Date)
  (Hid : uuid entityId = true)
  (Hperiod : periodStart < periodEnd) :
  InvoicesController.generateClientInvoice new_id
    (InvoiceBody.mk WORKER_PAYOUT entityId periodStart periodEnd) db
  = (mkResponse 400 (json_error (Text "Invalid invoice type for this endpoint")),
     db)
  /\ InvoicesController.generateWorkerPayout new_id
       (InvoiceBody.mk CLIENT_BILL entityId periodStart periodEnd) db
     = (mkResponse 400
          (json_error (Text "Invalid invoice type for this endpoint")), db).
Proof.
  unfold InvoicesController.generateClientInvoice,
    InvoicesController.generateWorkerPayout, handled, bind, lift,
    validateInvoice.
  cbn [InvoiceBody.entityId InvoiceBody.periodStart InvoiceBody.periodEnd].
  rewrite Hid. cbn [issue].
  destruct (Z.gtb_spec periodEnd periodStart); [|lia].
  split; reflexivity.
Qed.

Lemma invoice_type_of_the_other_endpoint_witness :
  uuid id_C = true /\ 0 < 15 * hour
  /\ InvoicesController.generateWorkerPayout id_X
       (InvoiceBody.mk CLIENT_BILL id_C 0 (15 * hour)) db0
     = (mkResponse 400
          (json_error (Text "Invalid invoice type for this endpoint")), db0).
Proof.
  split; [reflexivity|]. split; [reflexivity|].
  exact (proj2 (@invoice_type_of_the_other_endpoint db0 id_X id_C 0 (15 * hour)
                  eq_refl eq_refl)).
Defined.

(** ** Contracts *)

Lemma same_order_spec (c o : string) (k : Contract.t) :
  same_order c o k = true <->
  (Contract.clientId k, Contract.orderNumber k) = (c, o).
Proof.
  unfold same_order. rewrite andb_true_iff, !String.eqb_eq.
  split; [intros [-> ->]; reflexivity|intros [= -> ->]; now split].
Qed.

Lemma validateContract_Ok (b b' : ContractBody.t) :
  validateContract b = Ok b' ->
  b' = b
  /\ uuid (ContractBody.clientId b) = true
  /\ (0 <? ContractBody.totalHours b)%float = true
  /\ ContractBody.startDate b < ContractBody.endDate b.
Proof.
  unfold validateContract.
  destruct (uuid (ContractBody.clientId b)); [|discriminate].
  destruct (1 <=? Z.of_nat (String.length (ContractBody.orderNumber b)));
    [|discriminate].
  destruct (is_nan (ContractBody.totalHours b)); [discriminate|].
  destruct (0 <? ContractBody.totalHours b)%float; [|discriminate].
  cbn [issue app].
  destruct (Z.gtb_spec (ContractBody.endDate b) (ContractBody.startDate b));
    [|discriminate].
  intros [= <-]. repeat split. assumption.
Qed.

(** X16. Order numbers stay unique per client: [create] refuses a body
    whose hours are not above zero or whose end is not after its start with
    400, and a body whose order number the client already has with 409
    "Duplicate entry", storing nothing; otherwise, for an existing client,
    it stores the contract as [ACTIVE]; and in every case a table whose
    pairs of client and order number were distinct still has them
    distinct. *)
Theorem contract_create_keeps_orders_unique
  (db : Db) (new_id : string) (b : ContractBody.t)
  (Hunique : orders_unique db) :
  orders_unique (snd (ContractsCRUD.create new_id b db))
  /\ (ContractBody.endDate b <= ContractBody.startDate b
      \/ (0 <? ContractBody.totalHours b)%float = false ->
      ContractsCRUD.create new_id b db
      = (failed (mkResponse 400 (json_error (Text "Validation failed"))), db))
  /\ (validateContract b = Ok b ->
      existsb (same_order (ContractBody.clientId b) (ContractBody.orderNumber b))
        (contracts db) = true ->
      ContractsCRUD.create new_id b db
      = (failed (mkResponse 409 (json_error (Text "Duplicate entry"))), db))
  /\ (validateContract b = Ok b ->
      existsb (same_order (ContractBody.clientId b) (ContractBody.orderNumber b))
        (contracts db) = false ->
      has_client db (ContractBody.clientId b) = true ->
      exists k,
        ContractsCRUD.create new_id b db
        = (sent 201 k, set_contracts db (contracts db ++ [k]))
        /\ Contract.status k = ACTIVE
        /\ Contract.totalHours k = ContractBody.totalHours b).
Proof.
  split; [|split; [|split]].
  - unfold ContractsCRUD.create, handled_as, bind, lift.
    destruct (validateContract b) as [b'|e]; [|exact Hunique].
    unfold prisma_contract_create.
    cbn [Contract.clientId Contract.orderNumber].
    destruct (existsb _ (contracts db)) eqn:E; [exact Hunique|].
    destruct (has_client db _); [|exact Hunique].
    cbn [snd ret]. unfold orders_unique in *.
    cbn [set_contracts contracts]. rewrite map_app. cbn [map Contract.clientId
                                           Contract.orderNumber].
    apply NoDup_app; [exact Hunique|repeat constructor; intros []|].
    intros p Hp [<-|[]]. apply in_map_iff in Hp. destruct Hp as (k & Hk & Hin).
    assert (Hex : existsb (same_order (ContractBody.clientId b')
                             (ContractBody.orderNumber b')) (contracts db)
                  = true).
    { apply existsb_exists. exists k. split; [exact Hin|].
      now apply same_order_spec. }
    congruence.
  - intro Hbad.
    assert (Hv : exists issues, validateContract b = Throw (ZodError issues)).
    { destruct (validateContract b) as [b'|e] eqn:E.
      - apply validateContract_Ok in E. destruct E as (_ & _ & Hpos & Hlt).
        destruct Hbad as [Hbad|Hbad]; [lia|congruence].
      - unfold validateContract in E.
        destruct (_ ++ _)%list; [|injection E as <-; now eexists].
        destruct (_ >? _); [discriminate|]. injection E as <-. now eexists. }
    destruct Hv as [issues Hv].
    unfold ContractsCRUD.create, handled_as, bind, lift. now rewrite Hv.
  - intros Hv Hdup.
    unfold ContractsCRUD.create, handled_as, bind, lift,
      prisma_contract_create.
    rewrite Hv. cbn [Contract.clientId Contract.orderNumber].
    now rewrite Hdup.
  - intros Hv Hnew Hclient.
    exists (Contract.mk new_id (ContractBody.clientId b)
              (ContractBody.orderNumber b) (ContractBody.totalHours b)
              (ContractBody.startDate b) (ContractBody.endDate b) ACTIVE).
    split; [|split; reflexivity].
    unfold ContractsCRUD.create, handled_as, bind, lift,
      prisma_contract_create.
    rewrite Hv. cbn [Contract.clientId Contract.orderNumber].
    now rewrite Hnew, Hclient.
Qed.

Lemma orders_unique_db0 : orders_unique db0.
Proof. unfold orders_unique. cbn. repeat constructor. intros []. Qed.

Lemma contract_create_keeps_orders_unique_witness :
  orders_unique db0
  /\ ContractsCRUD.create id_X (body_order "PO-1" 5) db0
     = (failed (mkResponse 409 (json_error (Text "Duplicate entry"))), db0)
  /\ orders_unique (snd (ContractsCRUD.create id_X (body_order "PO-2" 5) db0)).
Proof.
  destruct (@contract_create_keeps_orders_unique db0 id_X (body_order "PO-1" 5)
              orders_unique_db0) as (_ & _ & Hdup & _).
  split; [exact orders_unique_db0|]. split.
  - apply Hdup; reflexivity.
  - exact (proj1 (@contract_create_keeps_orders_unique db0 id_X
                    (body_order "PO-2" 5) orders_unique_db0)).
Defined.

(** X17. Deleting a contract unlinks its activities: the answer is 204; the
    contract is gone and the other contracts, the users, the clients and the
    invoices stay; every activity that was linked to it is kept with no
    contract and with every other field as it was; the other activities are
    kept as they were; nothing else is stored, and there are as many
    activities as before; and the hours-remaining endpoint then answers 404
    for the identifier. *)
Theorem deleteContract_unlinks_activities
  (db : Db) (id : string) (k : Contract.t)
  (Hfound : find (contract_has_id id) (contracts db) = Some k) :
  let unlinked a :=
    Activity.mk (Activity.id a) (Activity.title a) None (Activity.clientId a)
      (Activity.workerId a) (Activity.status a) (Activity.scheduledStart a)
      (Activity.scheduledEnd a) (Activity.durationHours a)
      (Activity.location a) (Activity.description a) in
  exists db',
    ContractsCRUD.deleteContract id db = (mkResponse 204 no_body, db')
    /\ has_contract db' id = false
    /\ (forall k', In k' (contracts db') <->
                   In k' (contracts db) /\ Contract.id k' <> id)
    /\ users db' = users db /\ clients db' = clients db
    /\ invoices db' = invoices db
    /\ List.length (activities db') = List.length (activities db)
    /\ (forall a, In a (activities db) -> Activity.contractId a = Some id ->
                  In (unlinked a) (activities db'))
    /\ (forall a, In a (activities db) -> Activity.contractId a <> Some id ->
                  In a (activities db'))
    /\ (forall a', In a' (activities db') ->
          Activity.contractId a' <> Some id
          /\ exists a, In a (activities db)
                       /\ ((Activity.contractId a <> Some id /\ a' = a)
                           \/ (Activity.contractId a = Some id
                               /\ a' = unlinked a)))
    /\ ContractsController.getHoursRemaining id db'
       = (mkResponse 404 (json_error (Text "Contract not found")), db').
Proof.
  intro unlinked. eexists. split.
  { unfold ContractsCRUD.deleteContract, handled, bind, prisma_contract_delete.
    rewrite Hfound. reflexivity. }
  assert (Hgone : forall l,
             find (fun c => (Contract.id c =? id)%string)
               (filter (fun x => negb (contract_has_id id x)) l) = None).
  { intro l. apply (find_filter_out (contract_has_id id)). }
  assert (Hrow : forall a,
             (Activity.contractId a = Some id -> unlink_contract id a = unlinked a)
             /\ (Activity.contractId a <> Some id -> unlink_contract id a = a)).
  { intro a. unfold unlink_contract.
    destruct (linked_to id a) eqn:E.
    - apply linked_to_spec in E. split; [reflexivity|contradiction].
    - split; [|reflexivity]. intro H. apply linked_to_spec in H. congruence. }
  cbn [users clients contracts invoices activities].
  repeat match goal with |- _ /\ _ => split end; try reflexivity.
  - unfold has_contract. cbn [contracts].
    destruct (existsb _ _) eqn:E; [|reflexivity].
    apply existsb_exists in E. destruct E as (x & Hx & Hid).
    apply filter_In in Hx. destruct Hx as [_ Hx].
    unfold contract_has_id in Hx. now rewrite Hid in Hx.
  - intro k'. rewrite filter_In. unfold contract_has_id.
    rewrite negb_true_iff, String.eqb_neq. tauto.
  - apply length_map.
  - intros a Ha Hl. apply in_map_iff. exists a.
    split; [now apply Hrow|exact Ha].
  - intros a Ha Hl. apply in_map_iff. exists a.
    split; [now apply Hrow|exact Ha].
  - intros a' H. apply in_map_iff in H. destruct H as (r & <- & Hr). split.
    + unfold unlink_contract.
      destruct (linked_to id r) eqn:E; [discriminate|].
      intro H. apply linked_to_spec in H. congruence.
    + exists r. split; [exact Hr|].
      destruct (linked_to id r) eqn:E.
      * apply linked_to_spec in E. right. split; [exact E|now apply Hrow].
      * assert (Hl : Activity.contractId r <> Some id)
          by (intro H; apply linked_to_spec in H; congruence).
        left. split; [exact Hl|now apply Hrow].
  - unfold ContractsController.getHoursRemaining, handled, bind,
      prisma_contract_findUnique_include_activities.
    cbn [contracts]. now rewrite Hgone.
Qed.

(** In the example store both activities are under the contract: after its
    deletion the audit and the survey are stored without a contract, every
    other field as before, and the table holds these two rows only. *)
Lemma deleteContract_unlinks_activities_witness :
  find (contract_has_id id_K) (contracts db0) = Some contract_K
  /\ exists db',
       ContractsCRUD.deleteContract id_K db0 = (mkResponse 204 no_body, db')
       /\ In (Activity.mk id_A "Audit" None id_C (Some id_W) VERIFIED
                (10 * hour) (14 * hour) 4%float "Plant 1" None)
             (activities db')
       /\ In (Activity.mk id_B "Survey" None id_C (Some id_W) SCHEDULED
                (20 * hour) (24 * hour) 4%float "Plant 2" None)
             (activities db')
       /\ List.length (activities db') = 2%nat
       /\ (forall a, In a (activities db') -> Activity.contractId a <> Some id_K)
       /\ forall k', ~ In k' (contracts db').
Proof.
  split; [reflexivity|].
  pose proof (@deleteContract_unlinks_activities db0 id_K contract_K eq_refl)
    as H.
  cbv zeta in H.
  destruct H as (db' & Hrun & _ & Hcontracts & _ & _ & _ & Hlen & Hunlinked
                 & _ & Hall & _).
  exists db'. split; [exact Hrun|].
  split; [exact (Hunlinked activity_A (or_introl eq_refl) eq_refl)|].
  split; [exact (Hunlinked activity_B (or_intror (or_introl eq_refl)) eq_refl)|].
  split; [exact Hlen|]. split.
  - intros a Ha. exact (proj1 (Hall a Ha)).
  - intros k' Hk. apply Hcontracts in Hk. destruct Hk as [[<-|[]] Hne].
    now apply Hne.
Defined.

(** X18. Deleting a worker takes the worker off the calendar but not the
    status off the activities: the answer is 204, no activity refers to the
    worker any more, every activity keeps its status (one that was
    [SCHEDULED] with the worker stays [SCHEDULED] with nobody), and the
    identifier is then free of conflicts over any interval. *)
Theorem deleteWorker_keeps_statuses
  (db : Db) (id : string) (u : User.t)
  (Hfound : find (fun x => (User.id x =? id)%string) (users db) = Some u) :
  exists db',
    deleteWorker id db = (mkResponse 204 no_body, db')
    /\ (forall a, In a (activities db') -> Activity.workerId a <> Some id)
    /\ map Activity.status (activities db') = map Activity.status (activities db)
    /\ map Activity.id (activities db') = map Activity.id (activities db)
    /\ (forall i, In i (invoices db') -> Invoice.workerId i <> Some id)
    /\ forall scheduledStart scheduledEnd exclude,
         checkWorkerAvailability id scheduledStart scheduledEnd exclude db'
         = (Ok (Availability.mk true []), db').
Proof.
  eexists. split.
  { unfold deleteWorker, handled, bind, prisma_user_delete.
    rewrite Hfound. reflexivity. }
  cbn [activities invoices].
  assert (Hnone : forall a, In a (map (unassign_worker id) (activities db)) ->
                            Activity.workerId a <> Some id).
  { intros a Ha. apply in_map_iff in Ha. destruct Ha as (r & <- & _).
    unfold unassign_worker. destruct (workerId_is id r) eqn:E; [discriminate|].
    intro H. apply workerId_is_spec in H. congruence. }
  split; [exact Hnone|split; [|split; [|split]]].
  - rewrite map_map. apply map_ext. intro r. unfold unassign_worker.
    now destruct (workerId_is id r).
  - rewrite map_map. apply map_ext. intro r. unfold unassign_worker.
    now destruct (workerId_is id r).
  - intros i Hi. apply in_map_iff in Hi. destruct Hi as (r & <- & _).
    unfold forget_worker. destruct (Invoice.workerId r) as [w|] eqn:E;
      [|now rewrite E].
    destruct (w =? id)%string eqn:Ew; [discriminate|].
    rewrite E. intros [= ->]. now rewrite String.eqb_refl in Ew.
  - intros s e ex. unfold checkWorkerAvailability, bind,
      prisma_activity_findMany, ret. cbn [activities].
    assert (Hempty : filter (conflicts_with id s e ex)
                       (map (unassign_worker id) (activities db)) = []).
    { match goal with
      | |- ?l = [] => destruct l as [|a l'] eqn:El; [reflexivity|exfalso]
      end.
      assert (Ha : In a (a :: l')) by now left.
      rewrite <- El in Ha. apply filter_In in Ha. destruct Ha as [Hin Hc].
      unfold conflicts_with in Hc. rewrite !andb_true_iff in Hc.
      destruct Hc as (((Hw & _) & _) & _).
      apply workerId_is_spec in Hw. now apply (Hnone a Hin). }
    now rewrite Hempty.
Qed.

Lemma deleteWorker_keeps_statuses_witness :
  find (fun x => (User.id x =? id_W)%string) (users db0) = Some worker_W
  /\ exists db',
       deleteWorker id_W db0 = (mkResponse 204 no_body, db')
       /\ map Activity.status (activities db') = [VERIFIED; SCHEDULED]
       /\ forall a, In a (activities db') -> Activity.workerId a <> Some id_W.
Proof.
  split; [reflexivity|].
  destruct (@deleteWorker_keeps_statuses db0 id_W worker_W eq_refl)
    as (db' & Hrun & Hnone & Hst & _).
  exists db'. split; [exact Hrun|]. split; [exact Hst|exact Hnone].
Defined.

(** X19. A client that is still referred to cannot be deleted, and the
    refusal is not a 4xx: while a contract or an activity names the client,
    [delete] answers 500 "Internal server error" and removes nothing; a
    client that nothing names is removed with 204, contracts and activities
    staying as they were. *)
Theorem deleteClient_is_restricted
  (db : Db) (id : string) (c : Client.t)
  (Hfound : find (fun x => (Client.id x =? id)%string) (clients db) = Some c) :
  (client_in_use db id = true ->
   deleteClient id db
   = (mkResponse 500 (json_error (Text "Internal server error")), db))
  /\ (client_in_use db id = false ->
      exists db',
        deleteClient id db = (mkResponse 204 no_body, db')
        /\ has_client db' id = false
        /\ contracts db' = contracts db
        /\ activities db' = activities db
        /\ users db' = users db)
  /\ (client_in_use db id = true <->
      (exists k, In k (contracts db) /\ Contract.clientId k = id)
      \/ exists a, In a (activities db) /\ Activity.clientId a = id).
Proof.
  split; [|split].
  - intro Huse. unfold deleteClient, handled, bind, prisma_client_delete.
    now rewrite Hfound, Huse.
  - intro Hfree. eexists. split.
    { unfold deleteClient, handled, bind, prisma_client_delete.
      rewrite Hfound, Hfree. reflexivity. }
    split; [|repeat split].
    unfold has_client. cbn [clients].
    destruct (existsb _ _) eqn:E; [|reflexivity].
    apply existsb_exists in E. destruct E as (x & Hx & Hid).
    apply filter_In in Hx. destruct Hx as [_ Hx]. now rewrite Hid in Hx.
  - unfold client_in_use. rewrite orb_true_iff, !existsb_exists.
    split; (intros [(x & Hx & Hid)|(x & Hx & Hid)];
            [left|right]; exists x; split; try assumption;
            now apply String.eqb_eq).
Qed.

Lemma deleteClient_is_restricted_witness :
  find (fun x => (Client.id x =? id_C)%string) (clients db0) = Some client_C
  /\ client_in_use db0 id_C = true
  /\ deleteClient id_C db0
     = (mkResponse 500 (json_error (Text "Internal server error")), db0).
Proof.
  split; [reflexivity|]. split; [reflexivity|].
  apply (proj1 (@deleteClient_is_restricted db0 id_C client_C eq_refl)).
  reflexivity.
Defined.

(** ** More on availability *)

Lemma conflicts_with_narrower (w : string) (s e s' e' : Date)
  (ex : option string) (a : Activity.t) :
  s <= s' -> e' <= e ->
  conflicts_with w s' e' ex a = true -> conflicts_with w s e ex a = true.
Proof.
  intros Hs He. unfold conflicts_with.
  rewrite !andb_true_iff, !Z.leb_le, !Z.geb_le. intuition lia.
Qed.

(** X20. Availability is monotone in the interval and says nothing about
    whether the worker exists: a worker who is available over an interval is
    available over every interval inside it, every conflict over the
    narrower interval being one over the wider; and an identifier that no
    activity carries as its worker is available over every interval. *)
Theorem availability_is_monotone
  (db : Db) (w : string) (s e s' e' : Date) (ex : option string)
  (Hs : s <= s') (He : e' <= e) :
  let wide := fst (checkWorkerAvailability w s e ex db) in
  let narrow := fst (checkWorkerAvailability w s' e' ex db) in
  (forall a r r',
      wide = Ok r -> narrow = Ok r' ->
      In a (Availability.conflictingActivities r') ->
      In a (Availability.conflictingActivities r))
  /\ (wide = Ok (Availability.mk true []) ->
      narrow = Ok (Availability.mk true []))
  /\ ((forall a, In a (activities db) -> Activity.workerId a <> Some w) ->
      wide = Ok (Availability.mk true [])).
Proof.
  intros wide narrow. unfold wide, narrow, checkWorkerAvailability, bind,
    prisma_activity_findMany, ret. cbn [fst].
  split; [|split].
  - intros a r r' [= <-] [= <-]. cbn [Availability.conflictingActivities].
    rewrite !filter_In. intros [Hin Hc]. split; [exact Hin|].
    now apply (@conflicts_with_narrower w s e s' e' ex a Hs He).
  - intro H.
    assert (Hempty : filter (conflicts_with w s e ex) (activities db) = []).
    { destruct (filter (conflicts_with w s e ex) (activities db));
        [reflexivity|discriminate H]. }
    assert (Hnarrow : filter (conflicts_with w s' e' ex) (activities db) = []).
    { match goal with
      | |- ?l = [] => destruct l as [|a l'] eqn:El; [reflexivity|exfalso]
      end.
      assert (Ha : In a (a :: l')) by now left.
      rewrite <- El in Ha. apply filter_In in Ha. destruct Ha as [Hin Hc].
      apply (@conflicts_with_narrower w s e s' e' ex a Hs He) in Hc.
      assert (Hw : In a (filter (conflicts_with w s e ex) (activities db)))
        by (apply filter_In; now split).
      now rewrite Hempty in Hw. }
    now rewrite Hnarrow.
  - intro Hnobody.
    assert (Hempty : filter (conflicts_with w s e ex) (activities db) = []).
    { match goal with
      | |- ?l = [] => destruct l as [|a l'] eqn:El; [reflexivity|exfalso]
      end.
      assert (Ha : In a (a :: l')) by now left.
      rewrite <- El in Ha. apply filter_In in Ha. destruct Ha as [Hin Hc].
      unfold conflicts_with in Hc. rewrite !andb_true_iff in Hc.
      destruct Hc as (((Hw & _) & _) & _).
      apply workerId_is_spec in Hw. now apply (Hnobody a Hin). }
    now rewrite Hempty.
Qed.

Lemma availability_is_monotone_witness :
  16 * hour <= 17 * hour /\ 18 * hour <= 19 * hour
  /\ (fst (checkWorkerAvailability id_W (16 * hour) (19 * hour) None db0)
      = Ok (Availability.mk true []) ->
      fst (checkWorkerAvailability id_W (17 * hour) (18 * hour) None db0)
      = Ok (Availability.mk true [])).
Proof.
  split; [cbv; discriminate|]. split; [cbv; discriminate|].
  exact (proj1 (proj2 (@availability_is_monotone db0 id_W (16 * hour)
                         (19 * hour) (17 * hour) (18 * hour) None
                         ltac:(cbv; discriminate) ltac:(cbv; discriminate)))).
Defined.

(** X21. An assignment blocks the calendar: once [assign] has given an
    activity to a worker, a check of that worker over any interval that
    meets the activity's, end points included, is not available and lists
    the activity as it is now stored; the same check that excludes the
    activity does not list it. *)
Theorem assigned_activity_blocks_the_worker
  (db db' : Db) (id w : string) (a' : Activity.t) (s e : Date)
  (Hid : truthy_string id = true)
  (Hw : truthy_string w = true)
  (Hassigned : ActivitiesController.assignWorker id (value w) db
               = (mkResponse 200 (json_activity a'), db'))
  (Hmeets : Activity.scheduledStart a' <= e /\ s <= Activity.scheduledEnd a') :
  exists r r',
    checkWorkerAvailability w s e None db' = (Ok r, db')
    /\ Availability.available r = false
    /\ In a' (Availability.conflictingActivities r)
    /\ checkWorkerAvailability w s e (Some id) db' = (Ok r', db')
    /\ ~ In a' (Availability.conflictingActivities r').
Proof.
  assert (Hshape : Activity.id a' = id /\ Activity.workerId a' = Some w
                   /\ Activity.status a' = SCHEDULED
                   /\ In a' (activities db')).
  { unfold ActivitiesController.assignWorker in Hassigned.
    assert (Hfind : prisma_activity_findUnique id db
                    = (Ok (find (has_id id) (activities db)), db))
      by reflexivity.
    rewrite (@handled_bind_Ok _ _ _ _ _ _ Hfind) in Hassigned.
    destruct (find (has_id id) (activities db)) as [a|] eqn:Hfound;
      [|discriminate Hassigned].
    rewrite Hw in Hassigned.
    destruct (checkWorkerAvailability w (Activity.scheduledStart a)
                (Activity.scheduledEnd a) (Some id) db) as [res d] eqn:Hc.
    assert (Hd : d = db /\ exists av, res = Ok av).
    { unfold checkWorkerAvailability, bind, prisma_activity_findMany, ret in Hc.
      injection Hc as <- <-. split; [reflexivity|now eexists]. }
    destruct Hd as [-> [av ->]].
    rewrite (@handled_bind_Ok _ _ _ _ _ _ Hc) in Hassigned.
    destruct (negb (Availability.available av)); [discriminate Hassigned|].
    destruct (prisma_activity_update id
                (ActivitiesController.assign_data (value w)) db)
      as [res db1] eqn:Hu.
    assert (Hupd : (db1 = db /\ exists err, res = Throw err)
                   \/ exists a0,
                        find (has_id id) (activities db) = Some a0
                        /\ res = Ok (apply_update
                                      (ActivitiesController.assign_data (value w))
                                      (Some SCHEDULED) a0)
                        /\ db1 = rewritten id
                                   (apply_update
                                      (ActivitiesController.assign_data (value w))
                                      (Some SCHEDULED)) db).
    { unfold prisma_activity_update in Hu.
      rewrite assign_data_status in Hu. cbn [truthy] in Hu. rewrite Hw in Hu.
      destruct (find (has_id id) (activities db)) as [a0|];
        [|injection Hu as <- <-; left; eauto].
      destruct (update_fk _ _); injection Hu as <- <-; [|left; eauto].
      right. exists a0. repeat split. }
    destruct Hupd as [[-> [err ->]]|(a0 & Ha0 & -> & ->)].
    - rewrite (@handled_bind_Throw _ _ _ _ _ _ Hu) in Hassigned.
      destruct (errorHandler_json_error err) as (sc & m & E).
      rewrite E in Hassigned. discriminate Hassigned.
    - rewrite (@handled_bind_Ok _ _ _ _ _ _ Hu) in Hassigned.
      rewrite handled_ret in Hassigned. injection Hassigned as <- <-.
      apply find_some in Ha0. destruct Ha0 as [Hin Hida].
      repeat split.
      + now apply has_id_spec.
      + unfold rewritten. cbn [set_activities activities].
        apply in_map_iff. exists a0. now rewrite Hida. }
  destruct Hshape as (Hida & Hworker & Hst & Hin).
  do 2 eexists. split; [reflexivity|].
  cbn [Availability.available Availability.conflictingActivities].
  assert (Hconf : conflicts_with w s e None a' = true).
  { unfold conflicts_with. rewrite !andb_true_iff, workerId_is_spec,
      SCHEDULED_or_IN_PROGRESS_spec, Z.leb_le, Z.geb_le. tauto. }
  assert (Hlisted : In a' (filter (conflicts_with w s e None) (activities db')))
    by (apply filter_In; now split).
  split; [|split; [exact Hlisted|split; [reflexivity|]]].
  - destruct (filter (conflicts_with w s e None) (activities db'));
      [contradiction|reflexivity].
  - cbn [Availability.conflictingActivities].
    rewrite filter_In. intros [_ Hc]. unfold conflicts_with in Hc.
    rewrite Hid in Hc. rewrite !andb_true_iff, negb_true_iff in Hc.
    destruct Hc as (((_ & Hself) & _) & _).
    apply has_id_spec in Hida. congruence.
Qed.

Lemma assigned_activity_blocks_the_worker_witness :
  let a' := Activity.mk id_N "Visit" None id_C (Some id_W) SCHEDULED
              (30 * hour) (32 * hour) 2%float "Plant 3" None in
  let db' := mkDb [worker_W] [client_C] [contract_K] [a'] [] in
  ActivitiesController.assignWorker id_N (value id_W) db_unassigned
  = (mkResponse 200 (json_activity a'), db')
  /\ exists r,
       checkWorkerAvailability id_W (32 * hour) (40 * hour) None db'
       = (Ok r, db')
       /\ Availability.available r = false
       /\ In a' (Availability.conflictingActivities r).
Proof.
  intros a' db'.
  assert (Hassigned : ActivitiesController.assignWorker id_N (value id_W)
                        db_unassigned
                      = (mkResponse 200 (json_activity a'), db'))
    by (vm_compute; reflexivity).
  split; [exact Hassigned|].
  assert (Hmeets : Activity.scheduledStart a' <= 40 * hour
                   /\ 32 * hour <= Activity.scheduledEnd a')
    by (split; cbv; discriminate).
  assert (Hid : truthy_string id_N = true) by reflexivity.
  assert (Hw : truthy_string id_W = true) by reflexivity.
  pose proof (@assigned_activity_blocks_the_worker db_unassigned db' id_N id_W
                a' (32 * hour) (40 * hour) Hid Hw Hassigned Hmeets) as H.
  destruct H as (r & _ & Hr & Hav & Hin & _).
  exists r. split; [exact Hr|]. split; [exact Hav|exact Hin].
Defined.

(** ** The derived duration as an invariant of the store *)

Lemma durations_derived_rewritten (i : string) (f : Activity.t -> Activity.t)
  (db : Db) :
  (forall r, duration_derived r -> duration_derived (f r)) ->
  durations_derived db -> durations_derived (rewritten i f db).
Proof.
  intros Hf. unfold durations_derived, rewritten. cbn [set_activities activities].
  rewrite !Forall_forall. intros Hinv r Hin.
  apply in_map_iff in Hin. destruct Hin as (r0 & <- & Hin0).
  destruct (has_id i r0); auto.
Qed.

Lemma duration_derived_kept (d : ActivityUpdateInput.t)
  (st : option ActivityStatus) (r : Activity.t) :
  ActivityUpdateInput.scheduledStart d = None ->
  ActivityUpdateInput.scheduledEnd d = None ->
  ActivityUpdateInput.durationHours d = None ->
  duration_derived r -> duration_derived (apply_update d st r).
Proof.
  intros Hs He Hd. unfold duration_derived, apply_update.
  cbn [Activity.scheduledStart Activity.scheduledEnd Activity.durationHours].
  now rewrite Hs, He, Hd.
Qed.

Lemma durations_derived_run (A : Type) (m : Async A) (db : Db) (r : Response) :
  durations_derived db ->
  (forall x db', m db = (Ok x, db') -> durations_derived db') ->
  (forall e db', m db = (Throw e, db') -> db' = db) ->
  durations_derived (snd (handled (m ;; ret r) db)).
Proof.
  intros Hinv Hok Hthrow. destruct (m db) as [[x|e] db'] eqn:Hm.
  - rewrite (@handled_bind_Ok _ _ _ _ _ _ Hm), handled_ret. cbn [snd]. eauto.
  - rewrite (@handled_bind_Throw _ _ _ _ _ _ Hm). cbn [snd].
    now rewrite (Hthrow e db' eq_refl).
Qed.

Lemma find_None_existsb (A : Type) (p : A -> bool) (l : list A) :
  find p l = None -> existsb p l = false.
Proof.
  intro H. destruct (existsb p l) eqn:E; [|reflexivity].
  apply existsb_exists in E. destruct E as (x & Hin & Hp).
  pose proof (find_none p l H x Hin). congruence.
Qed.

(** X22. The derived duration is an invariant of the store: when every
    stored activity ends after it starts and has the duration computed from
    its bounds, the same holds after any request to create, update, assign,
    set the status of or delete an activity, after either invoice
    generation, and after the deletion of a contract or of a worker,
    whatever the request carries and whether it succeeds or fails. *)
Theorem derived_duration_is_invariant (db : Db) (Hinv : durations_derived db) :
  (forall new_id b,
      durations_derived (snd (ActivitiesController.create new_id b db)))
  /\ (forall id b,
         durations_derived (snd (ActivitiesController.update id b db)))
  /\ (forall id w,
         durations_derived (snd (ActivitiesController.assignWorker id w db)))
  /\ (forall id st,
         durations_derived (snd (ActivitiesController.updateStatus id st db)))
  /\ (forall id, durations_derived (snd (ActivitiesQueries.deleteActivity id db)))
  /\ (forall new_id c s e,
         durations_derived (snd (generateClientInvoice new_id c s e db)))
  /\ (forall new_id w s e,
         durations_derived (snd (generateWorkerPayout new_id w s e db)))
  /\ (forall id, durations_derived (snd (ContractsCRUD.deleteContract id db)))
  /\ (forall id, durations_derived (snd (deleteWorker id db))).
Proof.
  repeat match goal with |- _ /\ _ => split end.
  - intros new_id b.
    destruct (create_outcome new_id b db) as [[-> _]|(Hv & _ & _ & ->)];
      [exact Hinv|].
    cbn [snd]. unfold durations_derived. cbn [set_activities activities].
    apply Forall_app. split; [exact Hinv|].
    constructor; [|constructor].
    apply validateActivity_Ok in Hv. destruct Hv as (_ & _ & _ & Hlt).
    split; [exact Hlt|reflexivity].
  - intros id b.
    destruct (update_outcome id b db) as [->|(Hv & st & ->)]; [exact Hinv|].
    apply durations_derived_rewritten; [|exact Hinv].
    intros r _. apply validateActivity_Ok in Hv.
    destruct Hv as (_ & _ & _ & Hlt). split; [exact Hlt|reflexivity].
  - intros id w.
    destruct (assignWorker_outcome id w db) as [->|(st & ->)]; [exact Hinv|].
    apply durations_derived_rewritten; [|exact Hinv].
    intro r. now apply duration_derived_kept.
  - intros id st.
    destruct (updateStatus_outcome id st db) as [->|(st' & ->)]; [exact Hinv|].
    apply durations_derived_rewritten; [|exact Hinv].
    intro r. now apply duration_derived_kept.
  - intro id. unfold ActivitiesQueries.deleteActivity.
    apply durations_derived_run; [exact Hinv| |];
      unfold prisma_activity_delete;
      destruct (find (has_id id) (activities db)); intros x db' [= <- <-];
      try reflexivity; try discriminate.
    unfold durations_derived in *. cbn [set_activities activities].
    rewrite Forall_forall in *. intros r Hin. apply filter_In in Hin.
    now apply Hinv.
  - intros new_id c s e.
    destruct (find (fun x => (Client.id x =? c)%string) (clients db))
      as [client|] eqn:Hc.
    + rewrite (@generateClientInvoice_run db new_id c s e client Hc).
      cbn [snd]. unfold durations_derived in *. cbn [activities].
      rewrite Forall_forall in *. intros r Hin.
      apply in_map_iff in Hin. destruct Hin as (r0 & <- & Hin0).
      destruct (id_in _ r0); [|now apply Hinv].
      exact (Hinv r0 Hin0).
    + assert (Hno : has_client db c = false)
        by (unfold has_client; now apply find_None_existsb).
      now rewrite (proj1 (invoice_missing_target db new_id c s e) Hno).
  - intros new_id w s e.
    destruct (find (fun u => (User.id u =? w)%string) (users db))
      as [worker|] eqn:Hw.
    + now rewrite (@generateWorkerPayout_run db new_id w s e worker Hw).
    + assert (Hno : has_user db w = false)
        by (unfold has_user; now apply find_None_existsb).
      now rewrite (proj2 (invoice_missing_target db new_id w s e) Hno).
  - intro id. unfold ContractsCRUD.deleteContract.
    apply durations_derived_run; [exact Hinv| |];
      unfold prisma_contract_delete;
      destruct (find (contract_has_id id) (contracts db)); intros x db' [= <- <-];
      try reflexivity; try discriminate.
    unfold durations_derived in *. cbn [activities].
    rewrite Forall_forall in *. intros r Hin.
    apply in_map_iff in Hin. destruct Hin as (r0 & <- & Hin0).
    unfold unlink_contract. destruct (linked_to id r0); [|now apply Hinv].
    exact (Hinv r0 Hin0).
  - intro id. unfold deleteWorker.
    apply durations_derived_run; [exact Hinv| |];
      unfold prisma_user_delete;
      destruct (find _ (users db)); intros x db' [= <- <-];
      try reflexivity; try discriminate.
    unfold durations_derived in *. cbn [activities].
    rewrite Forall_forall in *. intros r Hin.
    apply in_map_iff in Hin. destruct Hin as (r0 & <- & Hin0).
    unfold unassign_worker. destruct (workerId_is id r0); [|now apply Hinv].
    exact (Hinv r0 Hin0).
Qed.

Lemma durations_derived_db0 : durations_derived db0.
Proof.
  unfold durations_derived, db0. cbn [activities].
  repeat constructor; vm_compute; reflexivity.
Qed.

Lemma derived_duration_is_invariant_witness :
  durations_derived db0
  /\ durations_derived
       (snd (ActivitiesController.updateStatus id_B (value "DONE") db0))
  /\ durations_derived (snd (deleteWorker id_W db0)).
Proof.
  split; [exact durations_derived_db0|].
  destruct (@derived_duration_is_invariant db0 durations_derived_db0)
    as (_ & _ & _ & Hstatus & _ & _ & _ & _ & Hdelete).
  split; [apply Hstatus|apply Hdelete].
Defined.

(** ** The listing of [controllers/activities.js] *)

Lemma insert_by_scheduledStart_perm (a : Activity.t) (l : list Activity.t) :
  Permutation (insert_by_scheduledStart a l) (a :: l).
Proof.
  induction l as [|b l IH]; cbn [insert_by_scheduledStart]; [reflexivity|].
  destruct (_ <=? _); [reflexivity|].
  rewrite IH. apply perm_swap.
Qed.

Lemma orderBy_scheduledStart_asc_perm (l : list Activity.t) :
  Permutation (orderBy_scheduledStart_asc l) l.
Proof.
  induction l as [|a l IH]; cbn [orderBy_scheduledStart_asc fold_right];
    [reflexivity|].
  rewrite insert_by_scheduledStart_perm. now constructor.
Qed.

Lemma insert_by_scheduledStart_sorted (a : Activity.t) (l : list Activity.t) :
  StronglySorted starts_no_later l ->
  StronglySorted starts_no_later (insert_by_scheduledStart a l).
Proof.
  induction 1 as [|b l Hs IH Hb]; cbn [insert_by_scheduledStart].
  - repeat constructor.
  - destruct (Z.leb_spec (Activity.scheduledStart a) (Activity.scheduledStart b))
      as [Hle|Hgt].
    + constructor; [now constructor|].
      constructor; [exact Hle|].
      rewrite Forall_forall in *. intros x Hx.
      specialize (Hb x Hx). unfold starts_no_later in *. lia.
    + constructor; [exact IH|].
      rewrite Forall_forall in *. intros x Hx.
      apply (Permutation_in _ (insert_by_scheduledStart_perm a l)) in Hx.
      destruct Hx as [<-|Hx]; [unfold starts_no_later; lia|now apply Hb].
Qed.

Lemma orderBy_scheduledStart_asc_sorted (l : list Activity.t) :
  StronglySorted starts_no_later (orderBy_scheduledStart_asc l).
Proof.
  induction l as [|a l IH]; cbn [orderBy_scheduledStart_asc fold_right].
  - constructor.
  - now apply insert_by_scheduledStart_sorted.
Qed.

(** X23. The listing: when the [status] parameter is absent, empty or one of
    the six names, [list] answers 200 with the stored activities that pass
    every filter given, each exactly as often as it is stored, in ascending
    order of [scheduledStart], and leaves the store as it was.  A parameter
    that is absent or empty filters nothing, and the two dates filter only
    together: when either is absent, an activity is listed whatever its
    start.  A [status] that names no value of the enumeration gets the 500
    of an unexpected error. *)
Theorem list_is_a_sorted_selection (q : ActivityQuery.t) (db : Db) :
  (status_filter (ActivityQuery.status q) = Ok tt ->
   exists l,
     ActivitiesQueries.list q db = (sent 200 l, db)
     /\ Permutation l (filter (list_where q) (activities db))
     /\ StronglySorted starts_no_later l
     /\ forall a,
          In a l <->
          In a (activities db)
          /\ (forall s, ActivityQuery.status q = Some s -> s <> "" ->
                        ActivityStatus_to_string (Activity.status a) = s)
          /\ (forall w, ActivityQuery.workerId q = Some w -> w <> "" ->
                        Activity.workerId a = Some w)
          /\ (forall c, ActivityQuery.clientId q = Some c -> c <> "" ->
                        Activity.clientId a = c)
          /\ (forall c, ActivityQuery.contractId q = Some c -> c <> "" ->
                        Activity.contractId a = Some c)
          /\ (forall s e, ActivityQuery.startDate q = Some s ->
                          ActivityQuery.endDate q = Some e ->
                          s <= Activity.scheduledStart a <= e))
  /\ (status_filter (ActivityQuery.status q) <> Ok tt ->
      ActivitiesQueries.list q db
      = (failed (mkResponse 500 (json_error (Text "Internal server error"))),
         db)).
Proof.
  unfold ActivitiesQueries.list, handled_as, bind, lift,
    prisma_activity_findMany, ret.
  split.
  - intros ->. eexists. split; [reflexivity|].
    split; [apply orderBy_scheduledStart_asc_perm|].
    split; [apply orderBy_scheduledStart_asc_sorted|].
    intro a.
    rewrite (Permutation_in' eq_refl
               (orderBy_scheduledStart_asc_perm
                  (filter (list_where q) (activities db)))).
    rewrite filter_In. apply and_iff_compat_l.
    unfold list_where, when_given. rewrite !andb_true_iff.
    destruct q as [st w c k sd ed]. cbn [ActivityQuery.status
      ActivityQuery.workerId ActivityQuery.clientId ActivityQuery.contractId
      ActivityQuery.startDate ActivityQuery.endDate].
    assert (Hgiven : forall (x : option string) (p : string -> bool) (P : string -> Prop),
               (forall s, p s = true <-> P s) ->
               match x with
               | Some s => if truthy_string s then p s else true
               | None => true
               end = true
               <-> (forall s, x = Some s -> s <> "" -> P s)).
    { intros x p P Hp. destruct x as [s|].
      - destruct (truthy_string s) eqn:Ht.
        + rewrite Hp. split; [now intros H s' [= <-] _|].
          intro H. apply (H s eq_refl). intros ->. discriminate Ht.
        + split; [|reflexivity]. intros _ s' [= <-] Hne.
          apply truthy_string_spec in Hne. congruence.
      - split; [discriminate|reflexivity]. }
    rewrite (Hgiven st _ (fun s => ActivityStatus_to_string (Activity.status a) = s))
      by (intro; apply String.eqb_eq).
    rewrite (Hgiven w _ (fun w => Activity.workerId a = Some w))
      by (intro; apply workerId_is_spec).
    rewrite (Hgiven c _ (fun c => Activity.clientId a = c))
      by (intro; apply String.eqb_eq).
    rewrite (Hgiven k _ (fun c => Activity.contractId a = Some c))
      by (intro; apply linked_to_spec).
    assert (Hdates : match sd, ed with
                     | Some startDate, Some endDate =>
                         (Activity.scheduledStart a >=? startDate)
                         && (Activity.scheduledStart a <=? endDate)
                     | _, _ => true
                     end = true
                     <-> forall s e, sd = Some s -> ed = Some e ->
                                     s <= Activity.scheduledStart a <= e).
    { destruct sd as [s|], ed as [e|];
        try (split; [intros _ ? ? ? ?; discriminate|reflexivity]).
      rewrite andb_true_iff, Z.geb_le, Z.leb_le.
      split; [now intros H ? ? [= <-] [= <-]|]. intro H. now apply H. }
    rewrite Hdates. tauto.
  - intro Hbad. destruct (status_filter (ActivityQuery.status q)) as [[]|e] eqn:E;
      [now elim Hbad|].
    assert (He : e = PrismaClientValidationError).
    { unfold status_filter in E.
      destruct (ActivityQuery.status q) as [s|]; [|discriminate E].
      destruct (truthy_string s); [|discriminate E].
      destruct (ActivityStatus_of_string s); [discriminate E|congruence]. }
    now subst e.
Qed.

Lemma list_is_a_sorted_selection_witness :
  let q := ActivityQuery.mk (Some "SCHEDULED") None (Some id_C) None
             (Some (15 * hour)) None in
  status_filter (ActivityQuery.status q) = Ok tt
  /\ exists l,
       ActivitiesQueries.list q db0 = (sent 200 l, db0)
       /\ Permutation l (filter (list_where q) (activities db0))
       /\ StronglySorted starts_no_later l.
Proof.
  intro q. split; [reflexivity|].
  destruct (proj1 (@list_is_a_sorted_selection q db0) eq_refl)
    as (l & Hl & Hperm & Hsorted & _).
  exists l. split; [exact Hl|]. split; [exact Hperm|exact Hsorted].
Defined.

(** ** Updating a contract *)

Lemma with_body_everywhere_else (i : string) (data : ContractBody.t)
  (l : list Contract.t) :
  ~ In i (map Contract.id l) ->
  map (fun x => if contract_has_id i x then with_body data x else x) l = l.
Proof.
  induction l as [|x l IH]; [reflexivity|]. cbn [map]. intro Hnot.
  rewrite IH by (intro H; apply Hnot; now right).
  destruct (contract_has_id i x) eqn:E; [|reflexivity].
  unfold contract_has_id in E. apply String.eqb_eq in E.
  elim Hnot. now left.
Qed.

Lemma update_keeps_orders_distinct (i : string) (data : ContractBody.t)
  (l : list Contract.t) :
  NoDup (map Contract.id l) ->
  NoDup (map (fun k => (Contract.clientId k, Contract.orderNumber k)) l) ->
  existsb (fun x => negb (contract_has_id i x)
                    && same_order (ContractBody.clientId data)
                         (ContractBody.orderNumber data) x) l = false ->
  NoDup (map (fun k => (Contract.clientId k, Contract.orderNumber k))
           (map (fun x => if contract_has_id i x then with_body data x else x) l)).
Proof.
  induction l as [|x l IH]; [constructor|].
  cbn [map existsb]. intros Hids Hkeys Hfree.
  inversion Hids as [|? ? Hid Hids']; subst.
  inversion Hkeys as [|? ? Hkey Hkeys']; subst.
  apply orb_false_iff in Hfree. destruct Hfree as [Hx Hfree].
  assert (Helse : forall y, In y l -> contract_has_id i y = false ->
                            (Contract.clientId y, Contract.orderNumber y)
                            <> (ContractBody.clientId data,
                                ContractBody.orderNumber data)).
  { intros y Hy Hny Heq. apply same_order_spec in Heq.
    assert (H : existsb (fun x => negb (contract_has_id i x)
                                  && same_order (ContractBody.clientId data)
                                       (ContractBody.orderNumber data) x) l
                = true)
      by (apply existsb_exists; exists y; now rewrite Hny, Heq).
    congruence. }
  destruct (contract_has_id i x) eqn:E.
  - unfold contract_has_id in E. apply String.eqb_eq in E. subst i.
    rewrite (@with_body_everywhere_else (Contract.id x) data l Hid).
    constructor; [|exact Hkeys'].
    cbn [with_body Contract.clientId Contract.orderNumber].
    intro Hin. apply in_map_iff in Hin. destruct Hin as (y & Hy & Hyin).
    refine (Helse y Hyin _ Hy).
    unfold contract_has_id. apply String.eqb_neq. intro Heq.
    apply Hid. rewrite <- Heq. apply in_map_iff. now exists y.
  - constructor; [|now apply IH].
    intro Hin. apply in_map_iff in Hin. destruct Hin as (y' & Hy' & Hyin').
    apply in_map_iff in Hyin'. destruct Hyin' as (y & <- & Hyin).
    destruct (contract_has_id i y) eqn:Ey.
    + cbn [with_body Contract.clientId Contract.orderNumber] in Hy'.
      cbn [negb andb] in Hx.
      assert (Hsame : same_order (ContractBody.clientId data)
                        (ContractBody.orderNumber data) x = true)
        by (apply same_order_spec; now rewrite Hy').
      congruence.
    + apply Hkey. rewrite <- Hy'. apply in_map_iff. now exists y.
Qed.

(** X24. Updating a contract keeps the order numbers of each client
    distinct, as does deleting one; the update of an unknown identifier
    answers 404 "Not found" and an order number that another contract of the
    client carries 409 "Duplicate entry", both storing nothing; a body that
    repeats the contract's own client and order number is no duplicate, and
    the contract then takes the body's hours and dates and keeps its
    identifier and status, without any look at the hours its activities have
    used. *)
Theorem contract_update_keeps_orders_unique
  (db : Db) (id : string) (b : ContractBody.t)
  (Hids : NoDup (map Contract.id (contracts db)))
  (Hunique : orders_unique db)
  (Hvalid : validateContract b = Ok b) :
  orders_unique (snd (ContractsCRUD.update id b db))
  /\ orders_unique (snd (ContractsCRUD.deleteContract id db))
  /\ (find (contract_has_id id) (contracts db) = None ->
      ContractsCRUD.update id b db
      = (failed (mkResponse 404 (json_error (Text "Not found"))), db))
  /\ (forall k other,
        find (contract_has_id id) (contracts db) = Some k ->
        In other (contracts db) -> Contract.id other <> id ->
        Contract.clientId other = ContractBody.clientId b ->
        Contract.orderNumber other = ContractBody.orderNumber b ->
        ContractsCRUD.update id b db
        = (failed (mkResponse 409 (json_error (Text "Duplicate entry"))), db))
  /\ (forall k,
        find (contract_has_id id) (contracts db) = Some k ->
        ContractBody.clientId b = Contract.clientId k ->
        ContractBody.orderNumber b = Contract.orderNumber k ->
        has_client db (Contract.clientId k) = true ->
        exists db',
          ContractsCRUD.update id b db = (sent 200 (with_body b k), db')
          /\ find (contract_has_id id) (contracts db') = Some (with_body b k)
          /\ Contract.id (with_body b k) = Contract.id k
          /\ Contract.status (with_body b k) = Contract.status k
          /\ Contract.totalHours (with_body b k) = ContractBody.totalHours b
          /\ activities db' = activities db).
Proof.
  unfold ContractsCRUD.update, handled_as, bind, lift. rewrite Hvalid.
  unfold prisma_contract_update.
  split; [|split; [|split; [|split]]].
  - destruct (find (contract_has_id id) (contracts db)) as [k|];
      [|exact Hunique].
    destruct (existsb _ (contracts db)) eqn:Hfree; [exact Hunique|].
    destruct (has_client db _); [|exact Hunique].
    cbn [snd ret]. unfold orders_unique in *. cbn [set_contracts contracts].
    now apply update_keeps_orders_distinct.
  - unfold ContractsCRUD.deleteContract, handled, bind, prisma_contract_delete.
    destruct (find (contract_has_id id) (contracts db)) as [k|];
      [|exact Hunique].
    cbn [snd ret]. unfold orders_unique in *. cbn [contracts].
    clear - Hunique. induction (contracts db) as [|x l IH]; [constructor|].
    cbn [map] in Hunique. inversion Hunique as [|? ? Hx Hl]; subst.
    cbn [filter]. destruct (negb (contract_has_id id x)); [|now apply IH].
    cbn [map]. constructor; [|now apply IH].
    intro Hin. apply Hx. apply in_map_iff in Hin.
    destruct Hin as (y & Hy & Hyin). apply filter_In in Hyin.
    rewrite <- Hy. apply in_map_iff. now exists y.
  - now intros ->.
  - intros k other -> Hin Hother Hc Ho.
    assert (Hdup : existsb
                     (fun x => negb (contract_has_id id x)
                               && same_order (ContractBody.clientId b)
                                    (ContractBody.orderNumber b) x)
                     (contracts db) = true).
    { apply existsb_exists. exists other. split; [exact Hin|].
      apply andb_true_iff. split.
      - apply negb_true_iff. unfold contract_has_id. now apply String.eqb_neq.
      - apply same_order_spec. now rewrite Hc, Ho. }
    now rewrite Hdup.
  - intros k Hk Hc Ho Hclient. rewrite Hk.
    assert (Hfree : existsb
                      (fun x => negb (contract_has_id id x)
                                && same_order (ContractBody.clientId b)
                                     (ContractBody.orderNumber b) x)
                      (contracts db) = false).
    { destruct (existsb _ (contracts db)) eqn:E; [|reflexivity].
      apply existsb_exists in E. destruct E as (x & Hx & Hb).
      apply andb_true_iff in Hb. destruct Hb as [Hnot Hsame].
      apply same_order_spec in Hsame. rewrite Hc, Ho in Hsame.
      apply find_some in Hk. destruct Hk as [Hkin Hkid].
      unfold orders_unique in Hunique.
      assert (Hxk : x = k).
      { clear - Hunique Hx Hkin Hsame.
        induction (contracts db) as [|y l IH]; [contradiction|].
        cbn [map] in Hunique. inversion Hunique as [|? ? Hy Hl]; subst.
        destruct Hx as [->|Hx], Hkin as [->|Hkin]; try reflexivity.
        - elim Hy. rewrite Hsame. apply in_map_iff. now exists k.
        - elim Hy. rewrite <- Hsame. apply in_map_iff. now exists x.
        - now apply IH. }
      subst x. now rewrite Hkid in Hnot. }
    rewrite Hfree, Hc, Hclient. eexists. split; [reflexivity|].
    cbn [set_contracts contracts activities].
    split; [|repeat split].
    clear - Hk. induction (contracts db) as [|x l IH]; [discriminate|].
    cbn [find map] in *. destruct (contract_has_id id x) eqn:E.
    + injection Hk as ->.
      assert (Hid : contract_has_id id (with_body b k) = true) by exact E.
      now rewrite Hid.
    + rewrite E. now apply IH.
Qed.

Lemma contract_update_keeps_orders_unique_witness :
  let b := body_order "PO-1" 2 in
  NoDup (map Contract.id (contracts db0))
  /\ validateContract b = Ok b
  /\ orders_unique (snd (ContractsCRUD.update id_K b db0))
  /\ exists db',
       ContractsCRUD.update id_K b db0 = (sent 200 (with_body b contract_K), db')
       /\ find (contract_has_id id_K) (contracts db') = Some (with_body b contract_K)
       /\ activities db' = activities db0.
Proof.
  intro b.
  assert (Hids : NoDup (map Contract.id (contracts db0)))
    by (cbn; repeat constructor; intros []).
  assert (Hvalid : validateContract b = Ok b) by (vm_compute; reflexivity).
  split; [exact Hids|]. split; [exact Hvalid|].
  destruct (@contract_update_keeps_orders_unique db0 id_K b Hids
              orders_unique_db0 Hvalid) as (Hkept & _ & _ & _ & Hown).
  split; [exact Hkept|].
  destruct (Hown contract_K eq_refl eq_refl eq_refl eq_refl)
    as (db' & Hrun & Hfound & _ & _ & _ & Hsame).
  exists db'. split; [exact Hrun|]. split; [exact Hfound|exact Hsame].
Defined.
